(** * EcoCircle: the posts store (reducer), the posts gateway and the
      moderation adapter, embedded from the TypeScript sources.

    - [Store]      : src/context/postsContext.tsx   (postsReducer)
    - [Gateway]    : src/services/postsService.ts   (createPost, toggleLike)
    - [Context]    : src/context/postsContext.tsx   (the toggleLike action creator)
    - [Moderation] : src/services/geminiValidationService.ts (validatePostContent)

    JavaScript numbers that hold counters are read as integers ([Z]);
    an optional field [f?: T] is an [option T] ([None] is [undefined]). *)

From Stdlib Require Import ZArith List String Ascii Bool Lia QArith Qminmax.
Import ListNotations.
Local Open Scope Z_scope.
Local Open Scope string_scope.

(** ** JavaScript idioms used by the sources *)

Module Js.

(** [x || 0] on [number | undefined]. *)
Definition orZero (x : option Z) : Z :=
  match x with
  | Some n => n
  | None => 0
  end.

(** Truthiness of [string | undefined | null]: the empty string is falsy. *)
Definition truthy_str (x : option string) : bool :=
  match x with
  | Some s => negb (s =? "")
  | None => false
  end.

(** [x || d] on [string | undefined]. *)
Definition orStr (x : option string) (d : string) : string :=
  match x with
  | Some s => if s =? "" then d else s
  | None => d
  end.

(** [x || null] on [string | undefined]: a falsy string becomes null. *)
Definition orNull (x : option string) : option string :=
  match x with
  | Some s => if s =? "" then None else Some s
  | None => None
  end.

(** Spread of one optional key of a [Partial<T>] over a field: an absent
    key keeps the field, a present key replaces it. *)
Definition spread {A : Type} (old : A) (upd : option A) : A :=
  match upd with
  | Some v => v
  | None => old
  end.

End Js.

(** ** The synchronization store: src/context/postsContext.tsx *)

Module Store.
Import Js.

(** [interface Post] of postsService.ts. *)
Record Post := mkPost {
  id : string;
  user_id : string;
  title : option string;
  content : option string;
  image_url : option string;
  category : string;
  created_at : string;
  updated_at : string;
  like_count : option Z;
  comment_count : option Z;
  user_email : option string;
  user_name : option string;
  is_liked : option bool
}.

(** [Partial<Post>]: every key may be absent; a key of an optional field
    may also be present and hold [undefined]. *)
Record PartialPost := mkPartialPost {
  u_id : option string;
  u_user_id : option string;
  u_title : option (option string);
  u_content : option (option string);
  u_image_url : option (option string);
  u_category : option string;
  u_created_at : option string;
  u_updated_at : option string;
  u_like_count : option (option Z);
  u_comment_count : option (option Z);
  u_user_email : option (option string);
  u_user_name : option (option string);
  u_is_liked : option (option bool)
}.

(** [interface Comment] of postsService.ts. *)
Record Comment := mkComment {
  c_id : string;
  c_post_id : string;
  c_user_id : string;
  c_content : string;
  c_created_at : string;
  c_updated_at : string;
  c_user_email : option string;
  c_user_name : option string
}.

(** [interface PostsState]. *)
Record PostsState := mkState {
  posts : list Post;
  userPosts : list Post;
  currentPost : option Post;
  comments : list Comment;
  loading : bool;
  error : option string;
  refreshing : bool
}.

(** [type PostsAction]. *)
Inductive PostsAction :=
| SET_LOADING (payload : bool)
| SET_REFRESHING (payload : bool)
| SET_ERROR (payload : option string)
| SET_POSTS (payload : list Post)
| SET_USER_POSTS (payload : list Post)
| SET_CURRENT_POST (payload : option Post)
| SET_COMMENTS (payload : list Comment)
| ADD_POST (payload : Post)
| UPDATE_POST (postId : string) (updates : PartialPost)
| DELETE_POST (payload : string)
| TOGGLE_LIKE (postId : string) (isLiked : bool) (likeDelta : Z)
| ADD_COMMENT (payload : Comment)
| UPDATE_COMMENT (commentId : string) (content : string)
| DELETE_COMMENT (payload : string)
| CLEAR_ERROR
| CLEAR_CURRENT_POST.

Definition initialState : PostsState :=
  mkState [] [] None [] false None false.

(** [{ ...post, ...updates }] *)
Definition merge (post : Post) (u : PartialPost) : Post :=
  mkPost
    (spread (id post) (u_id u))
    (spread (user_id post) (u_user_id u))
    (spread (title post) (u_title u))
    (spread (content post) (u_content u))
    (spread (image_url post) (u_image_url u))
    (spread (category post) (u_category u))
    (spread (created_at post) (u_created_at u))
    (spread (updated_at post) (u_updated_at u))
    (spread (like_count post) (u_like_count u))
    (spread (comment_count post) (u_comment_count u))
    (spread (user_email post) (u_user_email u))
    (spread (user_name post) (u_user_name u))
    (spread (is_liked post) (u_is_liked u)).

(** [{ ...post, is_liked: isLiked, like_count: (post.like_count || 0) + likeDelta }] *)
Definition withLike (post : Post) (isLiked : bool) (likeDelta : Z) : Post :=
  mkPost (id post) (user_id post) (title post) (content post)
    (image_url post) (category post) (created_at post) (updated_at post)
    (Some (orZero (like_count post) + likeDelta))
    (comment_count post) (user_email post) (user_name post)
    (Some isLiked).

(** [{ ...post, comment_count: n }] *)
Definition withCommentCount (post : Post) (n : Z) : Post :=
  mkPost (id post) (user_id post) (title post) (content post)
    (image_url post) (category post) (created_at post) (updated_at post)
    (like_count post) (Some n) (user_email post) (user_name post)
    (is_liked post).

(** [{ ...comment, content }] *)
Definition withContent (c : Comment) (content : string) : Comment :=
  mkComment (c_id c) (c_post_id c) (c_user_id c) content
    (c_created_at c) (c_updated_at c) (c_user_email c) (c_user_name c).

(** The per-case helpers of the reducer (the arrow functions that are
    mapped over a feed). *)
Definition updatePosts (postId : string) (updates : PartialPost)
    (ps : list Post) : list Post :=
  map (fun post => if id post =? postId then merge post updates else post) ps.

Definition toggleLikePosts (postId : string) (isLiked : bool) (likeDelta : Z)
    (ps : list Post) : list Post :=
  map (fun post =>
         if id post =? postId then withLike post isLiked likeDelta else post) ps.

Definition incrementCommentCount (payload : Comment) (ps : list Post)
    : list Post :=
  map (fun post =>
         if id post =? c_post_id payload
         then withCommentCount post (orZero (comment_count post) + 1)
         else post) ps.

(** [state.comments.find(c => c.id === action.payload)] *)
Definition findComment (cs : list Comment) (cid : string)
    : option Comment :=
  find (fun c => c_id c =? cid) cs.

Definition decrementCommentCount (cs : list Comment) (payload : string)
    (ps : list Post) : list Post :=
  map (fun post =>
         match findComment cs payload with
         | Some deletedComment =>
             if id post =? c_post_id deletedComment
             then withCommentCount post
                    (Z.max (orZero (comment_count post) - 1) 0)
             else post
         | None => post
         end) ps.

(** [function postsReducer(state, action)]. *)
Definition postsReducer (state : PostsState) (action : PostsAction)
    : PostsState :=
  match action with
  | SET_LOADING payload =>
      mkState (posts state) (userPosts state) (currentPost state)
        (comments state) payload (error state) (refreshing state)
  | SET_REFRESHING payload =>
      mkState (posts state) (userPosts state) (currentPost state)
        (comments state) (loading state) (error state) payload
  | SET_ERROR payload =>
      mkState (posts state) (userPosts state) (currentPost state)
        (comments state) false payload false
  | SET_POSTS payload =>
      mkState payload (userPosts state) (currentPost state)
        (comments state) false (error state) false
  | SET_USER_POSTS payload =>
      mkState (posts state) payload (currentPost state)
        (comments state) false (error state) false
  | SET_CURRENT_POST payload =>
      mkState (posts state) (userPosts state) payload
        (comments state) false (error state) (refreshing state)
  | SET_COMMENTS payload =>
      mkState (posts state) (userPosts state) (currentPost state)
        payload false (error state) (refreshing state)
  | ADD_POST payload =>
      mkState (payload :: posts state) (payload :: userPosts state)
        (currentPost state) (comments state) false (error state)
        (refreshing state)
  | UPDATE_POST postId updates =>
      mkState (updatePosts postId updates (posts state))
        (updatePosts postId updates (userPosts state))
        (match currentPost state with
         | Some cur =>
             if id cur =? postId then Some (merge cur updates) else Some cur
         | None => None
         end)
        (comments state) false (error state) (refreshing state)
  | DELETE_POST payload =>
      mkState (filter (fun post => negb (id post =? payload)) (posts state))
        (filter (fun post => negb (id post =? payload)) (userPosts state))
        (match currentPost state with
         | Some cur => if id cur =? payload then None else Some cur
         | None => None
         end)
        (comments state) false (error state) (refreshing state)
  | TOGGLE_LIKE postId isLiked likeDelta =>
      mkState (toggleLikePosts postId isLiked likeDelta (posts state))
        (toggleLikePosts postId isLiked likeDelta (userPosts state))
        (match currentPost state with
         | Some cur =>
             if id cur =? postId
             then Some (withLike cur isLiked likeDelta)
             else Some cur
         | None => None
         end)
        (comments state) (loading state) (error state) (refreshing state)
  | ADD_COMMENT payload =>
      mkState (incrementCommentCount payload (posts state))
        (incrementCommentCount payload (userPosts state))
        (match currentPost state with
         | Some cur =>
             if id cur =? c_post_id payload
             then Some (withCommentCount cur
                          (orZero (comment_count cur) + 1))
             else Some cur
         | None => None
         end)
        (comments state ++ [payload])
        (loading state) (error state) (refreshing state)
  | UPDATE_COMMENT commentId content =>
      mkState (posts state) (userPosts state) (currentPost state)
        (map (fun comment =>
                if c_id comment =? commentId
                then withContent comment content
                else comment) (comments state))
        (loading state) (error state) (refreshing state)
  | DELETE_COMMENT payload =>
      let deletedComment := findComment (comments state) payload in
      mkState (decrementCommentCount (comments state) payload (posts state))
        (decrementCommentCount (comments state) payload (userPosts state))
        (match deletedComment, currentPost state with
         | Some d, Some cur =>
             if id cur =? c_post_id d
             then Some (withCommentCount cur
                          (Z.max (orZero (comment_count cur) - 1) 0))
             else Some cur
         | _, cur => cur
         end)
        (filter (fun comment => negb (c_id comment =? payload))
           (comments state))
        (loading state) (error state) (refreshing state)
  | CLEAR_ERROR =>
      mkState (posts state) (userPosts state) (currentPost state)
        (comments state) (loading state) None (refreshing state)
  | CLEAR_CURRENT_POST =>
      mkState (posts state) (userPosts state) None []
        (loading state) (error state) (refreshing state)
  end.

(** Dispatching a list of actions, in order; [trace] keeps the snapshot
    reached after each single transition. *)
Definition run (state : PostsState) (acts : list PostsAction) : PostsState :=
  fold_left postsReducer acts state.

Fixpoint trace (state : PostsState) (acts : list PostsAction)
    : list PostsState :=
  match acts with
  | [] => []
  | a :: rest =>
      let state' := postsReducer state a in
      state' :: trace state' rest
  end.

End Store.

(** ** The content gateway: src/services/postsService.ts

    The Supabase client and the image upload service are external
    collaborators.  The tables the gateway writes are kept as an explicit
    database state [Db]; what the collaborators answer during one call
    (the session user, the upload result, a rejection by the store, the
    writes other sessions make between two awaits) is the [Env] of that
    call. *)

Module Gateway.
Import Js.

(** What an awaited call does: it resolves to a value or it throws. *)
Inductive Outcome (A : Type) :=
| Returned (a : A)
| Thrown (e : string).
Arguments Returned {A} a.
Arguments Thrown {A} e.

(** The [error: any] member of a gateway result. *)
Inductive GwError :=
| ErrMessage (msg : string)
| ErrStore (code : string) (message : string)
| ErrThrown (e : string).

(** [ImagePicker.ImagePickerAsset], the members the gateway copies. *)
Record ImageAsset := mkImageAsset {
  uri : string;
  width : Z;
  height : Z;
  fileSize : option Z;
  type : option string
}.

(** [interface ImageUploadResult] *)
Record ImageUploadResult := mkUpload {
  success : bool;
  url : option string;
  upload_error : option string
}.

(** [interface CreatePostData] *)
Record CreatePostData := mkCreatePostData {
  d_title : option string;
  d_content : option string;
  d_category : option string;
  d_image : option ImageAsset
}.

(** The tables [posts] and [likes], the users the views join, and the
    comments the view counts. *)
Record PostRow := mkPostRow {
  r_id : string;
  r_user_id : string;
  r_title : option string;
  r_content : option string;
  r_image_url : option string;
  r_category : string;
  r_created_at : string;
  r_updated_at : string
}.

Record LikeRow := mkLikeRow {
  l_id : string;
  l_post_id : string;
  l_user_id : string
}.

Record UserRow := mkUserRow {
  au_id : string;
  au_email : string;
  au_full_name : option string
}.

Record Db := mkDb {
  posts_tbl : list PostRow;
  likes_tbl : list LikeRow;
  comments_tbl : list Store.Comment;
  users_tbl : list UserRow
}.

Definition with_posts (db : Db) (rows : list PostRow) : Db :=
  mkDb rows (likes_tbl db) (comments_tbl db) (users_tbl db).

Definition with_likes (db : Db) (rows : list LikeRow) : Db :=
  mkDb (posts_tbl db) rows (comments_tbl db) (users_tbl db).

Record Env := mkEnv {
  (* supabase.auth.getUser(): the user's id, or null *)
  getUser : Outcome (option string);
  (* imageUploadService.uploadImage(imageAsset, userId) *)
  uploadImage : ImageAsset -> string -> Outcome ImageUploadResult;
  (* a rejection of the next write by the store (policy, transport) *)
  write_fault : option GwError;
  (* a failure of the read that follows a write *)
  read_fault : option GwError;
  (* a failure of the existence check other than "no rows" *)
  check_fault : option GwError;
  (* identifier and timestamp the store assigns to a new row *)
  new_id : string;
  now : string;
  (* writes of other sessions between the check and the write *)
  other_sessions : Db -> Db
}.

(** [{ data, error }] *)
Record DataResult (A : Type) := mkDataResult {
  data : option A;
  data_error : option GwError
}.
Arguments mkDataResult {A} data data_error.
Arguments data {A} _.
Arguments data_error {A} _.

(** [{ isLiked, error }] *)
Record LikeResult := mkLikeResult {
  isLiked : bool;
  like_error : option GwError
}.

(** [private async uploadPostImage(image, userId)] *)
Definition uploadPostImage (env : Env) (image : ImageAsset) (userId : string)
    : option string :=
  match uploadImage env image userId with
  | Returned result =>
      if success result && truthy_str (url result)
      then url result
      else None
  | Thrown _ => None
  end.

(** [split_part(email, '@', 1)] *)
Fixpoint before_at (email : string) : string :=
  match email with
  | EmptyString => EmptyString
  | String c rest => if Ascii.eqb c "@" then EmptyString
                     else String c (before_at rest)
  end.

(** The view [posts_with_stats] at one row of [posts]: the row, the
    number of its likes and of its comments, and the owner's e-mail and
    name from the left join with the users. *)
Definition posts_with_stats (db : Db) (row : PostRow) : Store.Post :=
  let owner := find (fun u => au_id u =? r_user_id row) (users_tbl db) in
  Store.mkPost (r_id row) (r_user_id row) (r_title row) (r_content row)
    (r_image_url row) (r_category row) (r_created_at row) (r_updated_at row)
    (Some (Z.of_nat (List.length
       (filter (fun l => l_post_id l =? r_id row) (likes_tbl db)))))
    (Some (Z.of_nat (List.length
       (filter (fun c => Store.c_post_id c =? r_id row) (comments_tbl db)))))
    (option_map au_email owner)
    (option_map (fun u => match au_full_name u with
                          | Some n => n
                          | None => before_at (au_email u)
                          end) owner)
    None.

(** [async createPost(postData)] *)
Definition createPost (env : Env) (postData : CreatePostData) (db : Db)
    : DataResult Store.Post * Db :=
  match getUser env with
  | Thrown e => (mkDataResult None (Some (ErrThrown e)), db)
  | Returned None =>
      (mkDataResult None (Some (ErrMessage "User not authenticated")), db)
  | Returned (Some user) =>
      let imageUrl :=
        match d_image postData with
        | Some image => uploadPostImage env image user
        | None => None
        end in
      if negb (truthy_str (d_content postData)) && negb (truthy_str imageUrl)
      then (mkDataResult None
              (Some (ErrMessage "Post must have either content or an image")),
            db)
      else
        match write_fault env with
        | Some insertError => (mkDataResult None (Some insertError), db)
        | None =>
            let row := mkPostRow (new_id env) user
                         (orNull (d_title postData))
                         (orNull (d_content postData))
                         imageUrl
                         (orStr (d_category postData) "General")
                         (now env) (now env) in
            let db' := with_posts db (posts_tbl db ++ [row]) in
            match read_fault env with
            | Some error => (mkDataResult None (Some error), db')
            | None => (mkDataResult (Some (posts_with_stats db' row)) None, db')
            end
        end
  end.

(** The store's rule on [likes]: [UNIQUE(post_id, user_id)]. *)
Definition likeExists (db : Db) (postId user : string) : bool :=
  existsb (fun l => (l_post_id l =? postId) && (l_user_id l =? user))
    (likes_tbl db).

Definition unique_violation : GwError :=
  ErrStore "23505" "duplicate key value violates unique constraint".

Definition insertLike (env : Env) (db : Db) (postId user : string)
    : option GwError * Db :=
  match write_fault env with
  | Some e => (Some e, db)
  | None =>
      if likeExists db postId user
      then (Some unique_violation, db)
      else (None, with_likes db
                    (likes_tbl db ++ [mkLikeRow (new_id env) postId user]))
  end.

Definition deleteLike (env : Env) (db : Db) (likeId : string)
    : option GwError * Db :=
  match write_fault env with
  | Some e => (Some e, db)
  | None =>
      (None, with_likes db
               (filter (fun l => negb (l_id l =? likeId)) (likes_tbl db)))
  end.

(** [.select("id").eq("post_id", ..).eq("user_id", ..).single()]:
    exactly one row, or no data and the error PGRST116. *)
Definition no_rows : GwError :=
  ErrStore "PGRST116" "JSON object requested, multiple (or no) rows returned".

Definition selectLike (env : Env) (db : Db) (postId user : string)
    : option LikeRow * option GwError :=
  match check_fault env with
  | Some e => (None, Some e)
  | None =>
      match filter (fun l => (l_post_id l =? postId) && (l_user_id l =? user))
              (likes_tbl db) with
      | [l] => (Some l, None)
      | _ => (None, Some no_rows)
      end
  end.

(** [checkError && checkError.code !== "PGRST116"] *)
Definition is_hard_check_error (e : option GwError) : bool :=
  match e with
  | Some (ErrStore code _) => negb (code =? "PGRST116")
  | Some _ => true
  | None => false
  end.

(** [async toggleLike(postId)] *)
Definition toggleLike (env : Env) (postId : string) (db : Db)
    : LikeResult * Db :=
  match getUser env with
  | Thrown e => (mkLikeResult false (Some (ErrThrown e)), db)
  | Returned None =>
      (mkLikeResult false (Some (ErrMessage "User not authenticated")), db)
  | Returned (Some user) =>
      let '(existingLike, checkError) := selectLike env db postId user in
      if is_hard_check_error checkError
      then (mkLikeResult false checkError, db)
      else
        let db1 := other_sessions env db in
        match existingLike with
        | Some l =>
            match deleteLike env db1 (l_id l) with
            | (Some error, db2) => (mkLikeResult true (Some error), db2)
            | (None, db2) => (mkLikeResult false None, db2)
            end
        | None =>
            match insertLike env db1 postId user with
            | (Some error, db2) => (mkLikeResult false (Some error), db2)
            | (None, db2) => (mkLikeResult true None, db2)
            end
        end
  end.

End Gateway.

(** ** The action creators: src/context/postsContext.tsx (PostsProvider) *)

Module Context.
Import Gateway.

(** [error?.message || fallback] *)
Definition error_message (e : GwError) (fallback : string) : string :=
  match e with
  | ErrMessage _ => fallback
  | ErrStore _ message => if message =? "" then fallback else message
  | ErrThrown message => if message =? "" then fallback else message
  end.

(** [const toggleLike = useCallback(async (postId) => ...)]: the actions
    it dispatches for one gateway call. *)
Definition toggleLike (isUser : bool) (env : Env) (postId : string)
    (db : Db) : list Store.PostsAction * Db :=
  if negb isUser
  then ([Store.SET_ERROR (Some "You must be logged in to like posts")], db)
  else
    let '(res, db') := Gateway.toggleLike env postId db in
    match like_error res with
    | Some error =>
        ([Store.SET_ERROR (Some (error_message error "Failed to toggle like"))],
         db')
    | None =>
        let likeDelta := if isLiked res then 1 else -1 in
        ([Store.TOGGLE_LIKE postId (isLiked res) likeDelta], db')
    end.

End Context.

(** ** The moderation adapter: src/services/geminiValidationService.ts

    The generative-AI endpoint is an external collaborator: what it does
    for each of the three requests of one validation is an [AiReply].
    Numbers are rationals, or NaN. *)

Module Moderation.
Import Js.

(** [String.prototype.toLowerCase] on ASCII letters. *)
Definition lower_ascii (c : ascii) : ascii :=
  let n := nat_of_ascii c in
  if ((65 <=? n) && (n <=? 90))%nat then ascii_of_nat (n + 32) else c.

Fixpoint toLowerCase (s : string) : string :=
  match s with
  | EmptyString => EmptyString
  | String c rest => String (lower_ascii c) (toLowerCase rest)
  end.

(** [String.prototype.includes] *)
Fixpoint includes (s keyword : string) : bool :=
  if prefix keyword s then true
  else match s with
       | EmptyString => false
       | String _ rest => includes rest keyword
       end.

(** A template literal prints an absent value as "undefined". *)
Definition show (x : option string) : string :=
  match x with
  | Some s => s
  | None => "undefined"
  end.

Definition ecoKeywords : list string :=
  [ "environment"; "eco"; "green"; "sustainable"; "climate"; "nature";
    "renewable"; "recycl"; "conservation"; "organic"; "solar"; "waste";
    "carbon"; "biodiversity"; "pollution"; "clean energy"; "tree"; "plant" ].

Definition inappropriateKeywords : list string :=
  [ "hate"; "kill"; "die"; "stupid"; "idiot"; "fuck"; "shit"; "damn" ].

(** [`${title} ${content}`.toLowerCase()] *)
Definition fullText (title : option string) (content : string) : string :=
  toLowerCase (show title ++ " " ++ content).

Definition hasEcoKeywords (title : option string) (content : string) : bool :=
  existsb (fun keyword => includes (fullText title content) keyword)
    ecoKeywords.

Definition hasInappropriate (title : option string) (content : string)
    : bool :=
  existsb (fun keyword => includes (fullText title content) keyword)
    inappropriateKeywords.

(** One request to [genAI.models.generateContent] followed by
    [JSON.parse(response.text || "")] and the reads of its fields:
    the call throws (also: the promise is rejected), or the text is not
    a JSON object, or it parses to the object [a]. *)
Inductive AiReply (A : Type) :=
| CallThrows
| Unparsable
| Parsed (a : A).
Arguments CallThrows {A}.
Arguments Unparsable {A}.
Arguments Parsed {A} a.

(** A JavaScript number as the adapter computes with it: a fraction, or
    NaN. *)
Inductive Num :=
| Finite (q : Q)
| NaN.

(** The [confidence] member of a reply: absent (or falsy); a value that
    converts to the number [q] (an infinite one behaves as any number
    beyond the bounds it is clamped to); or a truthy value that converts
    to NaN, such as a word or an object. *)
Inductive Confidence :=
| CAbsent
| CNumber (q : Q)
| CNotNumber.

Record EcoJson := mkEcoJson {
  j_isEcoRelated : option bool;
  j_confidence : Confidence;
  j_category : option string;
  j_reasoning : option string
}.

(** The [violations] member of a reply: absent (or falsy), an array of
    strings, or a truthy value that cannot be spread. *)
Inductive Violations :=
| VAbsent
| VList (l : list string)
| VNotIterable.

Record ModerationJson := mkModerationJson {
  j_isAppropriate : option bool;
  j_mconfidence : Confidence;
  j_violations : Violations;
  j_mreasoning : option string
}.

Inductive SuggestionsJson :=
| SArray (l : list string)
| SNotArray.

Record Gemini := mkGemini {
  eco_reply : AiReply EcoJson;
  moderation_reply : AiReply ModerationJson;
  suggestions_reply : AiReply SuggestionsJson
}.

Record EcoRelevanceResult := mkEco {
  e_isEcoRelated : bool;
  e_confidence : Num;
  e_category : string;
  e_reasoning : string
}.

Record ContentModerationResult := mkModeration {
  m_isAppropriate : bool;
  m_confidence : Num;
  m_violations : Violations;
  m_reasoning : string
}.

Record ValidationResult := mkValidation {
  isValid : bool;
  isEcoRelated : bool;
  confidence : Num;
  reasons : list string;
  suggestions : option (list string);
  category : option string
}.

Definition orFalse (x : option bool) : bool :=
  match x with
  | Some b => b
  | None => false
  end.

(** [Math.min(a, b)] and [Math.max(a, b)]: NaN as soon as an argument
    is NaN. *)
Definition numMin (a b : Num) : Num :=
  match a, b with
  | Finite x, Finite y => Finite (Qmin x y)
  | _, _ => NaN
  end.

Definition numMax (a b : Num) : Num :=
  match a, b with
  | Finite x, Finite y => Finite (Qmax x y)
  | _, _ => NaN
  end.

(** [parsed.confidence || 0], converted to a number as [Math.min] does. *)
Definition orZeroNum (x : Confidence) : Num :=
  match x with
  | CAbsent => Finite 0
  | CNumber q => Finite q
  | CNotNumber => NaN
  end.

(** [Math.max(0, Math.min(1, parsed.confidence || 0))] *)
Definition clamp01 (x : Confidence) : Num :=
  numMax (Finite 0) (numMin (Finite 1) (orZeroNum x)).

(** [private async checkEcoRelevance(content, title, category, imageUri)].
    Fetching the image only adds a part to the request and its failure
    is swallowed, so it does not appear here. *)
Definition checkEcoRelevance (ai : Gemini) (content : string)
    (title category imageUri : option string) : EcoRelevanceResult :=
  match eco_reply ai with
  | Parsed parsed =>
      mkEco (orFalse (j_isEcoRelated parsed))
        (clamp01 (j_confidence parsed))
        (orStr (j_category parsed) "General")
        (orStr (j_reasoning parsed) "No reasoning provided")
  | CallThrows | Unparsable =>
      let has := hasEcoKeywords title content in
      mkEco has
        (Finite (if has then 6 # 10 else 3 # 10))
        (if has then "General" else "Not Eco-Related")
        "Fallback keyword analysis due to API error"
  end.

(** [private async checkContentModeration(content, title, imageUri)] *)
Definition checkContentModeration (ai : Gemini) (content : string)
    (title imageUri : option string) : ContentModerationResult :=
  match moderation_reply ai with
  | Parsed parsed =>
      mkModeration (orFalse (j_isAppropriate parsed))
        (clamp01 (j_mconfidence parsed))
        (match j_violations parsed with
         | VAbsent => VList []
         | v => v
         end)
        (orStr (j_mreasoning parsed) "No reasoning provided")
  | CallThrows | Unparsable =>
      let bad := hasInappropriate title content in
      mkModeration (negb bad) (Finite (5 # 10))
        (if bad
         then VList ["Potentially inappropriate language detected"]
         else VList [])
        "Fallback keyword analysis due to API error"
  end.

(** [private async generateSuggestions(content, reasons)] *)
Definition generateSuggestions (ai : Gemini) : list string :=
  match suggestions_reply ai with
  | Parsed (SArray l) => l
  | Parsed SNotArray => []
  | CallThrows | Unparsable =>
      [ "Focus on environmental or sustainability topics";
        "Share positive eco-friendly experiences or tips";
        "Use respectful language that builds community" ]
  end.

(** The [catch] block of [validatePostContent]. *)
Definition permissive : ValidationResult :=
  mkValidation true true (Finite (1 # 10))
    ["Validation service temporarily unavailable"]
    (Some ["Please ensure your post is related to environmental sustainability"])
    None.

(** The [try] block of [validatePostContent]; [None] when it throws,
    which only [reasons.push(...moderationCheck.violations)] can do. *)
Definition validateBody (ai : Gemini) (content : string)
    (title category imageUri : option string) : option ValidationResult :=
  let ecoCheck := checkEcoRelevance ai content title category imageUri in
  let moderationCheck := checkContentModeration ai content title imageUri in
  let valid := e_isEcoRelated ecoCheck && m_isAppropriate moderationCheck in
  let reasons1 :=
    if negb (e_isEcoRelated ecoCheck)
    then ["Content is not related to environment or sustainability ("
            ++ e_reasoning ecoCheck ++ ")"]
    else [] in
  let reasons2 :=
    if negb (m_isAppropriate moderationCheck)
    then match m_violations moderationCheck with
         | VList l => Some (reasons1 ++ l)%list
         | VAbsent => Some reasons1
         | VNotIterable => None
         end
    else Some reasons1 in
  match reasons2 with
  | None => None
  | Some rs =>
      Some (mkValidation valid (e_isEcoRelated ecoCheck)
              (numMin (e_confidence ecoCheck) (m_confidence moderationCheck))
              rs
              (if valid then None else Some (generateSuggestions ai))
              (Some (e_category ecoCheck)))
  end.

(** [async validatePostContent(content, title, category, imageUri)];
    [category] and [imageUri] only enter the prompts. *)
Definition validatePostContent (ai : Gemini) (content : string)
    (title category imageUri : option string) : ValidationResult :=
  match validateBody ai content title category imageUri with
  | Some result => result
  | None => permissive
  end.

(** The adapter is unavailable for a request when the call throws or
    its reply cannot be parsed. *)
Definition unavailable {A : Type} (r : AiReply A) : bool :=
  match r with
  | Parsed _ => false
  | _ => true
  end.

End Moderation.

(** ** Properties of validation results *)

Module ModerationProps.
Import Moderation.

(** The one way the [try] block of validatePostContent throws: the
    moderation reply parses to an object whose [isAppropriate] is falsy
    and whose [violations] member is truthy but cannot be spread. *)
Definition violationsCannotSpread (ai : Gemini) : bool :=
  match moderation_reply ai with
  | Parsed parsed =>
      negb (orFalse (j_isAppropriate parsed)) &&
      match j_violations parsed with
      | VNotIterable => true
      | _ => false
      end
  | _ => false
  end.

(** A confidence that is a number between 0 and 1. *)
Definition inUnit (n : Num) : Prop :=
  match n with
  | Finite q => (0 <= q)%Q /\ (q <= 1)%Q
  | NaN => False
  end.

Definition isNumeric (c : Confidence) : bool :=
  match c with
  | CNotNumber => false
  | _ => true
  end.

(** Each reply that parsed carries a [confidence] that is absent or a
    number. *)
Definition numericReplies (ai : Gemini) : bool :=
  match eco_reply ai with
  | Parsed parsed => isNumeric (j_confidence parsed)
  | _ => true
  end &&
  match moderation_reply ai with
  | Parsed parsed => isNumeric (j_mconfidence parsed)
  | _ => true
  end.

(** Two results that carry the same verdict; the suggestions, which come
    from a request of their own, are left out. *)
Definition sameVerdict (r r' : ValidationResult) : Prop :=
  isValid r' = isValid r /\ isEcoRelated r' = isEcoRelated r /\
  confidence r' = confidence r /\ reasons r' = reasons r /\
  category r' = category r.

End ModerationProps.

(** ** Properties of snapshots and transitions *)

Module Props.
Import Js Store.

(** The fields a transition may change on a post that stays in a view. *)
Definition mutableFields (p : Post) : option Z * option Z * option bool :=
  (like_count p, comment_count p, is_liked p).

(** The current-post slot as a collection of at most one post. *)
Definition current (s : PostsState) : list Post :=
  match currentPost s with
  | Some p => [p]
  | None => []
  end.

(** Two collections agree on the post [postId] when its copies in them
    carry the same mutable fields. *)
Definition agreeOn (postId : string) (xs ys : list Post) : Prop :=
  forall p q, In p xs -> In q ys -> id p = postId -> id q = postId ->
              mutableFields p = mutableFields q.

(** The post [postId] carries identical like_count, comment_count and
    is_liked in every view where it appears. *)
Definition consistentFor (postId : string) (s : PostsState) : Prop :=
  agreeOn postId (posts s) (userPosts s) /\
  agreeOn postId (posts s) (current s) /\
  agreeOn postId (userPosts s) (current s).

Definition opt_eqb {A : Type} (eqb : A -> A -> bool) (x y : option A) : bool :=
  match x, y with
  | Some a, Some b => eqb a b
  | None, None => true
  | _, _ => false
  end.

Definition mutableFields_eqb (p q : Post) : bool :=
  opt_eqb Z.eqb (like_count p) (like_count q) &&
  opt_eqb Z.eqb (comment_count p) (comment_count q) &&
  opt_eqb Bool.eqb (is_liked p) (is_liked q).

Definition agreeOnb (postId : string) (xs ys : list Post) : bool :=
  forallb (fun p =>
    forallb (fun q =>
      implb ((id p =? postId) && (id q =? postId)) (mutableFields_eqb p q))
      ys) xs.

Definition consistentForb (postId : string) (s : PostsState) : bool :=
  agreeOnb postId (posts s) (userPosts s) &&
  agreeOnb postId (posts s) (current s) &&
  agreeOnb postId (userPosts s) (current s).

(** The four transitions that maintain the denormalized fields. *)
Definition isSyncAction (a : PostsAction) : bool :=
  match a with
  | UPDATE_POST _ _ | TOGGLE_LIKE _ _ _ | ADD_COMMENT _ | DELETE_COMMENT _ =>
      true
  | _ => false
  end.

(** The UPDATE_POST payloads of the program: [updatePost] dispatches
    [{ postId, updates: data }] with [data] the row its query selected by
    [.eq("id", postId)], so [updates] carry the [id] of the post they are
    merged into (or, for a partial row, no [id] key). *)
Definition keepsId (a : PostsAction) : bool :=
  match a with
  | UPDATE_POST postId updates =>
      match u_id updates with
      | Some i => i =? postId
      | None => true
      end
  | _ => true
  end.

(** What a sync transition does to one post of any view, given the
    comment thread of the snapshot it is applied to. *)
Definition postStep (cs : list Comment) (a : PostsAction) (post : Post)
    : Post :=
  match a with
  | UPDATE_POST postId updates =>
      if id post =? postId then merge post updates else post
  | TOGGLE_LIKE postId isLiked likeDelta =>
      if id post =? postId then withLike post isLiked likeDelta else post
  | ADD_COMMENT c =>
      if id post =? c_post_id c
      then withCommentCount post (orZero (comment_count post) + 1)
      else post
  | DELETE_COMMENT cid =>
      match findComment cs cid with
      | Some d =>
          if id post =? c_post_id d
          then withCommentCount post
                 (Z.max (orZero (comment_count post) - 1) 0)
          else post
      | None => post
      end
  | _ => post
  end.

(** The counters as the code reads them: [post.like_count || 0]. *)
Definition likes (p : Post) : Z := orZero (like_count p).
Definition commentsOf (p : Post) : Z := orZero (comment_count p).

(** The like_count fields of the three views, and their read values. *)
Definition likeCounts (s : PostsState)
    : list (option Z) * list (option Z) * list (option Z) :=
  (map like_count (posts s), map like_count (userPosts s),
   map like_count (current s)).

Definition readLikes (s : PostsState) : list Z * list Z * list Z :=
  (map likes (posts s), map likes (userPosts s), map likes (current s)).

(** Every post with identifier [postId], in any view, has a like_count. *)
Definition hasLikeCount (postId : string) (s : PostsState) : Prop :=
  forall p, In p (posts s ++ userPosts s ++ current s) ->
            id p = postId -> like_count p <> None.

(** A comment count that a run of transitions left alone or set to a
    number that is not negative. *)
Definition keptOrFloored (p p' : Post) : Prop :=
  id p' = id p /\
  (comment_count p' = comment_count p \/
   exists n, comment_count p' = Some n /\ 0 <= n).

(** One DELETE_COMMENT on one post: untouched, or decremented with a
    floor at zero. *)
Definition decremented (p p' : Post) : Prop :=
  p' = p \/
  p' = withCommentCount p (Z.max (commentsOf p - 1) 0).

Definition countsNonneg (s : PostsState) : Prop :=
  forall p, In p (posts s ++ userPosts s ++ current s) -> 0 <= commentsOf p.

Definition likesNonneg (s : PostsState) : Prop :=
  forall p, In p (posts s ++ userPosts s ++ current s) -> 0 <= likes p.

(** The two transitions that replace the comment thread wholesale. *)
Definition isClearOrSetComments (a : PostsAction) : bool :=
  match a with
  | CLEAR_CURRENT_POST | SET_COMMENTS _ => true
  | _ => false
  end.

End Props.

(** ** Properties of gateway calls *)

Module GatewayProps.
Import Gateway.

(** The upload of [image] for [user] fails: the upload service reports
    no success, or the call throws. *)
Definition uploadFails (env : Env) (image : ImageAsset) (user : string)
    : bool :=
  match uploadImage env image user with
  | Returned result => negb (success result)
  | Thrown _ => true
  end.

(** A call that ends in an error value and leaves the tables as they
    were. *)
Definition aborted {A : Type} (r : DataResult A * Db) (db : Db) : Prop :=
  data (fst r) = None /\ data_error (fst r) <> None /\ snd r = db.

(** A like result that reports "liked" and carries no error. *)
Definition reportsLiked (r : LikeResult) : Prop :=
  isLiked r = true /\ like_error r = None.

End GatewayProps.

(** ** Concrete snapshots and payloads used to exercise the statements *)

Module Samples.
Import Store.

Definition post (pid : string) (likes comments : option Z)
    (liked : option bool) : Post :=
  mkPost pid "u1" None (Some "Planted 3 trees today") None "Tree Planting"
    "2025-01-01T10:00:00Z" "2025-01-01T10:00:00Z"
    likes comments None None liked.

Definition comment (cid pid : string) : Comment :=
  mkComment cid pid "u2" "Well done" "2025-01-01T11:00:00Z"
    "2025-01-01T11:00:00Z" None None.

(** The row [updatePost] gets back from the table [posts]: it carries the
    post's own id and no counters. *)
Definition retitled (pid newTitle : string) : PartialPost :=
  mkPartialPost (Some pid) None (Some (Some newTitle)) None None None None
    None None None None None None.

(** Updates that carry another post's id. *)
Definition rekeyed (pid : string) : PartialPost :=
  mkPartialPost (Some pid) None None None None None None None None None
    None None None.

(** Post "a" shown in all three views, with one comment in the thread. *)
Definition viewingA : PostsState :=
  mkState [post "a" (Some 5) (Some 3) (Some false);
           post "b" (Some 0) (Some 0) (Some false)]
          [post "a" (Some 5) (Some 3) (Some false)]
          (Some (post "a" (Some 5) (Some 3) (Some false)))
          [comment "c1" "a"] false None false.

(** Post "a" agrees in all three views while its neighbour "b" is stale
    in the user feed. *)
Definition staleNeighbour : PostsState :=
  mkState [post "a" (Some 5) (Some 3) (Some false);
           post "b" (Some 0) (Some 0) (Some false)]
          [post "a" (Some 5) (Some 3) (Some false);
           post "b" (Some 7) (Some 1) (Some true)]
          (Some (post "a" (Some 5) (Some 3) (Some false)))
          [comment "c1" "a"] false None false.

(** What [fetchComments] leaves when no post is open: a thread and a
    null current-post slot. *)
Definition threadOnly : PostsState :=
  mkState [post "a" (Some 5) (Some 1) (Some false)] [] None
          [comment "c1" "a"] false None false.

(** A stale feed: the post shows no likes and is not marked liked. *)
Definition staleLikes : PostsState :=
  mkState [post "p1" (Some 0) (Some 0) (Some false)]
          [post "p1" (Some 0) (Some 0) (Some false)]
          (Some (post "p1" (Some 0) (Some 0) (Some false)))
          [] false None false.

(** A signed-in session whose image uploads fail. *)
Definition uploadDown : Gateway.Env :=
  Gateway.mkEnv (Gateway.Returned (Some "u1"))
    (fun _ _ => Gateway.Returned
                  (Gateway.mkUpload false None (Some "Image file not found")))
    None None None "p9" "2025-01-02T00:00:00Z" (fun db => db).

Definition photo : Gateway.ImageAsset :=
  Gateway.mkImageAsset "file:///tmp/tree.jpg" 800 600 (Some 1024)
    (Some "image").

Definition textAndPhoto : Gateway.CreatePostData :=
  Gateway.mkCreatePostData None (Some "Planted 3 trees today")
    (Some "Tree Planting") (Some photo).

Definition photoOnly : Gateway.CreatePostData :=
  Gateway.mkCreatePostData None None None (Some photo).

Definition emptyDb : Gateway.Db :=
  Gateway.mkDb [] [] [] [Gateway.mkUserRow "u1" "ada@example.org" None].

(** A second session of the same user likes post "p1" between this
    session's check and its insert. *)
Definition racingSession : Gateway.Env :=
  Gateway.mkEnv (Gateway.Returned (Some "u1"))
    (fun _ _ => Gateway.Thrown "unused") None None None
    "l2" "2025-01-02T00:00:00Z"
    (fun db => Gateway.with_likes db
                 (Gateway.likes_tbl db
                    ++ [Gateway.mkLikeRow "l1" "p1" "u1"])).

(** The AI endpoint is down for every request. *)
Definition geminiDown : Moderation.Gemini :=
  Moderation.mkGemini Moderation.CallThrows Moderation.CallThrows
    Moderation.CallThrows.

(** The endpoint answers the moderation request with an object whose
    [violations] member is not an array. *)
Definition geminiMalformed : Moderation.Gemini :=
  Moderation.mkGemini Moderation.CallThrows
    (Moderation.Parsed
       (Moderation.mkModerationJson (Some false) Moderation.CAbsent
          Moderation.VNotIterable None))
    Moderation.CallThrows.

(** The eco request is answered, the moderation request fails. *)
Definition moderationDown : Moderation.Gemini :=
  Moderation.mkGemini
    (Moderation.Parsed
       (Moderation.mkEcoJson (Some true) (Moderation.CNumber (9 # 10))
          (Some "Nature") None))
    Moderation.CallThrows Moderation.CallThrows.

(** The eco request fails, the moderation request is answered with a
    confidence above one; the suggestions request fails. *)
Definition ecoDown : Moderation.Gemini :=
  Moderation.mkGemini Moderation.CallThrows
    (Moderation.Parsed
       (Moderation.mkModerationJson (Some true) (Moderation.CNumber (17 # 10))
          Moderation.VAbsent None))
    Moderation.CallThrows.

(** Both checks fail as for [geminiDown], while the suggestions request
    is answered. *)
Definition suggestionsOnly : Moderation.Gemini :=
  Moderation.mkGemini Moderation.Unparsable Moderation.CallThrows
    (Moderation.Parsed (Moderation.SArray ["Write about your garden"])).

Definition syncRun : list PostsAction :=
  [ UPDATE_POST "a" (retitled "a" "Trees");
    TOGGLE_LIKE "a" true 1;
    ADD_COMMENT (comment "c2" "a");
    DELETE_COMMENT "c1" ].

End Samples.

(** ** Further properties of snapshots and transitions *)

Module StoreProps.
Import Js Store Props.

(** Everything a feed shows of a post except its three counters. *)
Definition sameButCounters (p p' : Post) : Prop :=
  id p' = id p /\ user_id p' = user_id p /\ title p' = title p /\
  content p' = content p /\ image_url p' = image_url p /\
  category p' = category p /\ created_at p' = created_at p /\
  updated_at p' = updated_at p /\ user_email p' = user_email p /\
  user_name p' = user_name p.

Definition onlyLikeChanged (p p' : Post) : Prop :=
  sameButCounters p p' /\ comment_count p' = comment_count p.

Definition onlyCommentCountChanged (p p' : Post) : Prop :=
  sameButCounters p p' /\ like_count p' = like_count p /\
  is_liked p' = is_liked p.

(** The three views side by side. *)
Definition views (s : PostsState) : list Post :=
  (posts s ++ userPosts s ++ current s)%list.

(** No view holds a post with this identifier. *)
Definition absentFrom (postId : string) (s : PostsState) : Prop :=
  forall p, In p (views s) -> id p <> postId.

(** A relation between two snapshots, view by view and post by post. *)
Definition viewwise (R : Post -> Post -> Prop) (s s' : PostsState) : Prop :=
  Forall2 R (posts s) (posts s') /\
  Forall2 R (userPosts s) (userPosts s') /\
  Forall2 R (current s) (current s').

(** The transitions that write the error slot. *)
Definition writesError (a : PostsAction) : bool :=
  match a with
  | SET_ERROR _ | CLEAR_ERROR => true
  | _ => false
  end.

(** Updates without the keys of the three counters, as a row of the
    table [posts] has none. *)
Definition carriesNoCounters (u : PartialPost) : Prop :=
  u_like_count u = None /\ u_comment_count u = None /\ u_is_liked u = None.

(** The comment thread belongs to the current post, its identifiers are
    distinct, and the current post's comment count is its length. *)
Definition threadCounted (s : PostsState) : Prop :=
  forall cur, currentPost s = Some cur ->
    (forall c, In c (comments s) -> c_post_id c = id cur) /\
    NoDup (map c_id (comments s)) /\
    commentsOf cur = Z.of_nat (List.length (comments s)).

(** A comment of the current post with an identifier new to the thread. *)
Definition freshForCurrent (s : PostsState) (c : Comment) : Prop :=
  findComment (comments s) (c_id c) = None /\
  forall cur, currentPost s = Some cur -> c_post_id c = id cur.

End StoreProps.

(** ** String functions the services use *)

Module Text.

(** White space that [String.prototype.trim] strips, among the ASCII
    characters: tab, line feed, vertical tab, form feed, carriage return
    and space. *)
Definition isSpace (c : ascii) : bool :=
  match nat_of_ascii c with
  | 9%nat | 10%nat | 11%nat | 12%nat | 13%nat | 32%nat => true
  | _ => false
  end.

Fixpoint trimStart (s : string) : string :=
  match s with
  | EmptyString => EmptyString
  | String c rest => if isSpace c then trimStart rest else s
  end.

Fixpoint trimEnd (s : string) : string :=
  match s with
  | EmptyString => EmptyString
  | String c rest =>
      let rest' := trimEnd rest in
      if isSpace c && (rest' =? "") then EmptyString else String c rest'
  end.

(** [s.trim()] *)
Definition trim (s : string) : string := trimEnd (trimStart s).

(** [s.split(sep)] for a separator of one character: never empty. *)
Fixpoint split (sep : ascii) (s : string) : list string :=
  match s with
  | EmptyString => [EmptyString]
  | String c rest =>
      if Ascii.eqb c sep then EmptyString :: split sep rest
      else match split sep rest with
           | h :: t => String c h :: t
           | [] => [String c EmptyString]
           end
  end.

(** [parts.join(sep)] *)
Fixpoint join (sep : string) (parts : list string) : string :=
  match parts with
  | [] => EmptyString
  | [p] => p
  | p :: rest => p ++ sep ++ join sep rest
  end.

(** [parts.slice(-2)] *)
Definition lastTwo {A : Type} (parts : list A) : list A :=
  skipn (List.length parts - 2) parts.

(** The character [c] does not occur in [s]. *)
Fixpoint lacks (c : ascii) (s : string) : bool :=
  match s with
  | EmptyString => true
  | String d rest => negb (Ascii.eqb d c) && lacks c rest
  end.

End Text.

(** ** The rest of the posts service: src/services/postsService.ts *)

Module Service.
Import Js Gateway.

(** [interface CreateCommentData] *)
Record CreateCommentData := mkCreateCommentData {
  cd_post_id : string;
  cd_content : string
}.

(** [{ error }] *)
Record ErrorResult := mkErrorResult {
  only_error : option GwError
}.

(** The tables together with the objects of the storage bucket [posts]
    (their paths). *)
Record Cloud := mkCloud {
  tables : Db;
  objects : list string
}.

Definition with_comments (db : Db) (rows : list Store.Comment) : Db :=
  mkDb (posts_tbl db) (likes_tbl db) rows (users_tbl db).

Definition not_authenticated : GwError := ErrMessage "User not authenticated".

(** The store's rule on [comments]: [post_id REFERENCES posts(id)]. *)
Definition postExists (db : Db) (postId : string) : bool :=
  existsb (fun r => r_id r =? postId) (posts_tbl db).

Definition foreign_key_violation : GwError :=
  ErrStore "23503" "insert or update violates foreign key constraint".

(** [async addComment(commentData)] *)
Definition addComment (env : Env) (commentData : CreateCommentData) (db : Db)
    : DataResult Store.Comment * Db :=
  match getUser env with
  | Thrown e => (mkDataResult None (Some (ErrThrown e)), db)
  | Returned None => (mkDataResult None (Some not_authenticated), db)
  | Returned (Some user) =>
      if Text.trim (cd_content commentData) =? ""
      then (mkDataResult None
              (Some (ErrMessage "Comment content cannot be empty")), db)
      else
        match write_fault env with
        | Some error => (mkDataResult None (Some error), db)
        | None =>
            if postExists db (cd_post_id commentData)
            then
              let row := Store.mkComment (new_id env)
                           (cd_post_id commentData) user
                           (Text.trim (cd_content commentData))
                           (now env) (now env) None None in
              (mkDataResult (Some row) None,
               with_comments db (comments_tbl db ++ [row]))
            else (mkDataResult None (Some foreign_key_violation), db)
        end
  end.

(** The rows [.eq("id", commentId).eq("user_id", user.id)] selects. *)
Definition ownComment (commentId user : string) (c : Store.Comment) : bool :=
  (Store.c_id c =? commentId) && (Store.c_user_id c =? user).

(** [async updateComment(commentId, content)]: the update of exactly one
    row returns it; any other number of rows is the error of [.single()]
    and changes nothing.  The trigger on [comments] sets [updated_at]. *)
Definition updateComment (env : Env) (commentId content : string) (db : Db)
    : DataResult Store.Comment * Db :=
  match getUser env with
  | Thrown e => (mkDataResult None (Some (ErrThrown e)), db)
  | Returned None => (mkDataResult None (Some not_authenticated), db)
  | Returned (Some user) =>
      if Text.trim content =? ""
      then (mkDataResult None
              (Some (ErrMessage "Comment content cannot be empty")), db)
      else
        match write_fault env with
        | Some error => (mkDataResult None (Some error), db)
        | None =>
            match filter (ownComment commentId user) (comments_tbl db) with
            | [old] =>
                let row := Store.mkComment (Store.c_id old)
                             (Store.c_post_id old) (Store.c_user_id old)
                             (Text.trim content) (Store.c_created_at old)
                             (now env) (Store.c_user_email old)
                             (Store.c_user_name old) in
                (mkDataResult (Some row) None,
                 with_comments db
                   (map (fun c => if ownComment commentId user c
                                  then row else c) (comments_tbl db)))
            | _ => (mkDataResult None (Some no_rows), db)
            end
        end
  end.

(** [async deleteComment(commentId)]: a delete that matches no row is not
    an error. *)
Definition deleteComment (env : Env) (commentId : string) (db : Db)
    : ErrorResult * Db :=
  match getUser env with
  | Thrown e => (mkErrorResult (Some (ErrThrown e)), db)
  | Returned None => (mkErrorResult (Some not_authenticated), db)
  | Returned (Some user) =>
      match write_fault env with
      | Some error => (mkErrorResult (Some error), db)
      | None =>
          (mkErrorResult None,
           with_comments db
             (filter (fun c => negb (ownComment commentId user c))
                (comments_tbl db)))
      end
  end.

(** [post.image_url.split("/").slice(-2).join("/")] *)
Definition imagePath (image_url : string) : string :=
  Text.join "/" (Text.lastTwo (Text.split "/" image_url)).

(** The delete of a post row with the cascades of the schema
    ([ON DELETE CASCADE] on [comments.post_id] and [likes.post_id]). *)
Definition deletePostRow (db : Db) (postId user : string) : Db :=
  if existsb (fun r => (r_id r =? postId) && (r_user_id r =? user))
       (posts_tbl db)
  then mkDb
         (filter (fun r => negb ((r_id r =? postId) && (r_user_id r =? user)))
            (posts_tbl db))
         (filter (fun l => negb (l_post_id l =? postId)) (likes_tbl db))
         (filter (fun c => negb (Store.c_post_id c =? postId))
            (comments_tbl db))
         (users_tbl db)
  else db.

(** The storage policy for deletes: the first folder of the object's
    name is the user's id. *)
Definition inFolderOf (user path : string) : bool :=
  match Text.split "/" path with
  | folder :: _ :: _ => folder =? user
  | _ => false
  end.

(** [supabase.storage.from("posts").remove([path])]: removes the object
    when the policy lets the user; its result is not looked at. *)
Definition removeObject (user path : string) (objs : list string)
    : list string :=
  if inFolderOf user path
  then filter (fun o => negb (o =? path)) objs
  else objs.

(** [async deletePost(postId)] *)
Definition deletePost (env : Env) (postId : string) (cloud : Cloud)
    : ErrorResult * Cloud :=
  match getUser env with
  | Thrown e => (mkErrorResult (Some (ErrThrown e)), cloud)
  | Returned None => (mkErrorResult (Some not_authenticated), cloud)
  | Returned (Some user) =>
      let fetched :=
        match check_fault env with
        | Some _ => None
        | None =>
            match filter (fun r => r_id r =? postId)
                    (posts_tbl (tables cloud)) with
            | [post] => Some post
            | _ => None
            end
        end in
      match fetched with
      | None => (mkErrorResult (Some (ErrMessage "Post not found")), cloud)
      | Some post =>
          if negb (r_user_id post =? user)
          then (mkErrorResult
                  (Some (ErrMessage "You can only delete your own posts")),
                cloud)
          else
            let objects' :=
              match r_image_url post with
              | Some image_url =>
                  if image_url =? "" then objects cloud
                  else removeObject user (imagePath image_url) (objects cloud)
              | None => objects cloud
              end in
            match write_fault env with
            | Some error =>
                (mkErrorResult (Some error), mkCloud (tables cloud) objects')
            | None =>
                (mkErrorResult None,
                 mkCloud (deletePostRow (tables cloud) postId user) objects')
            end
      end
  end.

(** What the storage service does with the [remove] request of
    [deletePost]: it carries the request out (as far as the policy lets
    the user), it answers with an error and leaves the bucket as it is,
    or the call throws. *)
Inductive StorageReply :=
| StorageRemoves
| StorageRefuses
| StorageThrows (e : string).

(** [async deletePost(postId)] with the reply of the storage service made
    explicit; [deletePost] above is the case [StorageRemoves].  The
    result of [remove] is not looked at, so a refusal goes unnoticed; a
    throw reaches the [catch] before the row is deleted. *)
Definition deletePostWith (storage : StorageReply) (env : Env)
    (postId : string) (cloud : Cloud) : ErrorResult * Cloud :=
  match getUser env with
  | Thrown e => (mkErrorResult (Some (ErrThrown e)), cloud)
  | Returned None => (mkErrorResult (Some not_authenticated), cloud)
  | Returned (Some user) =>
      let fetched :=
        match check_fault env with
        | Some _ => None
        | None =>
            match filter (fun r => r_id r =? postId)
                    (posts_tbl (tables cloud)) with
            | [post] => Some post
            | _ => None
            end
        end in
      match fetched with
      | None => (mkErrorResult (Some (ErrMessage "Post not found")), cloud)
      | Some post =>
          if negb (r_user_id post =? user)
          then (mkErrorResult
                  (Some (ErrMessage "You can only delete your own posts")),
                cloud)
          else
            let removal : Outcome (list string) :=
              match r_image_url post with
              | Some image_url =>
                  if image_url =? "" then Returned (objects cloud)
                  else
                    match storage with
                    | StorageRemoves =>
                        Returned (removeObject user (imagePath image_url)
                                    (objects cloud))
                    | StorageRefuses => Returned (objects cloud)
                    | StorageThrows e => Thrown e
                    end
              | None => Returned (objects cloud)
              end in
            match removal with
            | Thrown e => (mkErrorResult (Some (ErrThrown e)), cloud)
            | Returned objects' =>
                match write_fault env with
                | Some error =>
                    (mkErrorResult (Some error),
                     mkCloud (tables cloud) objects')
                | None =>
                    (mkErrorResult None,
                     mkCloud (deletePostRow (tables cloud) postId user)
                       objects')
                end
            end
      end
  end.

(** [async getPost(postId)] *)
Definition getPost (env : Env) (postId : string) (db : Db)
    : DataResult Store.Post :=
  match getUser env with
  | Thrown e => mkDataResult None (Some (ErrThrown e))
  | Returned None => mkDataResult None (Some not_authenticated)
  | Returned (Some user) =>
      match read_fault env with
      | Some error => mkDataResult None (Some error)
      | None =>
          match filter (fun r => r_id r =? postId) (posts_tbl db) with
          | [row] =>
              let post := posts_with_stats db row in
              let likeData := fst (selectLike env db (Store.id post) user) in
              mkDataResult
                (Some (Store.mkPost (Store.id post) (Store.user_id post)
                         (Store.title post) (Store.content post)
                         (Store.image_url post) (Store.category post)
                         (Store.created_at post) (Store.updated_at post)
                         (Store.like_count post) (Store.comment_count post)
                         (Store.user_email post) (Store.user_name post)
                         (Some (match likeData with
                                | Some _ => true
                                | None => false
                                end))))
                None
          | _ => mkDataResult None (Some no_rows)
          end
      end
  end.

End Service.

(** ** The other action creators of PostsProvider:
    src/context/postsContext.tsx

    An action creator is run against the store's tables; what it
    dispatches, in order, and what it returns are its [Dispatch]. *)

Module Creators.
Import Gateway Service.

Record Dispatch := mkDispatch {
  dispatched : list Store.PostsAction;
  returned : bool
}.

(** [error?.message || fallback] on an error that may be null. *)
Definition message_or (e : option GwError) (fallback : string) : string :=
  match e with
  | Some error => Context.error_message error fallback
  | None => fallback
  end.

(** [const createPost = useCallback(async (postData) => ...)] *)
Definition createPost (isUser : bool) (env : Env) (postData : CreatePostData)
    (db : Db) : Dispatch * Db :=
  if negb isUser
  then (mkDispatch
          [Store.SET_ERROR (Some "You must be logged in to create a post")]
          false, db)
  else
    let '(res, db') := Gateway.createPost env postData db in
    match data_error res, data res with
    | None, Some post =>
        (mkDispatch [Store.SET_LOADING true; Store.SET_ERROR None;
                     Store.ADD_POST post] true, db')
    | error, _ =>
        (mkDispatch [Store.SET_LOADING true; Store.SET_ERROR None;
                     Store.SET_ERROR
                       (Some (message_or error "Failed to create post"))]
           false, db')
    end.

(** [const deletePost = useCallback(async (postId) => ...)] *)
Definition deletePost (isUser : bool) (env : Env) (postId : string)
    (cloud : Cloud) : Dispatch * Cloud :=
  if negb isUser
  then (mkDispatch
          [Store.SET_ERROR (Some "You must be logged in to delete posts")]
          false, cloud)
  else
    let '(res, cloud') := Service.deletePost env postId cloud in
    match only_error res with
    | Some error =>
        (mkDispatch [Store.SET_LOADING true; Store.SET_ERROR None;
                     Store.SET_ERROR
                       (Some (Context.error_message error
                                "Failed to delete post"))]
           false, cloud')
    | None =>
        (mkDispatch [Store.SET_LOADING true; Store.SET_ERROR None;
                     Store.DELETE_POST postId] true, cloud')
    end.

(** [const addComment = useCallback(async (commentData) => ...)] *)
Definition addComment (isUser : bool) (env : Env)
    (commentData : CreateCommentData) (db : Db) : Dispatch * Db :=
  if negb isUser
  then (mkDispatch
          [Store.SET_ERROR (Some "You must be logged in to comment")]
          false, db)
  else
    let '(res, db') := Service.addComment env commentData db in
    match data_error res, data res with
    | None, Some comment =>
        (mkDispatch [Store.ADD_COMMENT comment] true, db')
    | error, _ =>
        (mkDispatch
           [Store.SET_ERROR (Some (message_or error "Failed to add comment"))]
           false, db')
    end.

(** [const updateComment = useCallback(async (commentId, content) => ...)] *)
Definition updateComment (isUser : bool) (env : Env)
    (commentId content : string) (db : Db) : Dispatch * Db :=
  if negb isUser
  then (mkDispatch
          [Store.SET_ERROR (Some "You must be logged in to update comments")]
          false, db)
  else
    let '(res, db') := Service.updateComment env commentId content db in
    match data_error res, data res with
    | None, Some _ =>
        (mkDispatch [Store.UPDATE_COMMENT commentId content] true, db')
    | error, _ =>
        (mkDispatch
           [Store.SET_ERROR
              (Some (message_or error "Failed to update comment"))]
           false, db')
    end.

(** [const deleteComment = useCallback(async (commentId) => ...)] *)
Definition deleteComment (isUser : bool) (env : Env) (commentId : string)
    (db : Db) : Dispatch * Db :=
  if negb isUser
  then (mkDispatch
          [Store.SET_ERROR (Some "You must be logged in to delete comments")]
          false, db)
  else
    let '(res, db') := Service.deleteComment env commentId db in
    match only_error res with
    | Some error =>
        (mkDispatch
           [Store.SET_ERROR
              (Some (Context.error_message error "Failed to delete comment"))]
           false, db')
    | None => (mkDispatch [Store.DELETE_COMMENT commentId] true, db')
    end.

End Creators.

(** ** Properties of the tables *)

Module ServiceProps.
Import Gateway Service.

(** The key of the uniqueness constraint on [likes]. *)
Definition likeKey (l : LikeRow) : string * string :=
  (l_post_id l, l_user_id l).

(** What the store guarantees of [likes]: distinct identifiers (primary
    key) and at most one row per (post, user). *)
Definition likesWellFormed (db : Db) : Prop :=
  NoDup (map l_id (likes_tbl db)) /\ NoDup (map likeKey (likes_tbl db)).

(** The like count the view [posts_with_stats] shows for a post. *)
Definition likeCountOf (db : Db) (postId : string) : Z :=
  Z.of_nat (List.length
              (filter (fun l => l_post_id l =? postId) (likes_tbl db))).

Definition commentCountOf (db : Db) (postId : string) : Z :=
  Z.of_nat (List.length
              (filter (fun c => Store.c_post_id c =? postId)
                 (comments_tbl db))).

(** A call during which no other session writes and the store reports no
    fault. *)
Definition quiet (env : Env) (db : Db) : Prop :=
  other_sessions env db = db /\ write_fault env = None /\
  check_fault env = None.


(** No like or comment refers to the identifier the store assigns. *)
Definition unreferenced (postId : string) (db : Db) : Prop :=
  (forall l, In l (likes_tbl db) -> l_post_id l <> postId) /\
  (forall c, In c (comments_tbl db) -> Store.c_post_id c <> postId).

(** The invariant of the data model: a post has text or an image. *)
Definition hasContentOrImage (row : PostRow) : Prop :=
  Js.truthy_str (r_content row) = true \/
  Js.truthy_str (r_image_url row) = true.

End ServiceProps.

(** ** Concrete tables used to exercise the statements *)

Module MoreSamples.
Import Gateway Service.

Definition quietEnv : Env :=
  mkEnv (Returned (Some "u1")) (fun _ _ => Thrown "unused") None None None
    "n1" "2025-01-02T00:00:00Z" (fun db => db).

Definition treeRow : PostRow :=
  mkPostRow "p1" "u1" None (Some "Planted 3 trees today")
    (Some "https://x.supabase.co/storage/v1/object/public/posts/u1/17-ab.jpg")
    "Tree Planting" "2025-01-01T10:00:00Z" "2025-01-01T10:00:00Z".

Definition bikeRow : PostRow :=
  mkPostRow "p2" "u7" (Some "Commute") (Some "Cycled to work") None
    "Transport" "2025-01-01T09:00:00Z" "2025-01-01T09:00:00Z".

Definition smallDb : Db :=
  mkDb [treeRow; bikeRow]
       [mkLikeRow "l1" "p1" "u7"; mkLikeRow "l3" "p2" "u1"]
       [Store.mkComment "c1" "p1" "u7" "Well done" "2025-01-01T11:00:00Z"
          "2025-01-01T11:00:00Z" None None]
       [mkUserRow "u1" "ada@example.org" None;
        mkUserRow "u7" "bob@example.org" (Some "Bob")].

Definition smallCloud : Cloud :=
  mkCloud smallDb ["u1/17-ab.jpg"; "u7/9-zz.png"].

(** The store rejects the next write. *)
Definition rejectingEnv : Env :=
  mkEnv (Returned (Some "u1")) (fun _ _ => Thrown "unused")
    (Some (ErrStore "57014" "canceling statement due to statement timeout"))
    None None "n1" "2025-01-02T00:00:00Z" (fun db => db).

End MoreSamples.

(** ** The store: proofs *)

Import Js Store Props.

Section ListFacts.
Context {A : Type}.

Lemma Forall2_map_self (R : A -> A -> Prop) (f : A -> A) (l : list A) :
  (forall x, R x (f x)) -> Forall2 R l (map f l).
Proof.
  intros HR. induction l as [|x l IH]; simpl; constructor; auto.
Qed.

Lemma Forall2_compose (R : A -> A -> Prop) :
  (forall x y z, R x y -> R y z -> R x z) ->
  forall l1 l2 l3, Forall2 R l1 l2 -> Forall2 R l2 l3 -> Forall2 R l1 l3.
Proof.
  intros Htr l1 l2 l3 H12. revert l3.
  induction H12 as [|x y l1 l2 Hxy _ IH]; intros l3 H23.
  - inversion H23; subst. constructor.
  - inversion H23 as [|y' z l2' l3' Hyz Hrest]; subst.
    constructor; eauto.
Qed.

Lemma Forall2_same (R : A -> A -> Prop) (l : list A) :
  (forall x, R x x) -> Forall2 R l l.
Proof.
  intros HR. induction l; constructor; auto.
Qed.

Lemma filter_all (f : A -> bool) (l : list A) :
  (forall x, In x l -> f x = true) -> filter f l = l.
Proof.
  induction l as [|x l IH]; simpl; intros H; [reflexivity|].
  rewrite (H x (or_introl eq_refl)). f_equal. apply IH. auto.
Qed.

Lemma find_none_filter (f : A -> bool) (l : list A) :
  find f l = None -> filter (fun x => negb (f x)) l = l.
Proof.
  intros H. apply filter_all. intros x Hx.
  rewrite (find_none f l H x Hx). reflexivity.
Qed.

Lemma find_filter_negb (f : A -> bool) (l : list A) :
  find f (filter (fun x => negb (f x)) l) = None.
Proof.
  induction l as [|x l IH]; simpl; [reflexivity|].
  destruct (f x) eqn:E; simpl; [exact IH|]. rewrite E. exact IH.
Qed.
End ListFacts.

Lemma state_eta (s : PostsState) :
  mkState (posts s) (userPosts s) (currentPost s) (comments s)
    (loading s) (error s) (refreshing s) = s.
Proof. destruct s; reflexivity. Qed.

(** *** Sync transitions act as one map over all three views *)

Lemma sync_posts (s : PostsState) (a : PostsAction) :
  isSyncAction a = true ->
  posts (postsReducer s a) = map (postStep (comments s) a) (posts s) /\
  userPosts (postsReducer s a) = map (postStep (comments s) a) (userPosts s) /\
  current (postsReducer s a) = map (postStep (comments s) a) (current s).
Proof.
  destruct a; simpl; try discriminate; intros _;
    (split; [reflexivity | split; [reflexivity|]]);
    unfold current; simpl.
  - destruct (currentPost s) as [cur|]; simpl; [|reflexivity].
    destruct (id cur =? postId); reflexivity.
  - destruct (currentPost s) as [cur|]; simpl; [|reflexivity].
    destruct (id cur =? postId); reflexivity.
  - destruct (currentPost s) as [cur|]; simpl; [|reflexivity].
    destruct (id cur =? c_post_id payload); reflexivity.
  - unfold postStep, findComment.
    destruct (find (fun c => c_id c =? payload) (comments s)) as [d|];
      destruct (currentPost s) as [cur|]; simpl; try reflexivity.
    destruct (id cur =? c_post_id d); reflexivity.
Qed.

Lemma postStep_id (cs : list Comment) (a : PostsAction) (p : Post) :
  keepsId a = true -> id (postStep cs a p) = id p.
Proof.
  destruct a; simpl; intros Hk; try reflexivity.
  - destruct (id p =? postId) eqn:E; [|reflexivity].
    apply String.eqb_eq in E. unfold merge; simpl.
    destruct (u_id updates) as [i|]; simpl; [|reflexivity].
    apply String.eqb_eq in Hk. congruence.
  - destruct (id p =? postId); reflexivity.
  - destruct (id p =? c_post_id payload); reflexivity.
  - destruct (findComment cs payload) as [d|]; [|reflexivity].
    destruct (id p =? c_post_id d); reflexivity.
Qed.

Lemma postStep_mutable (cs : list Comment) (a : PostsAction) (p q : Post) :
  id p = id q -> mutableFields p = mutableFields q ->
  mutableFields (postStep cs a p) = mutableFields (postStep cs a q).
Proof.
  unfold mutableFields. intros Hid Hm.
  injection Hm as Hl Hc Hk.
  destruct a; simpl; try congruence.
  - rewrite Hid. destruct (id q =? postId); simpl; congruence.
  - rewrite Hid. destruct (id q =? postId); simpl; congruence.
  - rewrite Hid. destruct (id q =? c_post_id payload); simpl; congruence.
  - destruct (findComment cs payload) as [d|]; [|congruence].
    rewrite Hid. destruct (id q =? c_post_id d); simpl; congruence.
Qed.

Lemma agreeOn_map (f : Post -> Post) (postId : string) (xs ys : list Post) :
  (forall p, id (f p) = id p) ->
  (forall p q, id p = id q -> mutableFields p = mutableFields q ->
               mutableFields (f p) = mutableFields (f q)) ->
  agreeOn postId xs ys -> agreeOn postId (map f xs) (map f ys).
Proof.
  intros Hid Hmut Hag p' q' Hp Hq Ep Eq.
  apply in_map_iff in Hp as [p [<- Hp]].
  apply in_map_iff in Hq as [q [<- Hq]].
  rewrite Hid in Ep, Eq. apply Hmut; [congruence|]. apply Hag; assumption.
Qed.

Lemma sync_step_consistentFor (postId : string) (s : PostsState)
    (a : PostsAction) :
  isSyncAction a = true -> keepsId a = true ->
  consistentFor postId s -> consistentFor postId (postsReducer s a).
Proof.
  intros Hs Hk (H1 & H2 & H3).
  destruct (sync_posts s a Hs) as (E1 & E2 & E3).
  unfold consistentFor. rewrite E1, E2, E3.
  repeat split; apply agreeOn_map; auto using postStep_id, postStep_mutable.
Qed.

Lemma opt_eqb_eq {A : Type} (eqb : A -> A -> bool) :
  (forall a b, eqb a b = true <-> a = b) ->
  forall x y : option A, opt_eqb eqb x y = true <-> x = y.
Proof.
  intros H [a|] [b|]; simpl; try rewrite H;
    split; intros E; try congruence; discriminate.
Qed.

Lemma mutableFields_eqb_eq (p q : Post) :
  mutableFields_eqb p q = true <-> mutableFields p = mutableFields q.
Proof.
  unfold mutableFields_eqb, mutableFields.
  rewrite !andb_true_iff.
  rewrite !(opt_eqb_eq Z.eqb Z.eqb_eq).
  rewrite (opt_eqb_eq Bool.eqb Bool.eqb_true_iff).
  split; [intros [[-> ->] ->]; reflexivity | intros E; injection E; auto].
Qed.

Lemma agreeOnb_spec (postId : string) (xs ys : list Post) :
  agreeOnb postId xs ys = true <-> agreeOn postId xs ys.
Proof.
  unfold agreeOnb, agreeOn. rewrite forallb_forall. split.
  - intros H p q Hp Hq Ep Eq. specialize (H p Hp).
    rewrite forallb_forall in H. specialize (H q Hq).
    apply String.eqb_eq in Ep, Eq. rewrite Ep, Eq in H. simpl in H.
    apply mutableFields_eqb_eq. exact H.
  - intros H p Hp. apply forallb_forall. intros q Hq.
    destruct (id p =? postId) eqn:Ep; simpl; [|reflexivity].
    destruct (id q =? postId) eqn:Eq; simpl; [|reflexivity].
    apply String.eqb_eq in Ep, Eq.
    apply mutableFields_eqb_eq. apply H; auto.
Qed.

Lemma consistentForb_spec (postId : string) (s : PostsState) :
  consistentForb postId s = true <-> consistentFor postId s.
Proof.
  unfold consistentForb, consistentFor.
  rewrite !andb_true_iff, !agreeOnb_spec. tauto.
Qed.

(** *** Cross-view consistency *)

(** C1.  From a snapshot in which the post [postId] carries the same
    like_count, comment_count and is_liked in every view where it appears
    (global feed, user feed, current-post slot), whatever the other posts
    look like, any sequence of UPDATE_POST, TOGGLE_LIKE, ADD_COMMENT and
    DELETE_COMMENT transitions keeps that post's three fields identical in
    every view where it appears, after each single transition.  The
    UPDATE_POST payloads are those the program dispatches: the row of the
    updated post itself. *)
Theorem cross_view_consistency (s : PostsState) (postId : string)
    (acts : list PostsAction) :
  consistentFor postId s ->
  Forall (fun a => isSyncAction a = true /\ keepsId a = true) acts ->
  Forall (consistentFor postId) (trace s acts).
Proof.
  revert s. induction acts as [|a acts IH]; intros s Hc Hall; simpl.
  - constructor.
  - inversion Hall as [|a' acts' [Hs Hk] Hrest]; subst.
    assert (Hc' : consistentFor postId (postsReducer s a))
      by (apply sync_step_consistentFor; assumption).
    constructor; [exact Hc'|]. apply IH; assumption.
Qed.

Lemma cross_view_consistency_witness :
  consistentFor "a" Samples.staleNeighbour /\
  ~ consistentFor "b" Samples.staleNeighbour /\
  Forall (consistentFor "a")
    (trace Samples.staleNeighbour
       (Samples.syncRun ++ [TOGGLE_LIKE "b" true 1;
                            ADD_COMMENT (Samples.comment "c3" "b")])%list).
Proof.
  assert (H0 : consistentFor "a" Samples.staleNeighbour)
    by (apply consistentForb_spec; reflexivity).
  split; [exact H0|]. split.
  - intros Hb. apply consistentForb_spec in Hb. discriminate Hb.
  - apply (cross_view_consistency Samples.staleNeighbour "a" _ H0).
    repeat constructor.
Defined.

(** *** Like counts *)

(** C2.  The like count is not floored: from a feed that shows a post with
    no likes while the store holds the viewer's like, the action creator
    dispatches TOGGLE_LIKE with delta -1 and every view shows -1. *)
Theorem toggle_like_goes_negative :
  let env := Gateway.mkEnv (Gateway.Returned (Some "u1"))
               (fun _ _ => Gateway.Thrown "unused") None None None
               "l2" "2025-01-02T00:00:00Z" (fun db => db) in
  let db := Gateway.with_likes Samples.emptyDb
              [Gateway.mkLikeRow "l1" "p1" "u1"] in
  let acts := fst (Context.toggleLike true env "p1" db) in
  acts = [TOGGLE_LIKE "p1" false (-1)] /\
  likeCounts (run Samples.staleLikes acts)
    = ([Some (-1)], [Some (-1)], [Some (-1)]) /\
  ~ likesNonneg (run Samples.staleLikes acts).
Proof.
  cbv zeta. split; [reflexivity|]. split; [reflexivity|].
  intros H.
  specialize (H (Samples.post "p1" (Some (-1)) (Some 0) (Some false))).
  assert (Hin : In (Samples.post "p1" (Some (-1)) (Some 0) (Some false))
                  (posts (run Samples.staleLikes [TOGGLE_LIKE "p1" false (-1)])
                   ++ userPosts (run Samples.staleLikes [TOGGLE_LIKE "p1" false (-1)])
                   ++ current (run Samples.staleLikes [TOGGLE_LIKE "p1" false (-1)])))
    by (left; reflexivity).
  specialize (H Hin). vm_compute in H. apply H. reflexivity.
Qed.

Lemma toggle_pair_post (cs : list Comment) (pid : string) (p : Post) :
  let p' := postStep cs (TOGGLE_LIKE pid false (-1))
              (postStep cs (TOGGLE_LIKE pid true 1) p) in
  likes p' = likes p /\
  ((id p = pid -> like_count p <> None) -> like_count p' = like_count p).
Proof.
  simpl. destruct (id p =? pid) eqn:E; simpl.
  - rewrite E. unfold likes; simpl. split; [lia|].
    intros H. apply String.eqb_eq in E. specialize (H E).
    destruct (like_count p) as [n|]; [|contradiction]. simpl. f_equal. lia.
  - rewrite E. split; reflexivity.
Qed.

Lemma toggle_pair_views (s : PostsState) (pid : string) :
  let s2 := run s [TOGGLE_LIKE pid true 1; TOGGLE_LIKE pid false (-1)] in
  exists f : Post -> Post,
    (forall p, likes (f p) = likes p /\
               ((id p = pid -> like_count p <> None) ->
                like_count (f p) = like_count p)) /\
    posts s2 = map f (posts s) /\
    userPosts s2 = map f (userPosts s) /\
    current s2 = map f (current s).
Proof.
  cbv zeta. unfold run. cbn [fold_left].
  set (a1 := TOGGLE_LIKE pid true 1). set (a2 := TOGGLE_LIKE pid false (-1)).
  set (s1 := postsReducer s a1).
  exists (fun p => postStep (comments s1) a2 (postStep (comments s) a1 p)).
  split.
  - intros p. exact (toggle_pair_post (comments s) pid p).
  - destruct (sync_posts s a1 eq_refl) as (E1 & E2 & E3).
    fold s1 in E1, E2, E3.
    destruct (sync_posts s1 a2 eq_refl) as (F1 & F2 & F3).
    rewrite F1, F2, F3, E1, E2, E3, !map_map. auto.
Qed.

(** C6.  TOGGLE_LIKE(postId, true, +1) followed by
    TOGGLE_LIKE(postId, false, -1) restores the like_count of that post
    exactly, in every view where it appears (and leaves every other
    post's like_count alone), in the snapshots the program holds: there
    the post carries a like_count, as the view [posts_with_stats]
    supplies one for every post.  The count as the code reads it
    ([like_count || 0]) is restored in every snapshot. *)
Theorem like_toggle_round_trip (s : PostsState) (postId : string) :
  let s2 := run s [TOGGLE_LIKE postId true 1; TOGGLE_LIKE postId false (-1)] in
  readLikes s2 = readLikes s /\
  (hasLikeCount postId s -> likeCounts s2 = likeCounts s).
Proof.
  intros s2.
  destruct (toggle_pair_views s postId) as (f & Hf & E1 & E2 & E3).
  fold s2 in E1, E2, E3.
  unfold readLikes, likeCounts. rewrite E1, E2, E3, !map_map. split.
  - assert (K : forall l, map (fun x => likes (f x)) l = map likes l)
      by (intros l; apply map_ext; intros p; apply Hf).
    rewrite !K. reflexivity.
  - intros Hhas.
    assert (K : forall l,
               (forall p, In p l ->
                          In p (posts s ++ userPosts s ++ current s)) ->
               map (fun x => like_count (f x)) l = map like_count l).
    { intros l Hl. apply map_ext_in. intros p Hp. apply Hf.
      intros Hid. exact (Hhas p (Hl p Hp) Hid). }
    rewrite (K (posts s)), (K (userPosts s)), (K (current s));
      [reflexivity | ..]; intros p Hp; rewrite !in_app_iff; auto.
Qed.

Lemma like_toggle_round_trip_witness :
  hasLikeCount "a" Samples.viewingA /\
  likeCounts (run Samples.viewingA
                [TOGGLE_LIKE "a" true 1; TOGGLE_LIKE "a" false (-1)])
    = likeCounts Samples.viewingA.
Proof.
  assert (H : hasLikeCount "a" Samples.viewingA).
  { intros p Hp _. simpl in Hp.
    destruct Hp as [<-|[<-|[<-|[<-|[]]]]]; discriminate. }
  split; [exact H|].
  exact (proj2 (like_toggle_round_trip Samples.viewingA "a") H).
Defined.

(** *** Comment counts under DELETE_COMMENT *)

Lemma Forall2_In_r {A : Type} (R : A -> A -> Prop) (l l' : list A) (y : A) :
  Forall2 R l l' -> In y l' -> exists x, In x l /\ R x y.
Proof.
  induction 1 as [|x y' l l' Hxy _ IH]; simpl; intros Hin; [contradiction|].
  destruct Hin as [<-|Hin].
  - exists x. auto.
  - destruct (IH Hin) as (x0 & Hx0 & HR). exists x0. auto.
Qed.

Lemma decremented_keptOrFloored (p p' : Post) :
  decremented p p' -> keptOrFloored p p'.
Proof.
  intros [->| ->]; split; simpl; auto.
  right. eexists. split; [reflexivity|]. lia.
Qed.

Lemma keptOrFloored_refl (p : Post) : keptOrFloored p p.
Proof. split; auto. Qed.

Lemma keptOrFloored_trans (p q r : Post) :
  keptOrFloored p q -> keptOrFloored q r -> keptOrFloored p r.
Proof.
  intros [Hi1 H1] [Hi2 H2]. split; [congruence|].
  destruct H2 as [E2|(n & E2 & Hn)].
  - destruct H1 as [E1|(m & E1 & Hm)]; [left; congruence|].
    right. exists m. split; [congruence | exact Hm].
  - right. exists n. auto.
Qed.

Lemma keptOrFloored_nonneg (p p' : Post) :
  keptOrFloored p p' -> 0 <= commentsOf p -> 0 <= commentsOf p'.
Proof.
  unfold commentsOf. intros [_ [E|(n & E & Hn)]] H; rewrite E; simpl; auto.
Qed.

Lemma postStep_delete_decremented (cs : list Comment) (cid : string) (p : Post) :
  decremented p (postStep cs (DELETE_COMMENT cid) p).
Proof.
  unfold decremented, commentsOf. simpl.
  destruct (findComment cs cid) as [d|]; [|left; reflexivity].
  destruct (id p =? c_post_id d); [right | left]; reflexivity.
Qed.

Lemma delete_comment_step (s : PostsState) (cid : string) :
  let s1 := postsReducer s (DELETE_COMMENT cid) in
  Forall2 decremented (posts s) (posts s1) /\
  Forall2 decremented (userPosts s) (userPosts s1) /\
  Forall2 decremented (current s) (current s1).
Proof.
  cbv zeta.
  destruct (sync_posts s (DELETE_COMMENT cid) eq_refl) as (E1 & E2 & E3).
  rewrite E1, E2, E3.
  repeat split; apply Forall2_map_self; intros p;
    apply postStep_delete_decremented.
Qed.

Lemma delete_comment_run (ids : list string) (s : PostsState) :
  let s' := run s (map DELETE_COMMENT ids) in
  Forall2 keptOrFloored (posts s) (posts s') /\
  Forall2 keptOrFloored (userPosts s) (userPosts s') /\
  Forall2 keptOrFloored (current s) (current s').
Proof.
  cbv zeta. revert s. induction ids as [|cid ids IH]; intros s.
  - simpl. repeat split; apply Forall2_same; apply keptOrFloored_refl.
  - simpl. unfold run in IH.
    destruct (IH (postsReducer s (DELETE_COMMENT cid))) as (I1 & I2 & I3).
    destruct (delete_comment_step s cid) as (D1 & D2 & D3).
    repeat split;
      (eapply (Forall2_compose keptOrFloored keptOrFloored_trans);
       [eapply Forall2_impl; [exact decremented_keptOrFloored | eassumption]
       | eassumption]).
Qed.

Lemma delete_absent_comment (s : PostsState) (cid : string) :
  findComment (comments s) cid = None ->
  postsReducer s (DELETE_COMMENT cid) = s.
Proof.
  destruct s as [ps ups cur cs l e r]. simpl. intros Hnone.
  unfold decrementCommentCount. rewrite Hnone, !map_id.
  unfold findComment in Hnone. rewrite (find_none_filter _ _ Hnone).
  destruct cur; reflexivity.
Qed.

Lemma delete_comment_twice (s : PostsState) (cid : string) :
  let s1 := postsReducer s (DELETE_COMMENT cid) in
  postsReducer s1 (DELETE_COMMENT cid) = s1.
Proof.
  cbv zeta. apply delete_absent_comment.
  simpl. unfold findComment. apply find_filter_negb.
Qed.

(** C5.  Under any sequence of DELETE_COMMENT transitions each post of
    each view keeps its comment_count or gets one that is not negative,
    so counts that are not negative stay so; one transition leaves a post
    alone or sets its count to max(count - 1, 0); deleting an identifier
    that is not in the thread changes nothing, and so does deleting the
    same identifier a second time. *)
Theorem comment_count_never_below_zero
    (s : PostsState) (ids : list string) (cid : string) :
  let s' := run s (map DELETE_COMMENT ids) in
  let s1 := postsReducer s (DELETE_COMMENT cid) in
  (Forall2 keptOrFloored (posts s) (posts s') /\
   Forall2 keptOrFloored (userPosts s) (userPosts s') /\
   Forall2 keptOrFloored (current s) (current s')) /\
  (countsNonneg s -> countsNonneg s') /\
  (Forall2 decremented (posts s) (posts s1) /\
   Forall2 decremented (userPosts s) (userPosts s1) /\
   Forall2 decremented (current s) (current s1)) /\
  (findComment (comments s) cid = None -> s1 = s) /\
  postsReducer s1 (DELETE_COMMENT cid) = s1.
Proof.
  cbv zeta.
  pose proof (delete_comment_run ids s) as Hrun. cbv zeta in Hrun.
  split; [exact Hrun|]. split.
  - destruct Hrun as (R1 & R2 & R3). intros Hnn p' Hp'.
    rewrite !in_app_iff in Hp'.
    assert (Hex : exists p, In p (posts s ++ userPosts s ++ current s) /\
                            keptOrFloored p p').
    { destruct Hp' as [Hp'|[Hp'|Hp']];
        [destruct (Forall2_In_r _ _ _ _ R1 Hp') as (p & Hp & HR)
        |destruct (Forall2_In_r _ _ _ _ R2 Hp') as (p & Hp & HR)
        |destruct (Forall2_In_r _ _ _ _ R3 Hp') as (p & Hp & HR)];
        exists p; rewrite !in_app_iff; auto. }
    destruct Hex as (p & Hp & HR).
    exact (keptOrFloored_nonneg p p' HR (Hnn p Hp)).
  - split; [exact (delete_comment_step s cid)|]. split.
    + apply delete_absent_comment.
    + exact (delete_comment_twice s cid).
Qed.

Lemma comment_count_never_below_zero_witness :
  countsNonneg Samples.viewingA /\
  findComment (comments Samples.viewingA) "c9" = None /\
  countsNonneg (run Samples.viewingA
                  (map DELETE_COMMENT ["c1"; "c1"; "c9"; "c1"])) /\
  postsReducer Samples.viewingA (DELETE_COMMENT "c9") = Samples.viewingA.
Proof.
  assert (H : countsNonneg Samples.viewingA).
  { intros p Hp. simpl in Hp.
    destruct Hp as [<-|[<-|[<-|[<-|[]]]]]; vm_compute; discriminate. }
  pose proof (comment_count_never_below_zero Samples.viewingA
                ["c1"; "c1"; "c9"; "c1"] "c9") as T.
  cbv zeta in T. destruct T as (_ & Hnn & _ & Habs & _).
  split; [exact H|]. split; [reflexivity|].
  split; [exact (Hnn H) | exact (Habs eq_refl)].
Defined.

(** The floor at work: with comment_count 0 and a comment of the post
    still in the thread, DELETE_COMMENT leaves the count at 0. *)
Example delete_comment_floor_example :
  let s := mkState [Samples.post "a" (Some 0) (Some 0) (Some false)] []
             None [Samples.comment "c1" "a"] false None false in
  map comment_count (posts (postsReducer s (DELETE_COMMENT "c1")))
    = [Some 0].
Proof. reflexivity. Qed.

(** *** CLEAR_CURRENT_POST *)

(** C8 (as amended).  CLEAR_CURRENT_POST sets the current-post slot to
    null and the comment thread to the empty list in every snapshot and
    touches nothing else.  With no current post the slot stays null, and
    a thread the snapshot still holds is emptied all the same: the
    transition leaves the snapshot as it is exactly when the slot is null
    and the thread is already empty.  Applying it twice is the same as
    applying it once. *)
Theorem clear_current_post (s : PostsState) :
  let s' := postsReducer s CLEAR_CURRENT_POST in
  currentPost s' = None /\
  comments s' = [] /\
  (posts s' = posts s /\ userPosts s' = userPosts s /\
   loading s' = loading s /\ error s' = error s /\
   refreshing s' = refreshing s) /\
  (currentPost s = None -> currentPost s' = currentPost s) /\
  (s' = s <-> currentPost s = None /\ comments s = []) /\
  postsReducer s' CLEAR_CURRENT_POST = s'.
Proof.
  cbv zeta. simpl.
  split; [reflexivity|]. split; [reflexivity|].
  split; [repeat split|]. split; [auto|]. split; [|reflexivity].
  split.
  - intros E. rewrite <- E. split; reflexivity.
  - intros [Hc Hm]. rewrite <- Hc, <- Hm. apply state_eta.
Qed.

Lemma clear_current_post_witness :
  (currentPost Samples.threadOnly = None /\
   currentPost (postsReducer Samples.threadOnly CLEAR_CURRENT_POST)
     = currentPost Samples.threadOnly) /\
  ((currentPost (postsReducer Samples.threadOnly CLEAR_CURRENT_POST) = None /\
    comments (postsReducer Samples.threadOnly CLEAR_CURRENT_POST) = []) /\
   postsReducer (postsReducer Samples.threadOnly CLEAR_CURRENT_POST)
     CLEAR_CURRENT_POST
     = postsReducer Samples.threadOnly CLEAR_CURRENT_POST).
Proof.
  split.
  - split; [reflexivity|].
    pose proof (clear_current_post Samples.threadOnly) as T. cbv zeta in T.
    destruct T as (_ & _ & _ & Hslot & _). exact (Hslot eq_refl).
  - assert (H : currentPost (postsReducer Samples.threadOnly
                               CLEAR_CURRENT_POST) = None /\
                comments (postsReducer Samples.threadOnly
                            CLEAR_CURRENT_POST) = [])
      by (split; reflexivity).
    split; [exact H|].
    pose proof (clear_current_post
                  (postsReducer Samples.threadOnly CLEAR_CURRENT_POST)) as T.
    cbv zeta in T. destruct T as (_ & _ & _ & _ & Hnoop & _).
    exact (proj2 Hnoop H).
Defined.

(** C8 (as stated) fails: after [fetchComments] has loaded a thread while
    no post is open, the slot is null and CLEAR_CURRENT_POST is no no-op
    on the thread. *)
Lemma clear_current_post_counterexample :
  ~ (forall acts : list PostsAction,
        let s := run initialState acts in
        currentPost s = None ->
        currentPost (postsReducer s CLEAR_CURRENT_POST) = currentPost s /\
        comments (postsReducer s CLEAR_CURRENT_POST) = comments s).
Proof.
  intros H.
  specialize (H [SET_POSTS [Samples.post "a" (Some 5) (Some 1) (Some false)];
                 SET_LOADING true; SET_ERROR None;
                 SET_COMMENTS [Samples.comment "c1" "a"]]).
  cbv zeta in H.
  change (run initialState _) with Samples.threadOnly in H.
  destruct (H eq_refl) as [_ Hthread].
  discriminate Hthread.
Qed.

(** *** DELETE_POST and the comment thread *)

Lemma filter_nil_all {A : Type} (f : A -> bool) (l : list A) :
  filter f l = [] -> forall x, In x l -> f x = false.
Proof.
  induction l as [|y l IH]; simpl; intros H x Hx; [contradiction|].
  destruct (f y) eqn:E; [discriminate|].
  destruct Hx as [<-|Hx]; auto.
Qed.

Lemma emptied_thread (s : PostsState) (a : PostsAction) :
  comments s <> [] -> comments (postsReducer s a) = [] ->
  a = CLEAR_CURRENT_POST \/ a = SET_COMMENTS [] \/
  exists cid, a = DELETE_COMMENT cid /\
              forall c, In c (comments s) -> c_id c = cid.
Proof.
  intros Hne. destruct a; simpl; intros He;
    try (exfalso; exact (Hne He)); auto.
  - subst. auto.
  - apply app_eq_nil in He. destruct He; discriminate.
  - apply map_eq_nil in He. contradiction.
  - right. right. exists payload. split; [reflexivity|].
    intros c Hc. pose proof (filter_nil_all _ _ He c Hc) as E.
    apply negb_false_iff in E. apply String.eqb_eq. exact E.
Qed.

(** C9 (as amended).  DELETE_POST leaves the comment thread unchanged,
    also when it clears a matching current-post slot, so deleting the post
    being viewed reaches a snapshot with no current post and a thread that
    is not empty; from a thread that is not empty the only transitions
    that produce an empty one are CLEAR_CURRENT_POST, SET_COMMENTS with an
    empty list, and a DELETE_COMMENT whose identifier is that of every
    comment left in the thread. *)
Theorem delete_post_keeps_thread
    (s : PostsState) (postId : string) (viewed : Post) (c : Comment)
    (a : PostsAction) :
  let s' := postsReducer s (DELETE_POST postId) in
  let stale := run initialState
                 [SET_CURRENT_POST (Some viewed); SET_COMMENTS [c];
                  DELETE_POST (id viewed)] in
  comments s' = comments s /\
  (forall cur, currentPost s = Some cur -> id cur = postId ->
               currentPost s' = None) /\
  (currentPost stale = None /\ comments stale = [c]) /\
  (comments s <> [] -> comments (postsReducer s a) = [] ->
   a = CLEAR_CURRENT_POST \/ a = SET_COMMENTS [] \/
   exists cid, a = DELETE_COMMENT cid /\
               forall c', In c' (comments s) -> c_id c' = cid).
Proof.
  cbv zeta. split; [reflexivity|]. split.
  - intros cur Hcur Hid. simpl. rewrite Hcur.
    apply String.eqb_eq in Hid. rewrite Hid. reflexivity.
  - split.
    + unfold run; simpl. rewrite String.eqb_refl. auto.
    + apply emptied_thread.
Qed.

Lemma delete_post_keeps_thread_witness :
  currentPost Samples.viewingA
    = Some (Samples.post "a" (Some 5) (Some 3) (Some false)) /\
  currentPost (postsReducer Samples.viewingA (DELETE_POST "a")) = None /\
  comments (postsReducer Samples.viewingA (DELETE_POST "a"))
    = comments Samples.viewingA /\
  (CLEAR_CURRENT_POST = CLEAR_CURRENT_POST \/
   CLEAR_CURRENT_POST = SET_COMMENTS [] \/
   exists cid, CLEAR_CURRENT_POST = DELETE_COMMENT cid /\
               forall c', In c' (comments Samples.viewingA) -> c_id c' = cid).
Proof.
  pose proof (delete_post_keeps_thread Samples.viewingA "a"
                (Samples.post "a" (Some 5) (Some 3) (Some false))
                (Samples.comment "c1" "a") CLEAR_CURRENT_POST) as T.
  cbv zeta in T. destruct T as (Hsame & Hclear & _ & Honly).
  split; [reflexivity|]. split; [exact (Hclear _ eq_refl eq_refl)|].
  split; [exact Hsame|].
  apply Honly; [discriminate | reflexivity].
Defined.

(** C9 (as stated) fails on its last part: the thread left behind by
    deleting the viewed post is also emptied by DELETE_COMMENT, which is
    neither CLEAR_CURRENT_POST nor SET_COMMENTS. *)
Lemma delete_post_keeps_thread_counterexample :
  ~ (forall (viewed : Post) (c : Comment) (a : PostsAction),
        let stale := run initialState
                       [SET_CURRENT_POST (Some viewed); SET_COMMENTS [c];
                        DELETE_POST (id viewed)] in
        comments (postsReducer stale a) = [] ->
        isClearOrSetComments a = true).
Proof.
  intros H.
  specialize (H (Samples.post "a" (Some 5) (Some 3) (Some false))
                (Samples.comment "c1" "a") (DELETE_COMMENT "c1")).
  cbv zeta in H. specialize (H eq_refl). discriminate.
Qed.

(** *** ADD_COMMENT *)

Lemma Forall2_pair {A : Type} (R : A -> A -> Prop) (x y : A) (l : list A) :
  Forall2 R [x; y] l -> exists x' y', l = [x'; y'] /\ R x x' /\ R y y'.
Proof.
  intros H. inversion H as [|x0 x' l0 l' Hx Hrest]; subst.
  inversion Hrest as [|y0 y' l1 l'' Hy Hnil]; subst.
  inversion Hnil; subst. exists x', y'. auto.
Qed.

Lemma postStep_add_bumped (cs : list Comment) (c : Comment) (p : Post) :
  let p' := postStep cs (ADD_COMMENT c) p in
  (id p = c_post_id c ->
   comment_count p'
     = Some (match comment_count p with Some n => n + 1 | None => 1 end) /\
   StoreProps.sameButCounters p p' /\
   like_count p' = like_count p /\ is_liked p' = is_liked p) /\
  (id p <> c_post_id c -> p' = p).
Proof.
  simpl. destruct (id p =? c_post_id c) eqn:E.
  - apply String.eqb_eq in E. split; [|intros Hn; contradiction].
    intros _. simpl. split.
    + destruct (comment_count p); reflexivity.
    + unfold StoreProps.sameButCounters; simpl. repeat split.
  - apply String.eqb_neq in E. split; [intros He; contradiction|].
    reflexivity.
Qed.

(** C10.  ADD_COMMENT appends the comment to the thread in every snapshot,
    whatever the current-post slot holds.  In each view, a post whose id
    is the comment's post_id comes out with comment_count one above the
    count it had (1 when it had none) and every other field as before,
    and a post with another id comes out unchanged.  With no current
    post, or a current post with another id, the slot is unchanged and
    the thread still gains the comment. *)
Theorem add_comment_appends (s : PostsState) (c : Comment) :
  let s' := postsReducer s (ADD_COMMENT c) in
  let bumped := fun p p' : Post =>
    (id p = c_post_id c ->
     comment_count p'
       = Some (match comment_count p with Some n => n + 1 | None => 1 end) /\
     StoreProps.sameButCounters p p' /\
     like_count p' = like_count p /\ is_liked p' = is_liked p) /\
    (id p <> c_post_id c -> p' = p) in
  comments s' = (comments s ++ [c])%list /\
  (Forall2 bumped (posts s) (posts s') /\
   Forall2 bumped (userPosts s) (userPosts s') /\
   Forall2 bumped (current s) (current s')) /\
  ((forall cur, currentPost s = Some cur -> id cur <> c_post_id c) ->
   currentPost s' = currentPost s /\ In c (comments s')).
Proof.
  cbv zeta. split; [reflexivity|]. split.
  - destruct (sync_posts s (ADD_COMMENT c) eq_refl) as (E1 & E2 & E3).
    rewrite E1, E2, E3.
    repeat split; apply Forall2_map_self; intros p;
      apply postStep_add_bumped.
  - intros Hcur. simpl. split.
    + destruct (currentPost s) as [cur|] eqn:Ec; [|reflexivity].
      specialize (Hcur cur eq_refl). apply String.eqb_neq in Hcur.
      rewrite Hcur. reflexivity.
    + apply in_or_app. right. left. reflexivity.
Qed.

Lemma add_comment_appends_witness :
  (forall cur, currentPost Samples.viewingA = Some cur ->
               id cur <> c_post_id (Samples.comment "c7" "b")) /\
  currentPost (postsReducer Samples.viewingA
                 (ADD_COMMENT (Samples.comment "c7" "b")))
    = currentPost Samples.viewingA /\
  In (Samples.comment "c7" "b")
     (comments (postsReducer Samples.viewingA
                  (ADD_COMMENT (Samples.comment "c7" "b")))) /\
  map comment_count
    (posts (postsReducer Samples.viewingA
              (ADD_COMMENT (Samples.comment "c7" "b"))))
    = [Some 3; Some 1].
Proof.
  assert (H : forall cur, currentPost Samples.viewingA = Some cur ->
                          id cur <> c_post_id (Samples.comment "c7" "b")).
  { intros cur Hc. injection Hc as <-. discriminate. }
  pose proof (add_comment_appends Samples.viewingA
                (Samples.comment "c7" "b")) as T.
  cbv zeta in T. destruct T as (_ & (Hposts & _ & _) & Hslot).
  split; [exact H|]. destruct (Hslot H) as [Hs Hin].
  split; [exact Hs|]. split; [exact Hin|].
  destruct (Forall2_pair _ _ _ _ Hposts) as (pa' & pb' & E & Ha & Hb).
  rewrite E. destruct Ha as [_ Ha]. destruct Hb as [Hb _].
  assert (Ea : pa' = Samples.post "a" (Some 5) (Some 3) (Some false))
    by (apply Ha; discriminate).
  destruct (Hb eq_refl) as (Eb & _).
  simpl. rewrite Ea, Eb. reflexivity.
Defined.

(** ** The gateway: proofs *)

Section GatewayFacts.
Import Gateway GatewayProps.

Lemma uploadFails_no_url (env : Env) (image : ImageAsset) (user : string) :
  uploadFails env image user = true -> uploadPostImage env image user = None.
Proof.
  unfold uploadFails, uploadPostImage.
  destruct (uploadImage env image user) as [result|e]; [|reflexivity].
  intros H. apply negb_true_iff in H. rewrite H. reflexivity.
Qed.

Lemma truthy_orNull (x : option string) :
  truthy_str x = true -> orNull x = x.
Proof.
  destruct x as [t|]; simpl; [|discriminate].
  destruct (t =? ""); [discriminate | reflexivity].
Qed.

Lemma existsb_false_filter {A : Type} (f : A -> bool) (l : list A) :
  existsb f l = false -> filter f l = [].
Proof.
  induction l as [|x l IH]; simpl; [reflexivity|].
  intros H. apply orb_false_iff in H as [Hx Hl].
  rewrite Hx. auto.
Qed.

Lemma selectLike_no_row (env : Env) (db : Db) (postId user : string) :
  check_fault env = None -> likeExists db postId user = false ->
  selectLike env db postId user = (None, Some no_rows).
Proof.
  unfold selectLike, likeExists. intros -> H.
  rewrite (existsb_false_filter _ _ H). reflexivity.
Qed.
End GatewayFacts.

(** C3 (as amended).  When a signed-in createPost call has an image whose
    upload fails: with empty text content the call ends with the error
    "Post must have either content or an image" and inserts no row; with
    text content that is not empty (and no rejection by the store) the row
    is inserted with that content and a null image reference, and the
    created post is returned. *)
Theorem create_post_failed_upload
    (env : Gateway.Env) (postData : Gateway.CreatePostData)
    (db : Gateway.Db) (image : Gateway.ImageAsset) (user : string) :
  Gateway.getUser env = Gateway.Returned (Some user) ->
  Gateway.d_image postData = Some image ->
  GatewayProps.uploadFails env image user = true ->
  let r := Gateway.createPost env postData db in
  (truthy_str (Gateway.d_content postData) = false ->
   fst r = Gateway.mkDataResult None
             (Some (Gateway.ErrMessage
                      "Post must have either content or an image")) /\
   snd r = db) /\
  (truthy_str (Gateway.d_content postData) = true ->
   Gateway.write_fault env = None ->
   exists row,
     Gateway.posts_tbl (snd r) = (Gateway.posts_tbl db ++ [row])%list /\
     Gateway.r_image_url row = None /\
     Gateway.r_content row = Gateway.d_content postData /\
     (Gateway.read_fault env = None ->
      fst r = Gateway.mkDataResult
                (Some (Gateway.posts_with_stats (snd r) row)) None)).
Proof.
  intros Huser Himg Hup. cbv zeta. unfold Gateway.createPost.
  rewrite Huser, Himg, (uploadFails_no_url env image user Hup). simpl.
  split.
  - intros ->. simpl. auto.
  - intros Hc Hw. rewrite Hc, Hw. simpl.
    exists (Gateway.mkPostRow (Gateway.new_id env) user
              (orNull (Gateway.d_title postData))
              (orNull (Gateway.d_content postData)) None
              (orStr (Gateway.d_category postData) "General")
              (Gateway.now env) (Gateway.now env)).
    destruct (Gateway.read_fault env) as [e|]; simpl;
      (split; [reflexivity|]; split; [reflexivity|];
       split; [apply truthy_orNull; exact Hc|]);
      intros Hr; [discriminate | reflexivity].
Qed.

Lemma create_post_failed_upload_witness :
  GatewayProps.uploadFails Samples.uploadDown Samples.photo "u1" = true /\
  GatewayProps.aborted
    (Gateway.createPost Samples.uploadDown Samples.photoOnly Samples.emptyDb)
    Samples.emptyDb /\
  exists row,
    Gateway.posts_tbl
      (snd (Gateway.createPost Samples.uploadDown Samples.textAndPhoto
              Samples.emptyDb)) = [row] /\
    Gateway.r_image_url row = None /\
    Gateway.r_content row = Some "Planted 3 trees today".
Proof.
  pose proof (create_post_failed_upload Samples.uploadDown Samples.photoOnly
                Samples.emptyDb Samples.photo "u1" eq_refl eq_refl eq_refl)
    as T1.
  pose proof (create_post_failed_upload Samples.uploadDown Samples.textAndPhoto
                Samples.emptyDb Samples.photo "u1" eq_refl eq_refl eq_refl)
    as T2.
  cbv zeta in T1, T2.
  destruct T1 as [Habort _]. destruct T2 as [_ Hins].
  destruct (Habort eq_refl) as [Hres Hdb].
  destruct (Hins eq_refl eq_refl) as (row & Htbl & Hurl & Hcontent & _).
  split; [reflexivity|]. split.
  - unfold GatewayProps.aborted. rewrite Hres, Hdb. simpl.
    split; [reflexivity|]. split; [discriminate | reflexivity].
  - exists row. auto.
Defined.

(** C3 (as stated) fails: with text content, a failed upload does not stop
    the call; the post is inserted without its image. *)
Lemma create_post_failed_upload_counterexample :
  ~ (forall env postData db image user,
        Gateway.getUser env = Gateway.Returned (Some user) ->
        Gateway.d_image postData = Some image ->
        GatewayProps.uploadFails env image user = true ->
        GatewayProps.aborted (Gateway.createPost env postData db) db).
Proof.
  intros H.
  destruct (H Samples.uploadDown Samples.textAndPhoto Samples.emptyDb
              Samples.photo "u1" eq_refl eq_refl eq_refl) as (Hdata & _).
  vm_compute in Hdata. discriminate.
Qed.

(** C4 (as amended).  When toggleLike finds no like row for (post, user)
    and its insert is then rejected by the uniqueness constraint (another
    session inserted the row in between), the gateway returns
    [{ isLiked: false, error }] with the store's error, the row of the other
    session stays, and the action creator dispatches SET_ERROR and no
    TOGGLE_LIKE. *)
Theorem toggle_like_duplicate_insert
    (env : Gateway.Env) (db : Gateway.Db) (postId user : string) :
  Gateway.getUser env = Gateway.Returned (Some user) ->
  Gateway.check_fault env = None ->
  Gateway.likeExists db postId user = false ->
  Gateway.write_fault env = None ->
  Gateway.likeExists (Gateway.other_sessions env db) postId user = true ->
  Gateway.toggleLike env postId db
    = (Gateway.mkLikeResult false (Some Gateway.unique_violation),
       Gateway.other_sessions env db) /\
  fst (Context.toggleLike true env postId db)
    = [SET_ERROR (Some "duplicate key value violates unique constraint")].
Proof.
  intros Huser Hcheck Hnone Hwrite Hdup.
  assert (Ht : Gateway.toggleLike env postId db
               = (Gateway.mkLikeResult false (Some Gateway.unique_violation),
                  Gateway.other_sessions env db)).
  { unfold Gateway.toggleLike.
    rewrite Huser, (selectLike_no_row env db postId user Hcheck Hnone).
    simpl. unfold Gateway.insertLike. rewrite Hwrite, Hdup. reflexivity. }
  split; [exact Ht|].
  unfold Context.toggleLike. simpl. rewrite Ht. reflexivity.
Qed.

Lemma toggle_like_duplicate_insert_witness :
  Gateway.toggleLike Samples.racingSession "p1" Samples.emptyDb
    = (Gateway.mkLikeResult false (Some Gateway.unique_violation),
       Gateway.with_likes Samples.emptyDb
         [Gateway.mkLikeRow "l1" "p1" "u1"]) /\
  fst (Context.toggleLike true Samples.racingSession "p1"
         Samples.emptyDb)
    = [SET_ERROR (Some "duplicate key value violates unique constraint")].
Proof.
  exact (toggle_like_duplicate_insert Samples.racingSession Samples.emptyDb
           "p1" "u1" eq_refl eq_refl eq_refl eq_refl eq_refl).
Defined.

(** C4 (as stated) fails: the duplicate insert is returned to the caller
    as an error, with [isLiked] false. *)
Lemma toggle_like_duplicate_insert_counterexample :
  ~ (forall env db postId user,
        Gateway.getUser env = Gateway.Returned (Some user) ->
        Gateway.check_fault env = None ->
        Gateway.likeExists db postId user = false ->
        Gateway.write_fault env = None ->
        Gateway.likeExists (Gateway.other_sessions env db) postId user = true ->
        GatewayProps.reportsLiked (fst (Gateway.toggleLike env postId db))).
Proof.
  intros H.
  destruct (H Samples.racingSession Samples.emptyDb "p1" "u1"
              eq_refl eq_refl eq_refl eq_refl eq_refl) as [Hliked _].
  vm_compute in Hliked. discriminate.
Qed.

(** ** The moderation adapter: proofs *)

Lemma validation_escape (ai : Moderation.Gemini) (content : string)
    (title category imageUri : option string) :
  Moderation.validatePostContent ai content title category imageUri
    = Moderation.permissive <->
  ModerationProps.violationsCannotSpread ai = true.
Proof.
  unfold Moderation.validatePostContent, Moderation.validateBody,
    Moderation.checkContentModeration,
    ModerationProps.violationsCannotSpread.
  destruct (Moderation.moderation_reply ai) as [| |m]; simpl.
  - destruct (Moderation.hasInappropriate title content); simpl;
      split; discriminate.
  - destruct (Moderation.hasInappropriate title content); simpl;
      split; discriminate.
  - destruct (Moderation.orFalse (Moderation.j_isAppropriate m)); simpl;
      [split; discriminate|].
    destruct (Moderation.j_violations m); simpl;
      split; try discriminate; reflexivity.
Qed.

Lemma validation_combines (ai : Moderation.Gemini) (content : string)
    (title category imageUri : option string) :
  ModerationProps.violationsCannotSpread ai = false ->
  let ecoCheck := Moderation.checkEcoRelevance ai content title category
                    imageUri in
  let moderationCheck := Moderation.checkContentModeration ai content title
                           imageUri in
  let r := Moderation.validatePostContent ai content title category
             imageUri in
  Moderation.isValid r
    = Moderation.e_isEcoRelated ecoCheck
      && Moderation.m_isAppropriate moderationCheck /\
  Moderation.isEcoRelated r = Moderation.e_isEcoRelated ecoCheck /\
  Moderation.confidence r
    = Moderation.numMin (Moderation.e_confidence ecoCheck)
        (Moderation.m_confidence moderationCheck) /\
  (Moderation.isValid r = false ->
   Moderation.suggestions r = Some (Moderation.generateSuggestions ai)).
Proof.
  intros Hs. cbv zeta.
  unfold Moderation.validatePostContent, Moderation.validateBody.
  set (ecoCheck := Moderation.checkEcoRelevance ai content title category
                     imageUri).
  unfold ModerationProps.violationsCannotSpread in Hs.
  unfold Moderation.checkContentModeration.
  destruct (Moderation.moderation_reply ai) as [| |m]; simpl.
  - destruct (Moderation.hasInappropriate title content); simpl;
      destruct (Moderation.e_isEcoRelated ecoCheck); simpl;
      repeat split; auto; discriminate.
  - destruct (Moderation.hasInappropriate title content); simpl;
      destruct (Moderation.e_isEcoRelated ecoCheck); simpl;
      repeat split; auto; discriminate.
  - destruct (Moderation.orFalse (Moderation.j_isAppropriate m)); simpl in *.
    + destruct (Moderation.e_isEcoRelated ecoCheck); simpl;
        repeat split; auto; discriminate.
    + destruct (Moderation.j_violations m); try discriminate; simpl;
        destruct (Moderation.e_isEcoRelated ecoCheck); simpl;
        repeat split; auto; discriminate.
Qed.

(** C7 (as amended).  An unavailable endpoint does not make
    validatePostContent approve.  A check whose request throws or whose
    reply cannot be parsed answers from its keyword list: the eco check
    is positive exactly when title and content hold an eco keyword, with
    confidence 0.6, else 0.3; the moderation check is positive exactly
    when they hold no inappropriate keyword, with confidence 0.5.  The
    permissive result of the outer catch is returned exactly when the
    moderation reply parses to a negative verdict whose violations
    cannot be spread, which a failed request never is; in every other
    case the result combines the two checks: isValid is the conjunction
    of their verdicts, the confidence the minimum of theirs, and a
    rejection carries the suggestions.  So with both requests failed the
    post is approved exactly when it holds an eco keyword and no
    inappropriate keyword (confidence 0.5) and rejected otherwise. *)
Theorem validation_when_unavailable
    (ai : Moderation.Gemini) (content : string)
    (title category imageUri : option string) :
  let ecoCheck := Moderation.checkEcoRelevance ai content title category
                    imageUri in
  let moderationCheck := Moderation.checkContentModeration ai content title
                           imageUri in
  let r := Moderation.validatePostContent ai content title category
             imageUri in
  let eco := Moderation.hasEcoKeywords title content in
  let bad := Moderation.hasInappropriate title content in
  (Moderation.unavailable (Moderation.eco_reply ai) = true ->
   Moderation.e_isEcoRelated ecoCheck = eco /\
   Moderation.e_confidence ecoCheck
     = Moderation.Finite (if eco then 6 # 10 else 3 # 10)) /\
  (Moderation.unavailable (Moderation.moderation_reply ai) = true ->
   Moderation.m_isAppropriate moderationCheck = negb bad /\
   Moderation.m_confidence moderationCheck = Moderation.Finite (5 # 10) /\
   ModerationProps.violationsCannotSpread ai = false) /\
  (r = Moderation.permissive <->
   ModerationProps.violationsCannotSpread ai = true) /\
  (ModerationProps.violationsCannotSpread ai = false ->
   Moderation.isValid r
     = Moderation.e_isEcoRelated ecoCheck
       && Moderation.m_isAppropriate moderationCheck /\
   Moderation.isEcoRelated r = Moderation.e_isEcoRelated ecoCheck /\
   Moderation.confidence r
     = Moderation.numMin (Moderation.e_confidence ecoCheck)
         (Moderation.m_confidence moderationCheck) /\
   (Moderation.isValid r = false ->
    Moderation.suggestions r = Some (Moderation.generateSuggestions ai))) /\
  (Moderation.unavailable (Moderation.eco_reply ai) = true ->
   Moderation.unavailable (Moderation.moderation_reply ai) = true ->
   Moderation.isValid r = eco && negb bad /\
   Moderation.isEcoRelated r = eco /\
   Moderation.confidence r
     = Moderation.Finite (if eco then 5 # 10 else 3 # 10)).
Proof.
  cbv zeta. split; [|split; [|split; [|split]]].
  - intros He. unfold Moderation.checkEcoRelevance.
    destruct (Moderation.eco_reply ai); try discriminate;
      split; reflexivity.
  - intros Hm.
    unfold Moderation.checkContentModeration,
      ModerationProps.violationsCannotSpread.
    destruct (Moderation.moderation_reply ai); try discriminate;
      repeat split; reflexivity.
  - apply validation_escape.
  - intros Hs. apply validation_combines. exact Hs.
  - intros He Hm.
    unfold Moderation.validatePostContent, Moderation.validateBody,
      Moderation.checkEcoRelevance, Moderation.checkContentModeration.
    destruct (Moderation.eco_reply ai); try discriminate;
      destruct (Moderation.moderation_reply ai); try discriminate;
      destruct (Moderation.hasEcoKeywords title content);
      destruct (Moderation.hasInappropriate title content);
      simpl; repeat split; reflexivity.
Qed.

Lemma validation_when_unavailable_witness :
  Moderation.isValid
    (Moderation.validatePostContent Samples.geminiDown
       "Planted 3 trees today" None (Some "Tree Planting") None) = true /\
  Moderation.isValid
    (Moderation.validatePostContent Samples.geminiDown
       "Lunch with friends" (Some "Weekend") None None) = false /\
  (Moderation.isValid
     (Moderation.validatePostContent Samples.moderationDown
        "hello world" None None None) = true /\
   Moderation.confidence
     (Moderation.validatePostContent Samples.moderationDown
        "hello world" None None None) = Moderation.Finite (5 # 10)) /\
  Moderation.isValid
    (Moderation.validatePostContent Samples.ecoDown
       "hello world" None None None) = false /\
  Moderation.validatePostContent Samples.geminiMalformed
    "Lunch with friends" (Some "Weekend") None None = Moderation.permissive.
Proof.
  pose proof (validation_when_unavailable Samples.geminiDown
                "Planted 3 trees today" None (Some "Tree Planting") None)
    as T1.
  pose proof (validation_when_unavailable Samples.geminiDown
                "Lunch with friends" (Some "Weekend") None None) as T2.
  pose proof (validation_when_unavailable Samples.moderationDown
                "hello world" None None None) as T3.
  pose proof (validation_when_unavailable Samples.ecoDown
                "hello world" None None None) as T4.
  pose proof (validation_when_unavailable Samples.geminiMalformed
                "Lunch with friends" (Some "Weekend") None None) as T5.
  cbv zeta in T1, T2, T3, T4, T5.
  destruct T1 as (_ & _ & _ & _ & K1).
  destruct T2 as (_ & _ & _ & _ & K2).
  destruct T3 as (_ & M3 & _ & C3 & _).
  destruct T4 as (E4 & _ & _ & C4 & _).
  destruct T5 as (_ & _ & P5 & _).
  destruct (K1 eq_refl eq_refl) as (V1 & _).
  destruct (K2 eq_refl eq_refl) as (V2 & _).
  destruct (M3 eq_refl) as (A3 & F3 & S3).
  destruct (C3 S3) as (V3 & _ & N3 & _).
  destruct (E4 eq_refl) as (R4 & _).
  destruct (C4 eq_refl) as (V4 & _).
  split; [rewrite V1; reflexivity|].
  split; [rewrite V2; reflexivity|].
  split; [split; [rewrite V3, A3; reflexivity
                 |rewrite N3, F3; reflexivity]|].
  split; [rewrite V4, R4; reflexivity|].
  exact (proj2 P5 eq_refl).
Defined.

(** C7 (as stated) fails: with the endpoint down for every request, a post
    without an eco keyword is rejected. *)
Lemma validation_when_unavailable_counterexample :
  ~ (forall ai content title category imageUri,
        Moderation.unavailable (Moderation.eco_reply ai) = true ->
        Moderation.unavailable (Moderation.moderation_reply ai) = true ->
        Moderation.unavailable (Moderation.suggestions_reply ai) = true ->
        Moderation.isValid
          (Moderation.validatePostContent ai content title category imageUri)
          = true).
Proof.
  intros H.
  specialize (H Samples.geminiDown "hello world" None None None
                eq_refl eq_refl eq_refl).
  vm_compute in H. discriminate.
Qed.

(** ** The store: further properties *)

Import StoreProps.

Lemma state_ext (s t : PostsState) :
  posts s = posts t -> userPosts s = userPosts t ->
  currentPost s = currentPost t -> comments s = comments t ->
  loading s = loading t -> error s = error t ->
  refreshing s = refreshing t -> s = t.
Proof.
  destruct s, t; simpl; intros; subst; reflexivity.
Qed.

Lemma current_inj (s t : PostsState) :
  current s = current t -> currentPost s = currentPost t.
Proof.
  unfold current.
  destruct (currentPost s), (currentPost t); intros E;
    try discriminate; [injection E as ->|]; reflexivity.
Qed.

Lemma map_fix_in {A : Type} (f : A -> A) (l : list A) :
  (forall x, In x l -> f x = x) -> map f l = l.
Proof.
  intros H. rewrite <- (map_id l) at 2. apply map_ext_in. exact H.
Qed.

Lemma in_filter_neq (pid : string) (q : Post) (l : list Post) :
  id q <> pid ->
  (In q (filter (fun post => negb (id post =? pid)) l) <-> In q l).
Proof.
  intros Hq. rewrite filter_In. split; [tauto|].
  intros Hin. split; [exact Hin|].
  apply negb_true_iff. apply String.eqb_neq. exact Hq.
Qed.

(** X1.  Round trip of a post: when no feed holds a post with the new
    post's identifier, ADD_POST followed by DELETE_POST of that identifier
    gives back both feeds, and leaves thread and error slot as they were. *)
Theorem add_post_then_delete_post (s : PostsState) (p : Post) :
  (forall q, In q (posts s ++ userPosts s)%list -> id q <> id p) ->
  let s' := run s [ADD_POST p; DELETE_POST (id p)] in
  posts s' = posts s /\ userPosts s' = userPosts s /\
  comments s' = comments s /\ error s' = error s.
Proof.
  intros Hfresh. unfold run. simpl. rewrite String.eqb_refl. simpl.
  assert (K : forall l, (forall q, In q l -> In q (posts s ++ userPosts s)%list) ->
                        filter (fun post => negb (id post =? id p)) l = l).
  { intros l Hl. apply filter_all. intros q Hq.
    apply negb_true_iff. apply String.eqb_neq. apply Hfresh. auto. }
  rewrite (K (posts s)), (K (userPosts s)); auto;
    intros q Hq; apply in_or_app; auto.
Qed.

Lemma add_post_then_delete_post_witness :
  let p := Samples.post "z" (Some 0) (Some 0) None in
  posts (run Samples.viewingA [ADD_POST p; DELETE_POST "z"])
    = posts Samples.viewingA /\
  userPosts (run Samples.viewingA [ADD_POST p; DELETE_POST "z"])
    = userPosts Samples.viewingA.
Proof.
  cbv zeta.
  assert (H : forall q, In q (posts Samples.viewingA
                              ++ userPosts Samples.viewingA)%list ->
                        id q <> id (Samples.post "z" (Some 0) (Some 0) None)).
  { intros q Hq. simpl in Hq.
    destruct Hq as [<-|[<-|[<-|[]]]]; discriminate. }
  pose proof (add_post_then_delete_post Samples.viewingA
                (Samples.post "z" (Some 0) (Some 0) None) H) as T.
  cbv zeta in T. destruct T as (T1 & T2 & _). split; assumption.
Defined.

(** X2.  DELETE_POST leaves no post with that identifier in any view,
    keeps exactly the posts with another identifier in each view, and a
    second DELETE_POST of the same identifier changes nothing. *)
Theorem delete_post_removes_everywhere (s : PostsState) (postId : string) :
  let s' := postsReducer s (DELETE_POST postId) in
  absentFrom postId s' /\
  (forall q, id q <> postId ->
     (In q (posts s') <-> In q (posts s)) /\
     (In q (userPosts s') <-> In q (userPosts s)) /\
     (In q (current s') <-> In q (current s))) /\
  postsReducer s' (DELETE_POST postId) = s'.
Proof.
  cbv zeta. split; [|split].
  - intros p Hp. unfold views, current in Hp. simpl in Hp.
    rewrite !in_app_iff, !filter_In in Hp.
    assert (Hneg : forall q : Post,
               negb (id q =? postId) = true -> id q <> postId)
      by (intros q Hq; apply String.eqb_neq; apply negb_true_iff; exact Hq).
    destruct Hp as [[_ Hp]|[[_ Hp]|Hp]]; auto.
    destruct (currentPost s) as [cur|]; [|contradiction].
    destruct (id cur =? postId) eqn:E; [contradiction|].
    destruct Hp as [<-|[]]. apply String.eqb_neq. exact E.
  - intros q Hq. simpl.
    split; [apply in_filter_neq; exact Hq|].
    split; [apply in_filter_neq; exact Hq|].
    unfold current. simpl.
    destruct (currentPost s) as [cur|]; [|tauto].
    destruct (id cur =? postId) eqn:E; [|tauto].
    apply String.eqb_eq in E. simpl. split; [tauto|].
    intros [<-|[]]. contradiction.
  - apply state_ext; simpl; try reflexivity.
    + apply filter_all. intros q Hq. apply filter_In in Hq. tauto.
    + apply filter_all. intros q Hq. apply filter_In in Hq. tauto.
    + destruct (currentPost s) as [cur|]; [|reflexivity].
      destruct (id cur =? postId) eqn:E; [reflexivity|].
      rewrite E. reflexivity.
Qed.

(** X3.  The error slot is written by SET_ERROR and CLEAR_ERROR only:
    any run of other transitions, successful mutations included, leaves
    a stale error in place. *)
Theorem stale_error_survives (s : PostsState) (acts : list PostsAction) :
  Forall (fun a => writesError a = false) acts ->
  error (run s acts) = error s.
Proof.
  unfold run. revert s.
  induction acts as [|a acts IH]; intros s Hall; simpl; [reflexivity|].
  inversion Hall as [|a' l Ha Hrest]; subst.
  rewrite (IH _ Hrest). destruct a; simpl in *; try reflexivity; discriminate.
Qed.

Lemma stale_error_survives_witness :
  error (run (postsReducer Samples.viewingA (SET_ERROR (Some "Failed to fetch posts")))
           Samples.syncRun)
    = Some "Failed to fetch posts".
Proof.
  apply (stale_error_survives
           (postsReducer Samples.viewingA
              (SET_ERROR (Some "Failed to fetch posts")))
           Samples.syncRun).
  repeat constructor.
Defined.

Lemma viewwise_map (R : Post -> Post -> Prop) (s s' : PostsState)
    (f : Post -> Post) :
  posts s' = map f (posts s) -> userPosts s' = map f (userPosts s) ->
  current s' = map f (current s) ->
  (forall p, R p (f p)) -> viewwise R s s'.
Proof.
  intros E1 E2 E3 HR. unfold viewwise. rewrite E1, E2, E3.
  repeat split; apply Forall2_map_self; exact HR.
Qed.

Lemma viewwise_sync (R : Post -> Post -> Prop) (s : PostsState)
    (a : PostsAction) :
  isSyncAction a = true ->
  (forall p, R p (postStep (comments s) a p)) ->
  viewwise R s (postsReducer s a).
Proof.
  intros Hs HR. destruct (sync_posts s a Hs) as (E1 & E2 & E3).
  exact (viewwise_map R s _ _ E1 E2 E3 HR).
Qed.

Lemma sameButCounters_refl (p : Post) : sameButCounters p p.
Proof. unfold sameButCounters. repeat split. Qed.

(** X4.  The like and comment transitions touch nothing but their own
    counter: TOGGLE_LIKE changes at most like_count and is_liked of a
    post, ADD_COMMENT and DELETE_COMMENT at most comment_count; the
    identifier, owner, text, image, category, timestamps and owner names
    of every post in every view stay, in the same order, and so do the
    loading, refreshing and error flags. *)
Theorem counter_transitions_frame
    (s : PostsState) (postId : string) (isLiked : bool) (likeDelta : Z)
    (c : Comment) (commentId : string) :
  let flagsKept := fun s' : PostsState =>
    loading s' = loading s /\ refreshing s' = refreshing s /\
    error s' = error s in
  (viewwise onlyLikeChanged s (postsReducer s (TOGGLE_LIKE postId isLiked likeDelta)) /\
   comments (postsReducer s (TOGGLE_LIKE postId isLiked likeDelta)) = comments s /\
   flagsKept (postsReducer s (TOGGLE_LIKE postId isLiked likeDelta))) /\
  (viewwise onlyCommentCountChanged s (postsReducer s (ADD_COMMENT c)) /\
   flagsKept (postsReducer s (ADD_COMMENT c))) /\
  (viewwise onlyCommentCountChanged s (postsReducer s (DELETE_COMMENT commentId)) /\
   flagsKept (postsReducer s (DELETE_COMMENT commentId))).
Proof.
  cbv zeta.
  assert (Hflags : forall x y z : Prop, x -> y -> z -> x /\ y /\ z) by tauto.
  split; [split; [|split; [reflexivity | apply Hflags; reflexivity]]
         |split; (split; [|apply Hflags; reflexivity])].
  - apply viewwise_sync; [reflexivity|]. intros p. simpl.
    destruct (id p =? postId); split; simpl;
      auto using sameButCounters_refl; unfold sameButCounters; simpl;
      repeat split.
  - apply viewwise_sync; [reflexivity|]. intros p. simpl.
    destruct (id p =? c_post_id c); split; simpl;
      auto using sameButCounters_refl; unfold sameButCounters; simpl;
      repeat split.
  - apply viewwise_sync; [reflexivity|]. intros p. simpl.
    destruct (findComment (comments s) commentId) as [d|];
      [destruct (id p =? c_post_id d)|]; split; simpl;
      auto using sameButCounters_refl; unfold sameButCounters; simpl;
      repeat split.
Qed.

(** X5.  An UPDATE_POST whose updates carry none of the keys like_count,
    comment_count and is_liked leaves the three counters of every post in
    every view as they were, and leaves the comment thread alone. *)
Theorem update_post_keeps_counters
    (s : PostsState) (postId : string) (updates : PartialPost) :
  carriesNoCounters updates ->
  viewwise (fun p p' => mutableFields p' = mutableFields p) s
    (postsReducer s (UPDATE_POST postId updates)) /\
  comments (postsReducer s (UPDATE_POST postId updates)) = comments s.
Proof.
  intros (Hl & Hc & Hk). split; [|reflexivity].
  apply viewwise_sync; [reflexivity|]. intros p. simpl.
  destruct (id p =? postId); [|reflexivity].
  unfold mutableFields, merge. simpl. rewrite Hl, Hc, Hk. reflexivity.
Qed.

Lemma update_post_keeps_counters_witness :
  map mutableFields
    (posts (postsReducer Samples.viewingA
              (UPDATE_POST "a" (Samples.retitled "a" "Trees"))))
  = map mutableFields (posts Samples.viewingA).
Proof.
  assert (H : carriesNoCounters (Samples.retitled "a" "Trees"))
    by (repeat split).
  destruct (update_post_keeps_counters Samples.viewingA "a"
              (Samples.retitled "a" "Trees") H) as [[V _] _].
  revert V. generalize (posts Samples.viewingA).
  generalize (posts (postsReducer Samples.viewingA
                       (UPDATE_POST "a" (Samples.retitled "a" "Trees")))).
  intros l' l V. induction V as [|x y l l' E _ IH]; simpl;
    [reflexivity | rewrite E, IH; reflexivity].
Defined.

(** X7.  A transition that names a post no view holds changes no view:
    TOGGLE_LIKE is then the identity on the snapshot, UPDATE_POST and
    DELETE_POST leave the feeds and the current-post slot as they were,
    and ADD_COMMENT for that post only extends the thread. *)
Theorem absent_post_is_noop
    (s : PostsState) (postId : string) (isLiked : bool) (likeDelta : Z)
    (updates : PartialPost) (c : Comment) :
  absentFrom postId s ->
  let sameViews := fun s' : PostsState =>
    posts s' = posts s /\ userPosts s' = userPosts s /\
    currentPost s' = currentPost s in
  postsReducer s (TOGGLE_LIKE postId isLiked likeDelta) = s /\
  sameViews (postsReducer s (UPDATE_POST postId updates)) /\
  sameViews (postsReducer s (DELETE_POST postId)) /\
  (c_post_id c = postId -> sameViews (postsReducer s (ADD_COMMENT c))).
Proof.
  intros Habs. cbv zeta.
  assert (Hsync : forall a,
             isSyncAction a = true ->
             (forall p, In p (views s) -> postStep (comments s) a p = p) ->
             posts (postsReducer s a) = posts s /\
             userPosts (postsReducer s a) = userPosts s /\
             currentPost (postsReducer s a) = currentPost s).
  { intros a Ha Hfix. destruct (sync_posts s a Ha) as (E1 & E2 & E3).
    assert (F3 : current (postsReducer s a) = current s).
    { rewrite E3. apply map_fix_in. intros p Hp. apply Hfix.
      unfold views. rewrite !in_app_iff. auto. }
    rewrite E1, E2. repeat split.
    - apply map_fix_in. intros p Hp. apply Hfix.
      unfold views. rewrite !in_app_iff. auto.
    - apply map_fix_in. intros p Hp. apply Hfix.
      unfold views. rewrite !in_app_iff. auto.
    - apply current_inj. exact F3. }
  assert (Hneq : forall p, In p (views s) -> (id p =? postId) = false)
    by (intros p Hp; apply String.eqb_neq; apply Habs; exact Hp).
  split; [|split; [|split]].
  - destruct (Hsync (TOGGLE_LIKE postId isLiked likeDelta) eq_refl)
      as (E1 & E2 & E3).
    { intros p Hp. simpl. rewrite (Hneq p Hp). reflexivity. }
    apply state_ext; auto.
  - apply Hsync; [reflexivity|].
    intros p Hp. simpl. rewrite (Hneq p Hp). reflexivity.
  - simpl. repeat split.
    + apply filter_all. intros p Hp. rewrite (Hneq p); [reflexivity|].
      unfold views. rewrite !in_app_iff. auto.
    + apply filter_all. intros p Hp. rewrite (Hneq p); [reflexivity|].
      unfold views. rewrite !in_app_iff. auto.
    + destruct (currentPost s) as [cur|] eqn:Ec; [|reflexivity].
      rewrite (Hneq cur); [reflexivity|].
      unfold views, current. rewrite Ec, !in_app_iff. simpl. auto.
  - intros Hc. apply Hsync; [reflexivity|].
    intros p Hp. simpl. rewrite Hc, (Hneq p Hp). reflexivity.
Qed.

Lemma absent_post_is_noop_witness :
  absentFrom "zz" Samples.viewingA /\
  postsReducer Samples.viewingA (TOGGLE_LIKE "zz" true 1) = Samples.viewingA.
Proof.
  assert (H : absentFrom "zz" Samples.viewingA).
  { intros p Hp. simpl in Hp.
    destruct Hp as [<-|[<-|[<-|[<-|[]]]]]; discriminate. }
  split; [exact H|].
  pose proof (absent_post_is_noop Samples.viewingA "zz" true 1
                (Samples.rekeyed "q") (Samples.comment "c5" "zz") H) as T.
  cbv zeta in T. exact (proj1 T).
Defined.

Lemma find_app_last {A : Type} (f : A -> bool) (l : list A) (x : A) :
  find f l = None -> f x = true -> find f (l ++ [x]) = Some x.
Proof.
  induction l as [|y l IH]; simpl; intros Hn Hx; [rewrite Hx; reflexivity|].
  destruct (f y); [discriminate|]. auto.
Qed.

Lemma filter_app_last_drop {A : Type} (f : A -> bool) (l : list A) (x : A) :
  find f l = None -> f x = true ->
  filter (fun y => negb (f y)) (l ++ [x]) = l.
Proof.
  intros Hn Hx. rewrite filter_app. simpl. rewrite Hx. simpl.
  rewrite app_nil_r. apply find_none_filter. exact Hn.
Qed.

(** X6.  Round trip of a comment: when the comment's identifier is new to
    the thread and every post it belongs to shows a comment count that is
    a number not below zero, ADD_COMMENT followed by DELETE_COMMENT of
    that identifier gives back the snapshot exactly. *)
Theorem add_comment_then_delete_comment (s : PostsState) (c : Comment) :
  findComment (comments s) (c_id c) = None ->
  (forall p, In p (views s) -> id p = c_post_id c ->
             exists n, comment_count p = Some n /\ 0 <= n) ->
  run s [ADD_COMMENT c; DELETE_COMMENT (c_id c)] = s.
Proof.
  intros Hnew Hcount. unfold run. cbn [fold_left].
  set (a1 := ADD_COMMENT c). set (a2 := DELETE_COMMENT (c_id c)).
  set (s1 := postsReducer s a1).
  assert (Hc1 : comments s1 = (comments s ++ [c])%list) by reflexivity.
  assert (Hfind : findComment (comments s1) (c_id c) = Some c).
  { rewrite Hc1. unfold findComment in *.
    apply find_app_last; [exact Hnew | apply String.eqb_refl]. }
  assert (Hfix : forall p, In p (views s) ->
             postStep (comments s1) a2 (postStep (comments s) a1 p) = p).
  { intros p Hp. unfold a1, a2. cbn [postStep]. rewrite Hfind.
    destruct (id p =? c_post_id c) eqn:E; simpl; rewrite E; [|reflexivity].
    apply String.eqb_eq in E. destruct (Hcount p Hp E) as (n & Hn & Hpos).
    unfold withCommentCount; simpl. rewrite Hn. simpl.
    replace (Z.max (n + 1 - 1) 0) with n by lia.
    rewrite <- Hn. destruct p; reflexivity. }
  destruct (sync_posts s a1 eq_refl) as (E1 & E2 & E3).
  fold s1 in E1, E2, E3.
  destruct (sync_posts s1 a2 eq_refl) as (F1 & F2 & F3).
  assert (K : forall l, (forall p, In p l -> In p (views s)) ->
              map (postStep (comments s1) a2)
                (map (postStep (comments s) a1) l) = l).
  { intros l Hl. rewrite map_map. apply map_fix_in.
    intros p Hp. apply Hfix. auto. }
  apply state_ext; try reflexivity.
  - rewrite F1, E1. apply K. intros p Hp.
    unfold views. rewrite !in_app_iff. auto.
  - rewrite F2, E2. apply K. intros p Hp.
    unfold views. rewrite !in_app_iff. auto.
  - apply current_inj. rewrite F3, E3. apply K. intros p Hp.
    unfold views. rewrite !in_app_iff. auto.
  - change (filter (fun x => negb (c_id x =? c_id c)) (comments s1)
            = comments s).
    rewrite Hc1. unfold findComment in Hnew.
    apply (filter_app_last_drop (fun x => c_id x =? c_id c));
      [exact Hnew | apply String.eqb_refl].
Qed.

Lemma add_comment_then_delete_comment_witness :
  run Samples.viewingA
    [ADD_COMMENT (Samples.comment "c2" "a"); DELETE_COMMENT "c2"]
  = Samples.viewingA.
Proof.
  apply (add_comment_then_delete_comment Samples.viewingA
           (Samples.comment "c2" "a")).
  - reflexivity.
  - intros p Hp _. simpl in Hp.
    destruct Hp as [<-|[<-|[<-|[<-|[]]]]]; simpl; eexists;
      (split; [reflexivity | lia]).
Defined.

(** X8.  UPDATE_COMMENT replaces the body of the comments with that
    identifier and nothing else: the thread keeps its length and order,
    each comment keeps its identifier, post and author, comments with
    another identifier are unchanged, and feeds, current post and flags are
    untouched; for an identifier that is not in the thread the snapshot is
    unchanged, and applying the same edit twice is the same as once. *)
Theorem update_comment_edits_body
    (s : PostsState) (commentId : string) (body : string) :
  let s' := postsReducer s (UPDATE_COMMENT commentId body) in
  Forall2 (fun c c' =>
             c_id c' = c_id c /\ c_post_id c' = c_post_id c /\
             c_user_id c' = c_user_id c /\
             (c_id c = commentId -> c_content c' = body) /\
             (c_id c <> commentId -> c' = c))
          (comments s) (comments s') /\
  (posts s' = posts s /\ userPosts s' = userPosts s /\
   currentPost s' = currentPost s /\ loading s' = loading s /\
   error s' = error s /\ refreshing s' = refreshing s) /\
  (findComment (comments s) commentId = None -> s' = s) /\
  postsReducer s' (UPDATE_COMMENT commentId body) = s'.
Proof.
  cbv zeta. split; [|split; [|split]].
  - simpl. apply Forall2_map_self. intros c.
    destruct (c_id c =? commentId) eqn:E; simpl.
    + apply String.eqb_eq in E. repeat split; auto. intros Hn. contradiction.
    + apply String.eqb_neq in E. repeat split; auto. intros He. contradiction.
  - simpl. repeat split.
  - intros Hnone. apply state_ext; try reflexivity. simpl.
    apply map_fix_in. intros c Hc. unfold findComment in Hnone.
    rewrite (find_none _ _ Hnone c Hc). reflexivity.
  - apply state_ext; try reflexivity. simpl. rewrite map_map.
    apply map_ext. intros c.
    destruct (c_id c =? commentId) eqn:E; simpl; rewrite E; reflexivity.
Qed.

Lemma update_comment_edits_body_witness :
  findComment (comments Samples.viewingA) "c9" = None /\
  postsReducer Samples.viewingA (UPDATE_COMMENT "c9" "edited")
    = Samples.viewingA.
Proof.
  pose proof (update_comment_edits_body Samples.viewingA "c9" "edited") as T.
  cbv zeta in T. destruct T as (_ & _ & Hnone & _).
  split; [reflexivity | exact (Hnone eq_refl)].
Defined.

(** *** The thread and the current post's counter *)

Lemma find_none_not_id (cs : list Comment) (cid : string) :
  findComment cs cid = None -> ~ In cid (map c_id cs).
Proof.
  unfold findComment. intros Hn Hin.
  apply in_map_iff in Hin as (c & Hc & Hin).
  pose proof (find_none _ _ Hn c Hin) as E. simpl in E.
  rewrite Hc, String.eqb_refl in E. discriminate.
Qed.

Lemma NoDup_ids_filter (f : Comment -> bool) (cs : list Comment) :
  NoDup (map c_id cs) -> NoDup (map c_id (filter f cs)).
Proof.
  induction cs as [|c cs IH]; simpl; intros Hnd; [constructor|].
  inversion Hnd as [|x l Hnot Hrest]; subst.
  destruct (f c); simpl; [|auto].
  constructor; [|auto].
  intros Hin. apply Hnot. apply in_map_iff in Hin as (d & Hd & Hin).
  apply filter_In in Hin as [Hin _]. apply in_map_iff. eauto.
Qed.

Lemma filter_removes_one (cs : list Comment) (d : Comment) :
  NoDup (map c_id cs) -> In d cs ->
  S (List.length (filter (fun c => negb (c_id c =? c_id d)) cs))
    = List.length cs.
Proof.
  induction cs as [|c cs IH]; simpl; intros Hnd Hin; [contradiction|].
  inversion Hnd as [|x l Hnot Hrest]; subst.
  destruct (c_id c =? c_id d) eqn:E; simpl.
  - f_equal. f_equal. apply filter_all. intros x Hx.
    apply negb_true_iff. apply String.eqb_neq. intros Hxd.
    apply Hnot. apply String.eqb_eq in E. rewrite E, <- Hxd.
    apply in_map. exact Hx.
  - f_equal. apply IH; [exact Hrest|].
    destruct Hin as [->|Hin]; [|exact Hin].
    rewrite String.eqb_refl in E. discriminate.
Qed.

(** X9.  The counter follows the thread: in a snapshot whose thread
    belongs to the current post, has distinct comment identifiers, and
    whose current post shows as comment count the length of the thread,
    that stays so after ADD_COMMENT of a new comment of the current post
    and after DELETE_COMMENT of any identifier. *)
Theorem thread_counter_invariant
    (s : PostsState) (c : Comment) (commentId : string) :
  threadCounted s ->
  (freshForCurrent s c -> threadCounted (postsReducer s (ADD_COMMENT c))) /\
  threadCounted (postsReducer s (DELETE_COMMENT commentId)).
Proof.
  intros Hinv. split.
  - intros [Hnew Hpost] cur' Hcur'. simpl in Hcur'.
    destruct (currentPost s) as [cur|] eqn:Ec; [|discriminate].
    destruct (Hinv cur Ec) as (Hall & Hnd & Hlen).
    rewrite (Hpost cur eq_refl), String.eqb_refl in Hcur'.
    injection Hcur' as <-. simpl.
    split; [|split].
    + intros x Hx. apply in_app_or in Hx as [Hx|[<-|[]]]; auto.
    + rewrite map_app. simpl. apply NoDup_app; [exact Hnd | | ].
      * repeat constructor. intros [].
      * intros x Hx [<-|[]]. exact (find_none_not_id _ _ Hnew Hx).
    + unfold commentsOf in *. simpl. rewrite length_app. simpl. lia.
  - destruct (findComment (comments s) commentId) as [d|] eqn:Ef.
    + intros cur' Hcur'.
      assert (Hd : In d (comments s) /\ c_id d = commentId).
      { unfold findComment in Ef. apply find_some in Ef as [Hin E].
        apply String.eqb_eq in E. auto. }
      destruct Hd as [Hin Hid].
      simpl in Hcur'. rewrite Ef in Hcur'.
      destruct (currentPost s) as [cur|] eqn:Ec; [|discriminate].
      destruct (Hinv cur Ec) as (Hall & Hnd & Hlen).
      rewrite (Hall d Hin), String.eqb_refl in Hcur'.
      injection Hcur' as <-. simpl.
      pose proof (filter_removes_one (comments s) d Hnd Hin) as Hone.
      rewrite Hid in Hone.
      split; [|split].
      * intros x Hx. apply filter_In in Hx as [Hx _]. auto.
      * apply NoDup_ids_filter. exact Hnd.
      * unfold commentsOf in *. simpl. lia.
    + rewrite (delete_absent_comment s commentId Ef). exact Hinv.
Qed.

Lemma thread_counter_invariant_witness :
  let s := mkState [] [] (Some (Samples.post "a" (Some 0) (Some 1) None))
             [Samples.comment "c1" "a"] false None false in
  threadCounted s /\
  threadCounted (postsReducer s (ADD_COMMENT (Samples.comment "c2" "a"))) /\
  threadCounted (postsReducer s (DELETE_COMMENT "c1")).
Proof.
  cbv zeta.
  set (s := mkState [] [] (Some (Samples.post "a" (Some 0) (Some 1) None))
              [Samples.comment "c1" "a"] false None false).
  assert (H : threadCounted s).
  { intros cur Hcur. injection Hcur as <-. simpl. split; [|split].
    - intros x [<-|[]]. reflexivity.
    - repeat constructor. intros [].
    - reflexivity. }
  assert (Hf : freshForCurrent s (Samples.comment "c2" "a")).
  { split; [reflexivity|]. intros cur Hcur. injection Hcur as <-.
    reflexivity. }
  destruct (thread_counter_invariant s (Samples.comment "c2" "a") "c1" H)
    as [Hadd Hdel].
  split; [exact H|]. split; [exact (Hadd Hf) | exact Hdel].
Defined.

(** ** The moderation adapter: further properties *)

Section ModerationFacts.
Import Moderation ModerationProps.

Lemma clamp01_bounds (x : Confidence) :
  isNumeric x = true -> inUnit (clamp01 x).
Proof.
  destruct x as [|q|]; simpl; intros H; try discriminate; split;
    try apply Q.le_max_l;
    (apply Q.max_lub; [discriminate | apply Q.le_min_l]).
Qed.

Lemma clamp01_nan (x : Confidence) :
  clamp01 x = NaN <-> isNumeric x = false.
Proof.
  destruct x; simpl; split; intros H; try discriminate; reflexivity.
Qed.

Lemma inUnit_numMin (a b : Num) :
  inUnit a -> inUnit b -> inUnit (numMin a b).
Proof.
  destruct a as [x|], b as [y|]; simpl; try tauto.
  intros [Hx0 Hx1] [Hy0 Hy1]. split.
  - apply Q.min_glb; assumption.
  - eapply Qle_trans; [apply Q.le_min_l | assumption].
Qed.

Lemma numMin_nan (a b : Num) :
  numMin a b = NaN <-> a = NaN \/ b = NaN.
Proof.
  destruct a, b; simpl; split; intros H; auto; try discriminate;
    destruct H; discriminate.
Qed.

Lemma inUnit_or_nan_numMin (a b : Num) :
  (a = NaN \/ inUnit a) -> (b = NaN \/ inUnit b) ->
  numMin a b = NaN \/ inUnit (numMin a b).
Proof.
  intros [->|Ha] [->|Hb]; simpl; auto.
  - destruct a; auto.
  - right. apply inUnit_numMin; assumption.
Qed.

Lemma clamp01_range (x : Confidence) :
  clamp01 x = NaN \/ inUnit (clamp01 x).
Proof.
  destruct (isNumeric x) eqn:E.
  - right. apply clamp01_bounds. exact E.
  - left. apply clamp01_nan. exact E.
Qed.

Lemma eco_confidence_range (ai : Gemini) (content : string)
    (title category imageUri : option string) :
  let c := e_confidence (checkEcoRelevance ai content title category imageUri) in
  (c = NaN \/ inUnit c) /\
  (c = NaN <->
   exists parsed, eco_reply ai = Parsed parsed /\
                  isNumeric (j_confidence parsed) = false).
Proof.
  unfold checkEcoRelevance.
  destruct (eco_reply ai) as [| |parsed]; simpl.
  - split; [right; destruct (hasEcoKeywords title content);
                   split; discriminate|].
    split; [discriminate | intros (j & Hj & _); discriminate].
  - split; [right; destruct (hasEcoKeywords title content);
                   split; discriminate|].
    split; [discriminate | intros (j & Hj & _); discriminate].
  - split; [apply clamp01_range|]. rewrite clamp01_nan. split.
    + intros H. exists parsed. auto.
    + intros (j & Hj & H). injection Hj as <-. exact H.
Qed.

Lemma moderation_confidence_range (ai : Gemini) (content : string)
    (title imageUri : option string) :
  let c := m_confidence (checkContentModeration ai content title imageUri) in
  (c = NaN \/ inUnit c) /\
  (c = NaN <->
   exists parsed, moderation_reply ai = Parsed parsed /\
                  isNumeric (j_mconfidence parsed) = false).
Proof.
  unfold checkContentModeration.
  destruct (moderation_reply ai) as [| |parsed]; simpl.
  - split; [right; split; discriminate|].
    split; [discriminate | intros (j & Hj & _); discriminate].
  - split; [right; split; discriminate|].
    split; [discriminate | intros (j & Hj & _); discriminate].
  - split; [apply clamp01_range|]. rewrite clamp01_nan. split.
    + intros H. exists parsed. auto.
    + intros (j & Hj & H). injection Hj as <-. exact H.
Qed.

Lemma numericReplies_false (ai : Gemini) :
  numericReplies ai = false <->
  (exists parsed, eco_reply ai = Parsed parsed /\
                  isNumeric (j_confidence parsed) = false) \/
  (exists parsed, moderation_reply ai = Parsed parsed /\
                  isNumeric (j_mconfidence parsed) = false).
Proof.
  unfold numericReplies. rewrite andb_false_iff. split.
  - intros [H|H]; [left|right].
    + destruct (eco_reply ai) as [| |j]; try discriminate. exists j. auto.
    + destruct (moderation_reply ai) as [| |j]; try discriminate.
      exists j. auto.
  - intros [(j & Hj & H)|(j & Hj & H)]; rewrite Hj; auto.
Qed.

Lemma toLowerCase_app (a b : string) :
  toLowerCase (a ++ b) = toLowerCase a ++ toLowerCase b.
Proof.
  induction a as [|c a IH]; simpl; [reflexivity | rewrite IH; reflexivity].
Qed.

End ModerationFacts.

(** X10.  The confidence of a validation result is a number between 0
    and 1 whenever the confidence of each reply that parsed is absent or
    a number, whatever the number (negative ones and ones above one are
    clamped) and whichever path produced the result (AI reply, keyword
    fallback, outer catch).  It is NaN exactly when a reply that parsed
    carries a confidence that is no number and the outer catch is not
    reached; it is never a number outside the interval. *)
Theorem validation_confidence_in_unit_interval
    (ai : Moderation.Gemini) (content : string)
    (title category imageUri : option string) :
  let r := Moderation.validatePostContent ai content title category
             imageUri in
  (ModerationProps.numericReplies ai = true ->
   ModerationProps.inUnit (Moderation.confidence r)) /\
  (Moderation.confidence r = Moderation.NaN <->
   ModerationProps.numericReplies ai = false /\
   ModerationProps.violationsCannotSpread ai = false) /\
  (forall q, Moderation.confidence r = Moderation.Finite q ->
             (0 <= q)%Q /\ (q <= 1)%Q).
Proof.
  cbv zeta.
  pose proof (eco_confidence_range ai content title category imageUri)
    as [He Hen]. cbv zeta in He, Hen.
  pose proof (moderation_confidence_range ai content title imageUri)
    as [Hm Hmn]. cbv zeta in Hm, Hmn.
  pose proof (inUnit_or_nan_numMin _ _ He Hm) as Hrange.
  assert (Hnan : Moderation.numMin
                   (Moderation.e_confidence
                      (Moderation.checkEcoRelevance ai content title category
                         imageUri))
                   (Moderation.m_confidence
                      (Moderation.checkContentModeration ai content title
                         imageUri)) = Moderation.NaN <->
                 ModerationProps.numericReplies ai = false)
    by (rewrite numMin_nan, numericReplies_false, Hen, Hmn; reflexivity).
  destruct (ModerationProps.violationsCannotSpread ai) eqn:Hs.
  - apply (validation_escape ai content title category imageUri) in Hs.
    rewrite Hs. simpl. split; [intros _; split; discriminate|]. split.
    + split; [discriminate | intros [_ H]; discriminate].
    + intros q Hq. injection Hq as <-. split; discriminate.
  - destruct (validation_combines ai content title category imageUri Hs)
      as (_ & _ & Hc & _).
    rewrite Hc. split; [|split].
    + intros Hnum. destruct Hrange as [Hr|Hr]; [|exact Hr].
      apply Hnan in Hr. congruence.
    + rewrite Hnan. tauto.
    + intros q Hq. destruct Hrange as [Hr|Hr]; [congruence|].
      rewrite Hq in Hr. exact Hr.
Qed.

Lemma validation_confidence_in_unit_interval_witness :
  ModerationProps.numericReplies Samples.ecoDown = true /\
  ModerationProps.inUnit
    (Moderation.confidence
       (Moderation.validatePostContent Samples.ecoDown
          "Planted 3 trees today" None None None)).
Proof.
  split; [reflexivity|].
  exact (proj1 (validation_confidence_in_unit_interval Samples.ecoDown
                  "Planted 3 trees today" None None None) eq_refl).
Defined.

(** X11.  Shape of a verdict: a rejection always carries suggestions; a
    post judged not eco-related is rejected with at least one reason; an
    approval carries neither reasons nor suggestions, unless it is the
    permissive result of the outer catch. *)
Theorem validation_verdict_shape
    (ai : Moderation.Gemini) (content : string)
    (title category imageUri : option string) :
  let r := Moderation.validatePostContent ai content title category
             imageUri in
  (Moderation.isValid r = false ->
   Moderation.suggestions r = Some (Moderation.generateSuggestions ai)) /\
  (Moderation.isEcoRelated r = false ->
   Moderation.isValid r = false /\ Moderation.reasons r <> []) /\
  (Moderation.isValid r = true ->
   r = Moderation.permissive \/
   (Moderation.isEcoRelated r = true /\ Moderation.reasons r = [] /\
    Moderation.suggestions r = None)).
Proof.
  cbv zeta. unfold Moderation.validatePostContent, Moderation.validateBody.
  destruct (Moderation.e_isEcoRelated
              (Moderation.checkEcoRelevance ai content title category
                 imageUri));
    destruct (Moderation.m_isAppropriate
                (Moderation.checkContentModeration ai content title
                   imageUri));
    simpl;
    try destruct (Moderation.m_violations
                    (Moderation.checkContentModeration ai content title
                       imageUri));
    simpl; repeat split; auto; try discriminate.
Qed.

Lemma validation_verdict_shape_witness :
  Moderation.suggestions
    (Moderation.validatePostContent Samples.geminiDown "Lunch with friends"
       (Some "Weekend") None None)
  = Some (Moderation.generateSuggestions Samples.geminiDown).
Proof.
  pose proof (validation_verdict_shape Samples.geminiDown
                "Lunch with friends" (Some "Weekend") None None) as T.
  cbv zeta in T. destruct T as (Hrej & _). exact (Hrej eq_refl).
Defined.

(** X13.  The keyword fallback does not look at letter case: when both
    checks of two submissions fall back to the keywords, and title and
    content of the two are equal after lowercasing, the two results
    carry the same verdict: isValid, isEcoRelated, confidence, reasons
    and category are equal.  The suggestions come from a request of
    their own, whose prompt holds the content, and are not compared. *)
Theorem fallback_ignores_case
    (ai ai' : Moderation.Gemini) (content content' : string)
    (title title' category category' imageUri imageUri' : option string) :
  Moderation.unavailable (Moderation.eco_reply ai) = true ->
  Moderation.unavailable (Moderation.moderation_reply ai) = true ->
  Moderation.unavailable (Moderation.eco_reply ai') = true ->
  Moderation.unavailable (Moderation.moderation_reply ai') = true ->
  Moderation.toLowerCase content = Moderation.toLowerCase content' ->
  Moderation.toLowerCase (Moderation.show title)
    = Moderation.toLowerCase (Moderation.show title') ->
  ModerationProps.sameVerdict
    (Moderation.validatePostContent ai content title category imageUri)
    (Moderation.validatePostContent ai' content' title' category' imageUri').
Proof.
  intros He Hm He' Hm' Hc Ht.
  assert (Hfull : Moderation.fullText title content
                  = Moderation.fullText title' content').
  { unfold Moderation.fullText.
    rewrite !toLowerCase_app, Hc, Ht. reflexivity. }
  unfold ModerationProps.sameVerdict,
    Moderation.validatePostContent, Moderation.validateBody,
    Moderation.checkEcoRelevance, Moderation.checkContentModeration,
    Moderation.hasEcoKeywords, Moderation.hasInappropriate.
  rewrite Hfull.
  destruct (Moderation.eco_reply ai); try discriminate;
    destruct (Moderation.moderation_reply ai); try discriminate;
    destruct (Moderation.eco_reply ai'); try discriminate;
    destruct (Moderation.moderation_reply ai'); try discriminate;
    destruct (existsb _ Moderation.ecoKeywords);
    destruct (existsb _ Moderation.inappropriateKeywords);
    simpl; repeat split; reflexivity.
Qed.

Lemma fallback_ignores_case_witness :
  ModerationProps.sameVerdict
    (Moderation.validatePostContent Samples.geminiDown "LUNCH WITH FRIENDS"
       (Some "Weekend") None None)
    (Moderation.validatePostContent Samples.suggestionsOnly
       "lunch with friends" (Some "WEEKEND") None None) /\
  Moderation.suggestions
    (Moderation.validatePostContent Samples.geminiDown "LUNCH WITH FRIENDS"
       (Some "Weekend") None None)
  <> Moderation.suggestions
       (Moderation.validatePostContent Samples.suggestionsOnly
          "lunch with friends" (Some "WEEKEND") None None).
Proof.
  split.
  - exact (fallback_ignores_case Samples.geminiDown Samples.suggestionsOnly
             "LUNCH WITH FRIENDS" "lunch with friends"
             (Some "Weekend") (Some "WEEKEND") None None None None
             eq_refl eq_refl eq_refl eq_refl eq_refl eq_refl).
  - discriminate.
Defined.

(** ** Strings: trim, split and join *)

Section TextFacts.
Import Text.

Lemma trimEnd_idem (s : string) : trimEnd (trimEnd s) = trimEnd s.
Proof.
  induction s as [|c s IH]; simpl; [reflexivity|].
  destruct (isSpace c && (trimEnd s =? "")) eqn:E; simpl; [reflexivity|].
  rewrite IH, E. reflexivity.
Qed.

Lemma trimStart_head (s : string) :
  trimStart s = "" \/
  exists c rest, trimStart s = String c rest /\ isSpace c = false.
Proof.
  induction s as [|c s IH]; simpl; [left; reflexivity|].
  destruct (isSpace c) eqn:E; [exact IH|].
  right. exists c, s. auto.
Qed.

Lemma trimStart_fixed (c : ascii) (rest : string) :
  isSpace c = false -> trimStart (String c rest) = String c rest.
Proof. intros E. simpl. rewrite E. reflexivity. Qed.

Lemma trim_head (s : string) :
  trim s = "" \/ exists c rest, trim s = String c rest /\ isSpace c = false.
Proof.
  unfold trim. destruct (trimStart_head s) as [->|(c & rest & -> & E)].
  - left. reflexivity.
  - right. simpl. rewrite E. simpl. eauto.
Qed.

Lemma trim_idem (s : string) : trim (trim s) = trim s.
Proof.
  destruct (trim_head s) as [E|(c & rest & E & Hc)].
  - rewrite E. reflexivity.
  - unfold trim at 1. rewrite E, (trimStart_fixed c rest Hc), <- E.
    unfold trim. apply trimEnd_idem.
Qed.

Lemma split_nonempty (sep : ascii) (s : string) : split sep s <> [].
Proof.
  destruct s as [|c s]; simpl; [discriminate|].
  destruct (Ascii.eqb c sep); [discriminate|].
  destruct (split sep s); discriminate.
Qed.

Lemma split_lacks (sep : ascii) (s : string) :
  lacks sep s = true -> split sep s = [s].
Proof.
  induction s as [|c s IH]; simpl; [reflexivity|].
  intros H. apply andb_true_iff in H as [Hc Hs].
  apply negb_true_iff in Hc. rewrite Hc, (IH Hs). reflexivity.
Qed.

Lemma split_app_sep (sep : ascii) (a b : string) :
  split sep (a ++ String sep b) = (split sep a ++ split sep b)%list.
Proof.
  induction a as [|c a IH]; simpl.
  - rewrite Ascii.eqb_refl. reflexivity.
  - destruct (Ascii.eqb c sep); [rewrite IH; reflexivity|].
    rewrite IH.
    destruct (split sep a) as [|h t] eqn:E;
      [exfalso; exact (split_nonempty sep a E) | reflexivity].
Qed.

Lemma lastTwo_app {A : Type} (l : list A) (x y : A) :
  lastTwo (l ++ [x; y]) = [x; y].
Proof.
  unfold lastTwo. rewrite length_app. simpl.
  replace (List.length l + 2 - 2)%nat with (List.length l) by lia.
  rewrite skipn_app, skipn_all, Nat.sub_diag. reflexivity.
Qed.

End TextFacts.

Lemma split_file_path (user fileName : string) :
  Text.lacks "/" user = true -> Text.lacks "/" fileName = true ->
  Text.split "/" (user ++ "/" ++ fileName) = [user; fileName].
Proof.
  intros Hu Hf.
  change (user ++ "/" ++ fileName) with (user ++ String "/" fileName).
  rewrite split_app_sep, (split_lacks _ _ Hu), (split_lacks _ _ Hf).
  reflexivity.
Qed.

Lemma imagePath_public_url (base user fileName : string) :
  Text.lacks "/" user = true -> Text.lacks "/" fileName = true ->
  Service.imagePath (base ++ "/" ++ user ++ "/" ++ fileName)
  = user ++ "/" ++ fileName.
Proof.
  intros Hu Hf. unfold Service.imagePath.
  change (base ++ "/" ++ user ++ "/" ++ fileName)
    with (base ++ String "/" (user ++ "/" ++ fileName)).
  rewrite split_app_sep, (split_file_path user fileName Hu Hf), lastTwo_app.
  reflexivity.
Qed.

Lemma removeObject_own (user fileName : string) (objs : list string) :
  Text.lacks "/" user = true -> Text.lacks "/" fileName = true ->
  Service.removeObject user (user ++ "/" ++ fileName) objs
  = filter (fun o => negb (o =? user ++ "/" ++ fileName)) objs.
Proof.
  intros Hu Hf. unfold Service.removeObject, Service.inFolderOf.
  rewrite (split_file_path user fileName Hu Hf), String.eqb_refl.
  reflexivity.
Qed.

(** X20.  The storage path read back from an image URL: for a public URL
    made of any prefix, the owner's id and the file name, separated by
    "/", where neither the id nor the file name holds a "/", the path
    deletePost computes is "id/file name", the path the upload stored the
    object under, and removing it as that owner takes the object out of
    the bucket. *)
Theorem image_path_round_trip
    (base user fileName : string) (objs : list string) :
  Text.lacks "/" user = true -> Text.lacks "/" fileName = true ->
  let filePath := user ++ "/" ++ fileName in
  Service.imagePath (base ++ "/" ++ filePath) = filePath /\
  ~ In filePath (Service.removeObject user filePath objs) /\
  (forall o, o <> filePath ->
     (In o (Service.removeObject user filePath objs) <-> In o objs)).
Proof.
  intros Hu Hf. cbv zeta.
  rewrite (removeObject_own user fileName objs Hu Hf).
  split; [exact (imagePath_public_url base user fileName Hu Hf)|]. split.
  - intros Hin. apply filter_In in Hin as [_ Hin].
    rewrite String.eqb_refl in Hin. discriminate.
  - intros o Ho. rewrite filter_In. split; [tauto|].
    intros Hin. split; [exact Hin|].
    apply negb_true_iff. apply String.eqb_neq. exact Ho.
Qed.

Lemma image_path_round_trip_witness :
  Service.imagePath
    "https://x.supabase.co/storage/v1/object/public/posts/u1/17-ab.jpg"
  = "u1/17-ab.jpg".
Proof.
  exact (proj1 (image_path_round_trip
                  "https://x.supabase.co/storage/v1/object/public/posts"
                  "u1" "17-ab.jpg" [] eq_refl eq_refl)).
Defined.

(** ** The posts service: further properties *)

Section ServiceFacts.
Import Gateway Service ServiceProps.

Lemma db_eta (db : Db) :
  mkDb (posts_tbl db) (likes_tbl db) (comments_tbl db) (users_tbl db) = db.
Proof. destruct db; reflexivity. Qed.

Lemma likeKey_match (l : LikeRow) (postId user : string) :
  (l_post_id l =? postId) && (l_user_id l =? user) = true
  <-> likeKey l = (postId, user).
Proof.
  unfold likeKey. rewrite andb_true_iff, !String.eqb_eq.
  split; [intros [-> ->]; reflexivity | intros E; injection E; auto].
Qed.

Lemma filter_none {A : Type} (f : A -> bool) (l : list A) :
  (forall x, In x l -> f x = false) -> filter f l = [].
Proof.
  induction l as [|x l IH]; simpl; intros H; [reflexivity|].
  rewrite (H x (or_introl eq_refl)). auto.
Qed.

(** The two ways a toggle runs in a quiet store. *)
Lemma toggle_like_quiet (env : Env) (db : Db) (postId user : string) :
  getUser env = Returned (Some user) -> quiet env db ->
  likesWellFormed db ->
  (likeExists db postId user = false /\
   toggleLike env postId db
   = (mkLikeResult true None,
      with_likes db
        (likes_tbl db ++ [mkLikeRow (new_id env) postId user]))) \/
  (exists l l1 l2,
     likes_tbl db = (l1 ++ l :: l2)%list /\
     likeKey l = (postId, user) /\
     likeExists db postId user = true /\
     (forall x, In x (l1 ++ l2)%list ->
                likeKey x <> (postId, user) /\ l_id x <> l_id l) /\
     toggleLike env postId db
     = (mkLikeResult false None, with_likes db (l1 ++ l2))).
Proof.
  intros Huser (Hquiet & Hwrite & Hcheck) (Hids & Hkeys).
  destruct (likeExists db postId user) eqn:Hex.
  - right. unfold likeExists in Hex.
    apply existsb_exists in Hex as (l & Hin & Hl).
    apply likeKey_match in Hl.
    destruct (in_split l (likes_tbl db) Hin) as (l1 & l2 & Hsplit).
    exists l, l1, l2.
    assert (Hrest : forall x, In x (l1 ++ l2)%list ->
                      likeKey x <> (postId, user) /\ l_id x <> l_id l).
    { rewrite Hsplit, !map_app in Hids, Hkeys. simpl in Hids, Hkeys.
      apply NoDup_remove_2 in Hids. apply NoDup_remove_2 in Hkeys.
      rewrite <- map_app in Hids, Hkeys.
      intros x Hx. split; intros E.
      - apply Hkeys. rewrite Hl, <- E. apply in_map. exact Hx.
      - apply Hids. rewrite <- E. apply in_map. exact Hx. }
    split; [exact Hsplit|]. split; [exact Hl|].
    split; [reflexivity|]. split; [exact Hrest|].
    assert (Hsel : filter (fun x => (l_post_id x =? postId)
                                    && (l_user_id x =? user)) (likes_tbl db)
                   = [l]).
    { rewrite Hsplit, filter_app. simpl.
      rewrite (proj2 (likeKey_match l postId user) Hl).
      rewrite (filter_none _ l1), (filter_none _ l2); [reflexivity | |];
        intros x Hx;
        (destruct ((l_post_id x =? postId) && (l_user_id x =? user)) eqn:E;
         [|reflexivity]);
        apply likeKey_match in E; exfalso;
        (assert (Hx' : In x (l1 ++ l2)%list) by (apply in_or_app; auto));
        exact (proj1 (Hrest x Hx') E). }
    assert (Hdel : filter (fun x => negb (l_id x =? l_id l)) (likes_tbl db)
                   = (l1 ++ l2)%list).
    { rewrite Hsplit, filter_app. simpl. rewrite String.eqb_refl. simpl.
      rewrite (filter_all _ l1), (filter_all _ l2); [reflexivity | |];
        intros x Hx; apply negb_true_iff; apply String.eqb_neq;
        apply (Hrest x); apply in_or_app; auto. }
    unfold toggleLike, selectLike. rewrite Huser, Hcheck, Hsel. simpl.
    unfold deleteLike. rewrite Hwrite, Hquiet, Hdel. reflexivity.
  - left. split; [reflexivity|].
    unfold toggleLike.
    rewrite Huser, (selectLike_no_row env db postId user Hcheck Hex).
    simpl. unfold insertLike. rewrite Hwrite, Hquiet, Hex. reflexivity.
Qed.

Lemma likeCount_app (db : Db) (rows1 rows2 : list LikeRow) (q : string) :
  likeCountOf (with_likes db (rows1 ++ rows2)) q
  = likeCountOf (with_likes db rows1) q + likeCountOf (with_likes db rows2) q.
Proof.
  unfold likeCountOf. simpl. rewrite filter_app, length_app. lia.
Qed.

Lemma likeCount_with_likes (db : Db) (q : string) :
  likeCountOf (with_likes db (likes_tbl db)) q = likeCountOf db q.
Proof. reflexivity. Qed.

End ServiceFacts.





(** X16.  The local update agrees with a refetch: if getPost returned
    post [p] before a quiet signed-in toggleLike on it, then getPost after
    the toggle returns [p] with [is_liked] set to the result's [isLiked]
    and [like_count] moved by the dispatched delta, which is the post
    TOGGLE_LIKE writes into the views. *)
Theorem toggle_like_matches_refetch
    (env : Gateway.Env) (db : Gateway.Db) (postId user : string) (p : Post) :
  Gateway.getUser env = Gateway.Returned (Some user) ->
  ServiceProps.quiet env db ->
  Gateway.read_fault env = None ->
  ServiceProps.likesWellFormed db ->
  Gateway.data (Service.getPost env postId db) = Some p ->
  let r := fst (Gateway.toggleLike env postId db) in
  let db' := snd (Gateway.toggleLike env postId db) in
  Gateway.data (Service.getPost env postId db')
  = Some (withLike p (Gateway.isLiked r)
            (if Gateway.isLiked r then 1 else -1)).
Proof.
  intros Huser Hq Hread Hwf Hdata. cbv zeta.
  pose proof Hq as (_ & _ & Hcheck).
  unfold Service.getPost in Hdata. rewrite Huser, Hread in Hdata.
  destruct (filter (fun r => Gateway.r_id r =? postId) (Gateway.posts_tbl db))
    as [|row [|row' rest]] eqn:Hrows; try discriminate.
  assert (Hid : Gateway.r_id row = postId).
  { assert (Hin : In row (filter (fun r => Gateway.r_id r =? postId)
                            (Gateway.posts_tbl db)))
      by (rewrite Hrows; left; reflexivity).
    apply filter_In in Hin as [_ E]. apply String.eqb_eq. exact E. }
  simpl in Hdata. injection Hdata as <-.
  destruct (toggle_like_quiet env db postId user Huser Hq Hwf)
    as [[Hex Ht]|(l & l1 & l2 & Hsplit & Hl & Hex & Hrest & Ht)];
    rewrite Ht; simpl fst; simpl snd; cbv iota;
    unfold Service.getPost; rewrite Huser, Hread;
    simpl Gateway.posts_tbl; rewrite Hrows;
    unfold Gateway.selectLike; rewrite Hcheck; simpl; rewrite Hid.
  - unfold Gateway.likeExists in Hex.
    rewrite !filter_app, (existsb_false_filter _ _ Hex). simpl.
    rewrite !String.eqb_refl. simpl.
    unfold withLike. simpl. rewrite length_app. simpl.
    do 2 f_equal. f_equal. lia.
  - assert (Hp : Gateway.l_post_id l = postId)
      by (unfold ServiceProps.likeKey in Hl; injection Hl; auto).
    assert (Hnone : filter (fun x => (Gateway.l_post_id x =? postId)
                                     && (Gateway.l_user_id x =? user))
                      (l1 ++ l2) = []).
    { apply filter_none. intros x Hx.
      destruct ((Gateway.l_post_id x =? postId)
                && (Gateway.l_user_id x =? user)) eqn:E; [|reflexivity].
      apply likeKey_match in E. exfalso. exact (proj1 (Hrest x Hx) E). }
    rewrite Hnone. simpl. unfold withLike. simpl.
    rewrite Hsplit, !filter_app, !length_app. simpl.
    apply String.eqb_eq in Hp. rewrite Hp. simpl.
    do 2 f_equal. f_equal. lia.
Qed.

Lemma toggle_like_matches_refetch_witness :
  exists p,
    Gateway.data (Service.getPost MoreSamples.quietEnv "p1"
                    MoreSamples.smallDb) = Some p /\
    Gateway.data
      (Service.getPost MoreSamples.quietEnv "p1"
         (snd (Gateway.toggleLike MoreSamples.quietEnv "p1"
                 MoreSamples.smallDb)))
    = Some (withLike p true 1).
Proof.
  eexists. split; [reflexivity|].
  assert (Hq : ServiceProps.quiet MoreSamples.quietEnv MoreSamples.smallDb)
    by (repeat split).
  assert (Hw : ServiceProps.likesWellFormed MoreSamples.smallDb).
  { split; simpl; repeat constructor; simpl; intros H;
      repeat (destruct H as [H|H]; try discriminate); exact H. }
  exact (toggle_like_matches_refetch MoreSamples.quietEnv MoreSamples.smallDb
           "p1" "u1" _ eq_refl Hq eq_refl Hw eq_refl).
Defined.

Section CreateFacts.
Import Gateway Service ServiceProps.

Lemma truthy_orNull_same (x : option string) :
  truthy_str (orNull x) = truthy_str x.
Proof.
  destruct x as [t|]; simpl; [|reflexivity].
  destruct (t =? "") eqn:E; simpl; [reflexivity | rewrite E; reflexivity].
Qed.

Lemma orStr_nonempty (x : option string) (d : string) :
  d <> "" -> orStr x d <> "".
Proof.
  intros Hd. destruct x as [t|]; simpl; [|exact Hd].
  destruct (t =? "") eqn:E; [exact Hd | apply String.eqb_neq; exact E].
Qed.

End CreateFacts.

(** X17.  What createPost writes: it never touches likes, comments or
    users, and either leaves the posts as they were or appends exactly one
    row, owned by the session user, with the identifier the store assigned,
    a category that is not empty ("General" by default) and text content or
    an image; whenever it returns a post, that post is the view of the row
    it appended and no error comes with it. *)
Theorem create_post_appends_one_row
    (env : Gateway.Env) (postData : Gateway.CreatePostData)
    (db : Gateway.Db) :
  let r := fst (Gateway.createPost env postData db) in
  let db' := snd (Gateway.createPost env postData db) in
  (Gateway.likes_tbl db' = Gateway.likes_tbl db /\
   Gateway.comments_tbl db' = Gateway.comments_tbl db /\
   Gateway.users_tbl db' = Gateway.users_tbl db) /\
  (db' = db \/
   exists user row,
     Gateway.getUser env = Gateway.Returned (Some user) /\
     Gateway.posts_tbl db' = (Gateway.posts_tbl db ++ [row])%list /\
     Gateway.r_user_id row = user /\
     Gateway.r_id row = Gateway.new_id env /\
     Gateway.r_category row <> "" /\
     ServiceProps.hasContentOrImage row /\
     (forall post, Gateway.data r = Some post ->
        post = Gateway.posts_with_stats db' row /\
        Gateway.data_error r = None)) /\
  (db' = db -> Gateway.data r = None).
Proof.
  cbv zeta. unfold Gateway.createPost.
  destruct (Gateway.getUser env) as [[user|]|e]; simpl;
    try (repeat split; auto; fail).
  set (imageUrl := match Gateway.d_image postData with
                   | Some image => Gateway.uploadPostImage env image user
                   | None => None
                   end).
  destruct (negb (truthy_str (Gateway.d_content postData))
            && negb (truthy_str imageUrl)) eqn:Egate; simpl;
    [repeat split; auto|].
  destruct (Gateway.write_fault env) as [werr|]; simpl;
    [repeat split; auto|].
  set (row := Gateway.mkPostRow (Gateway.new_id env) user
                (orNull (Gateway.d_title postData))
                (orNull (Gateway.d_content postData)) imageUrl
                (orStr (Gateway.d_category postData) "General")
                (Gateway.now env) (Gateway.now env)).
  assert (Hrow : Gateway.r_category row <> ""
                 /\ ServiceProps.hasContentOrImage row).
  { split; [apply orStr_nonempty; discriminate|].
    unfold ServiceProps.hasContentOrImage. simpl.
    rewrite truthy_orNull_same.
    apply andb_false_iff in Egate as [E|E]; apply negb_false_iff in E; auto. }
  assert (Hne : forall d : Gateway.Db,
             Gateway.with_posts db (Gateway.posts_tbl db ++ [row]) = db ->
             False).
  { intros _ E. apply (f_equal Gateway.posts_tbl) in E. simpl in E.
    apply (f_equal (@List.length _)) in E. rewrite length_app in E.
    simpl in E. lia. }
  destruct (Gateway.read_fault env) as [rerr|]; simpl.
  - split; [auto|]. split.
    + right. exists user, row.
      do 4 (split; [reflexivity|]). split; [apply Hrow|].
      split; [apply Hrow|]. intros post Hpost. discriminate.
    + reflexivity.
  - split; [auto|]. split.
    + right. exists user, row.
      do 4 (split; [reflexivity|]). split; [apply Hrow|].
      split; [apply Hrow|]. intros post Hpost.
      injection Hpost as <-. split; reflexivity.
    + intros E. exfalso. exact (Hne db E).
Qed.

Lemma create_post_appends_one_row_witness :
  Gateway.data (fst (Gateway.createPost Samples.uploadDown Samples.photoOnly
                       Samples.emptyDb)) = None.
Proof.
  pose proof (create_post_appends_one_row Samples.uploadDown
                Samples.photoOnly Samples.emptyDb) as T.
  cbv zeta in T. destruct T as (_ & _ & Hsame).
  exact (Hsame eq_refl).
Defined.

(** ** The action creators: properties *)

Lemma create_post_shape
    (env : Gateway.Env) (postData : Gateway.CreatePostData)
    (db : Gateway.Db) (post : Post) :
  Gateway.data (fst (Gateway.createPost env postData db)) = Some post ->
  exists row,
    fst (Gateway.createPost env postData db)
      = Gateway.mkDataResult
          (Some (Gateway.posts_with_stats
                   (snd (Gateway.createPost env postData db)) row)) None /\
    snd (Gateway.createPost env postData db)
      = Gateway.with_posts db (Gateway.posts_tbl db ++ [row]) /\
    Gateway.r_id row = Gateway.new_id env.
Proof.
  unfold Gateway.createPost.
  destruct (Gateway.getUser env) as [[user|]|e]; simpl; try discriminate.
  destruct (negb (truthy_str (Gateway.d_content postData)) && _); simpl;
    try discriminate.
  destruct (Gateway.write_fault env); simpl; try discriminate.
  destruct (Gateway.read_fault env); simpl; try discriminate.
  intros _. eexists. repeat split.
Qed.

(** X18.  A created post enters both feeds first: when the gateway returns
    the new post, the createPost action creator returns true and its
    dispatches leave a snapshot whose global feed and user feed start with
    that post, with loading false and the error slot cleared; if no like
    and no comment refers to the identifier the store assigned, the post
    shows like_count 0 and comment_count 0, and its is_liked is absent. *)
Theorem created_post_heads_both_feeds
    (env : Gateway.Env) (postData : Gateway.CreatePostData)
    (db : Gateway.Db) (s : PostsState) (post : Post) :
  Gateway.data (fst (Gateway.createPost env postData db)) = Some post ->
  let d := fst (Creators.createPost true env postData db) in
  let s' := run s (Creators.dispatched d) in
  Creators.returned d = true /\
  posts s' = post :: posts s /\
  userPosts s' = post :: userPosts s /\
  currentPost s' = currentPost s /\ comments s' = comments s /\
  loading s' = false /\ error s' = None /\
  id post = Gateway.new_id env /\
  is_liked post = None /\
  (ServiceProps.unreferenced (Gateway.new_id env) db ->
   like_count post = Some 0 /\ comment_count post = Some 0).
Proof.
  intros Hdata. cbv zeta.
  destruct (create_post_shape env postData db post Hdata)
    as (row & Hres & Hdb & Hid).
  rewrite Hres in Hdata. simpl in Hdata. injection Hdata as Hpost.
  unfold Creators.createPost. simpl negb. cbv iota.
  destruct (Gateway.createPost env postData db) as [res db'] eqn:Hc.
  simpl in Hres, Hdb, Hpost. rewrite Hres. simpl. rewrite Hpost.
  do 7 (split; [reflexivity|]).
  split; [rewrite <- Hpost; exact Hid|].
  split; [rewrite <- Hpost; reflexivity|].
  intros (Hlikes & Hcomments). rewrite <- Hpost. simpl.
  rewrite Hdb. simpl. rewrite Hid.
  rewrite (filter_none _ (Gateway.likes_tbl db)),
          (filter_none _ (Gateway.comments_tbl db)); [split; reflexivity | |].
  - intros c Hin. apply String.eqb_neq. apply Hcomments. exact Hin.
  - intros l Hin. apply String.eqb_neq. apply Hlikes. exact Hin.
Qed.

Lemma created_post_heads_both_feeds_witness :
  let postData := Gateway.mkCreatePostData None
                    (Some "Planted 3 trees today") None None in
  exists post,
    posts (run initialState
             (Creators.dispatched
                (fst (Creators.createPost true MoreSamples.quietEnv postData
                        MoreSamples.smallDb)))) = [post] /\
    like_count post = Some 0 /\ comment_count post = Some 0 /\
    category post = "General".
Proof.
  cbv zeta. eexists.
  pose proof (created_post_heads_both_feeds MoreSamples.quietEnv
                (Gateway.mkCreatePostData None
                   (Some "Planted 3 trees today") None None)
                MoreSamples.smallDb initialState _ eq_refl) as T.
  cbv zeta in T.
  destruct T as (_ & Hposts & _ & _ & _ & _ & _ & _ & _ & Hzero).
  split; [exact Hposts|].
  assert (Hun : ServiceProps.unreferenced
                  (Gateway.new_id MoreSamples.quietEnv) MoreSamples.smallDb).
  { split; intros x Hx; simpl in Hx;
      repeat (destruct Hx as [<-|Hx]; [discriminate|]); contradiction. }
  destruct (Hzero Hun) as [Hl Hc].
  split; [exact Hl|]. split; [exact Hc | reflexivity].
Defined.

Section DeleteFacts.
Import Gateway Service ServiceProps.



Lemma filter_single_self {A : Type} (f : A -> bool) (l : list A) (x : A) :
  filter f l = [x] -> In x l /\ f x = true.
Proof.
  intros E. apply filter_In. rewrite E. left. reflexivity.
Qed.


End DeleteFacts.

(** X19.  Deleting someone else's post changes nothing: when the post
    exists and its owner is not the session user, deletePost returns the
    error "You can only delete your own posts" and leaves tables and
    storage as they were; the action creator returns false, and after its
    dispatches the feeds and the current post are unchanged, loading is
    false and the error slot holds the generic "Failed to delete post",
    the gateway's own message being a bare string. *)
Theorem delete_post_of_another_user
    (env : Gateway.Env) (postId user : string) (cloud : Service.Cloud)
    (post : Gateway.PostRow) (s : PostsState) :
  Gateway.getUser env = Gateway.Returned (Some user) ->
  Gateway.check_fault env = None ->
  filter (fun r => Gateway.r_id r =? postId)
    (Gateway.posts_tbl (Service.tables cloud)) = [post] ->
  Gateway.r_user_id post <> user ->
  Service.deletePost env postId cloud
  = (Service.mkErrorResult
       (Some (Gateway.ErrMessage "You can only delete your own posts")),
     cloud) /\
  let d := fst (Creators.deletePost true env postId cloud) in
  let s' := run s (Creators.dispatched d) in
  Creators.returned d = false /\
  snd (Creators.deletePost true env postId cloud) = cloud /\
  posts s' = posts s /\ userPosts s' = userPosts s /\
  currentPost s' = currentPost s /\ comments s' = comments s /\
  loading s' = false /\ error s' = Some "Failed to delete post".
Proof.
  intros Hu Hc Hrows Howner.
  assert (Hd : Service.deletePost env postId cloud
               = (Service.mkErrorResult
                    (Some (Gateway.ErrMessage
                             "You can only delete your own posts")),
                  cloud)).
  { unfold Service.deletePost. rewrite Hu, Hc, Hrows.
    apply String.eqb_neq in Howner. rewrite Howner. reflexivity. }
  split; [exact Hd|]. cbv zeta.
  unfold Creators.deletePost. simpl negb. cbv iota. rewrite Hd. simpl.
  repeat split.
Qed.

Lemma delete_post_of_another_user_witness :
  Service.deletePost MoreSamples.quietEnv "p2" MoreSamples.smallCloud
  = (Service.mkErrorResult
       (Some (Gateway.ErrMessage "You can only delete your own posts")),
     MoreSamples.smallCloud).
Proof.
  assert (Hne : Gateway.r_user_id MoreSamples.bikeRow <> "u1")
    by discriminate.
  exact (proj1 (delete_post_of_another_user MoreSamples.quietEnv "p2" "u1"
                  MoreSamples.smallCloud MoreSamples.bikeRow initialState
                  eq_refl eq_refl eq_refl Hne)).
Defined.



Lemma append_sep_nonempty (a b : string) (c : ascii) :
  (a ++ String c b =? "") = false.
Proof. destruct a; reflexivity. Qed.

Lemma deletePostWith_removes (env : Gateway.Env) (postId : string)
    (cloud : Service.Cloud) :
  Service.deletePostWith Service.StorageRemoves env postId cloud
  = Service.deletePost env postId cloud.
Proof.
  unfold Service.deletePostWith, Service.deletePost.
  destruct (Gateway.getUser env) as [[user|]|e]; try reflexivity.
  destruct (Gateway.check_fault env); [reflexivity|].
  destruct (filter _ _) as [|post [|? ?]]; try reflexivity.
  destruct (negb _); [reflexivity|].
  destruct (Gateway.r_image_url post) as [image_url|]; [|reflexivity].
  destruct (image_url =? ""); reflexivity.
Qed.

(** What [deletePost] does, for each reply of the storage service, once
    it has fetched the user's own post with an image. *)
Lemma delete_own_post_with (storage : Service.StorageReply)
    (env : Gateway.Env) (postId user : string) (cloud : Service.Cloud)
    (post : Gateway.PostRow) (image_url : string) :
  Gateway.getUser env = Gateway.Returned (Some user) ->
  Gateway.check_fault env = None ->
  filter (fun r => Gateway.r_id r =? postId)
    (Gateway.posts_tbl (Service.tables cloud)) = [post] ->
  Gateway.r_user_id post = user ->
  Gateway.r_image_url post = Some image_url ->
  (image_url =? "") = false ->
  Service.deletePostWith storage env postId cloud
  = let rowDelete := fun objects' =>
      match Gateway.write_fault env with
      | Some error =>
          (Service.mkErrorResult (Some error),
           Service.mkCloud (Service.tables cloud) objects')
      | None =>
          (Service.mkErrorResult None,
           Service.mkCloud
             (Service.deletePostRow (Service.tables cloud) postId user)
             objects')
      end in
    match storage with
    | Service.StorageRemoves =>
        rowDelete (Service.removeObject user (Service.imagePath image_url)
                     (Service.objects cloud))
    | Service.StorageRefuses => rowDelete (Service.objects cloud)
    | Service.StorageThrows e =>
        (Service.mkErrorResult (Some (Gateway.ErrThrown e)), cloud)
    end.
Proof.
  intros Hu Hc Hrows Howner Hurl Hne. unfold Service.deletePostWith.
  rewrite Hu, Hc, Hrows, Howner, String.eqb_refl, Hurl, Hne. simpl.
  destruct storage; reflexivity.
Qed.

(** X22.  The image goes first, and what happens to it is not looked at.
    When the user deletes an own post whose image URL ends in
    "owner id/file name": if the storage service carries the removal
    out, that object and no other leaves the bucket, whether or not the
    row delete then succeeds, and if the store rejects the row delete
    the error is returned and the tables are unchanged, so the post
    stays while its image is gone; if the storage service refuses, the
    bucket is unchanged and the row delete goes ahead all the same; if
    the storage call throws, the thrown error is returned and neither
    bucket nor tables change. *)
Theorem delete_post_removes_image_first
    (storage : Service.StorageReply)
    (env : Gateway.Env) (postId user : string) (cloud : Service.Cloud)
    (post : Gateway.PostRow) (base fileName : string) :
  Gateway.getUser env = Gateway.Returned (Some user) ->
  Gateway.check_fault env = None ->
  filter (fun r => Gateway.r_id r =? postId)
    (Gateway.posts_tbl (Service.tables cloud)) = [post] ->
  Gateway.r_user_id post = user ->
  Gateway.r_image_url post
    = Some (base ++ "/" ++ user ++ "/" ++ fileName) ->
  Text.lacks "/" user = true -> Text.lacks "/" fileName = true ->
  let r := fst (Service.deletePostWith storage env postId cloud) in
  let cloud' := snd (Service.deletePostWith storage env postId cloud) in
  (storage = Service.StorageRemoves ->
   ~ In (user ++ "/" ++ fileName) (Service.objects cloud') /\
   (forall o, o <> user ++ "/" ++ fileName ->
      (In o (Service.objects cloud') <-> In o (Service.objects cloud))) /\
   (forall error, Gateway.write_fault env = Some error ->
      r = Service.mkErrorResult (Some error) /\
      Service.tables cloud' = Service.tables cloud)) /\
  (storage = Service.StorageRefuses ->
   Service.objects cloud' = Service.objects cloud /\
   (Gateway.write_fault env = None ->
    r = Service.mkErrorResult None /\
    Service.tables cloud'
      = Service.deletePostRow (Service.tables cloud) postId user)) /\
  (forall e, storage = Service.StorageThrows e ->
   r = Service.mkErrorResult (Some (Gateway.ErrThrown e)) /\
   cloud' = cloud).
Proof.
  intros Hu Hc Hrows Howner Hurl Hlu Hlf. cbv zeta.
  assert (Hne : (base ++ "/" ++ user ++ "/" ++ fileName =? "") = false)
    by exact (append_sep_nonempty base (user ++ "/" ++ fileName) "/").
  pose proof (delete_own_post_with storage env postId user cloud post _
                Hu Hc Hrows Howner Hurl Hne) as Hd.
  cbv zeta in Hd. rewrite Hd. clear Hd.
  split; [|split].
  - intros ->.
    rewrite (imagePath_public_url base user fileName Hlu Hlf),
            (removeObject_own user fileName _ Hlu Hlf).
    assert (Hobj : forall (x : Service.ErrorResult * Service.Cloud),
               x = match Gateway.write_fault env with
                   | Some error =>
                       (Service.mkErrorResult (Some error),
                        Service.mkCloud (Service.tables cloud)
                          (filter (fun o =>
                                     negb (o =? user ++ "/" ++ fileName))
                             (Service.objects cloud)))
                   | None =>
                       (Service.mkErrorResult None,
                        Service.mkCloud
                          (Service.deletePostRow (Service.tables cloud)
                             postId user)
                          (filter (fun o =>
                                     negb (o =? user ++ "/" ++ fileName))
                             (Service.objects cloud)))
                   end ->
               Service.objects (snd x)
               = filter (fun o => negb (o =? user ++ "/" ++ fileName))
                   (Service.objects cloud))
      by (intros x ->; destruct (Gateway.write_fault env); reflexivity).
    rewrite (Hobj _ eq_refl). split; [|split].
    + intros Hin. apply filter_In in Hin as [_ Hin].
      rewrite String.eqb_refl in Hin. discriminate.
    + intros o Ho. rewrite filter_In. split; [tauto|].
      intros Hin. split; [exact Hin|].
      apply negb_true_iff. apply String.eqb_neq. exact Ho.
    + intros error Hw. rewrite Hw. split; reflexivity.
  - intros ->. split.
    + destruct (Gateway.write_fault env); reflexivity.
    + intros Hw. rewrite Hw. split; reflexivity.
  - intros e ->. split; reflexivity.
Qed.

Lemma delete_post_removes_image_first_witness :
  (Service.objects
     (snd (Service.deletePostWith Service.StorageRemoves
             MoreSamples.rejectingEnv "p1" MoreSamples.smallCloud))
     = ["u7/9-zz.png"] /\
   Service.tables
     (snd (Service.deletePostWith Service.StorageRemoves
             MoreSamples.rejectingEnv "p1" MoreSamples.smallCloud))
     = MoreSamples.smallDb) /\
  Service.objects
    (snd (Service.deletePostWith Service.StorageRefuses
            MoreSamples.rejectingEnv "p1" MoreSamples.smallCloud))
    = Service.objects MoreSamples.smallCloud /\
  Service.deletePostWith (Service.StorageThrows "network")
    MoreSamples.quietEnv "p1" MoreSamples.smallCloud
  = (Service.mkErrorResult (Some (Gateway.ErrThrown "network")),
     MoreSamples.smallCloud).
Proof.
  pose proof (delete_post_removes_image_first Service.StorageRemoves
                MoreSamples.rejectingEnv "p1"
                "u1" MoreSamples.smallCloud MoreSamples.treeRow
                "https://x.supabase.co/storage/v1/object/public/posts"
                "17-ab.jpg" eq_refl eq_refl eq_refl eq_refl eq_refl
                eq_refl eq_refl) as T1.
  pose proof (delete_post_removes_image_first Service.StorageRefuses
                MoreSamples.rejectingEnv "p1"
                "u1" MoreSamples.smallCloud MoreSamples.treeRow
                "https://x.supabase.co/storage/v1/object/public/posts"
                "17-ab.jpg" eq_refl eq_refl eq_refl eq_refl eq_refl
                eq_refl eq_refl) as T2.
  pose proof (delete_post_removes_image_first
                (Service.StorageThrows "network")
                MoreSamples.quietEnv "p1"
                "u1" MoreSamples.smallCloud MoreSamples.treeRow
                "https://x.supabase.co/storage/v1/object/public/posts"
                "17-ab.jpg" eq_refl eq_refl eq_refl eq_refl eq_refl
                eq_refl eq_refl) as T3.
  cbv zeta in T1, T2, T3.
  destruct T1 as (Hrem & _ & _). destruct T2 as (_ & Href & _).
  destruct T3 as (_ & _ & Hthr).
  destruct (Hrem eq_refl) as (_ & _ & Hrej).
  destruct (Hrej _ eq_refl) as [_ Htab].
  destruct (Href eq_refl) as [Hobj _].
  destruct (Hthr _ eq_refl) as [Hr Hc].
  split; [split; [reflexivity | exact Htab]|].
  split; [exact Hobj|].
  rewrite <- Hr, <- Hc. apply surjective_pairing.
Defined.

(** X23.  What addComment stores: for a signed-in user, content that is
    blank after trimming is refused with "Comment content cannot be empty"
    and nothing is written; a comment on a post that does not exist is
    refused by the foreign key and nothing is written; otherwise exactly
    one comment is appended, by that user on that post, whose body is the
    trimmed content (so trimming it again changes nothing), the post's
    comment count in the view grows by one, posts and likes are untouched,
    and the action creator dispatches ADD_COMMENT with that row. *)
Theorem add_comment_stores_trimmed
    (env : Gateway.Env) (commentData : Service.CreateCommentData)
    (db : Gateway.Db) (user : string) :
  Gateway.getUser env = Gateway.Returned (Some user) ->
  let r := fst (Service.addComment env commentData db) in
  let db' := snd (Service.addComment env commentData db) in
  let body := Text.trim (Service.cd_content commentData) in
  let postId := Service.cd_post_id commentData in
  (body = "" ->
   r = Gateway.mkDataResult None
         (Some (Gateway.ErrMessage "Comment content cannot be empty")) /\
   db' = db) /\
  (body <> "" -> Gateway.write_fault env = None ->
   (Service.postExists db postId = false ->
    r = Gateway.mkDataResult None (Some Service.foreign_key_violation) /\
    db' = db) /\
   (Service.postExists db postId = true ->
    exists row,
      r = Gateway.mkDataResult (Some row) None /\
      Gateway.comments_tbl db' = (Gateway.comments_tbl db ++ [row])%list /\
      c_content row = body /\ Text.trim (c_content row) = c_content row /\
      c_post_id row = postId /\ c_user_id row = user /\
      ServiceProps.commentCountOf db' postId
        = ServiceProps.commentCountOf db postId + 1 /\
      Gateway.posts_tbl db' = Gateway.posts_tbl db /\
      Gateway.likes_tbl db' = Gateway.likes_tbl db /\
      fst (Creators.addComment true env commentData db)
        = Creators.mkDispatch [ADD_COMMENT row] true)).
Proof.
  intros Hu. cbv zeta.
  unfold Creators.addComment. simpl negb. cbv iota.
  unfold Service.addComment. rewrite Hu. split.
  - intros ->. simpl. split; reflexivity.
  - intros Hbody Hw. apply String.eqb_neq in Hbody. rewrite Hbody, Hw.
    split; intros Hex; rewrite Hex; simpl; [split; reflexivity|].
    eexists. split; [reflexivity|]. split; [reflexivity|].
    split; [reflexivity|]. split; [apply trim_idem|].
    split; [reflexivity|]. split; [reflexivity|]. split.
    + unfold ServiceProps.commentCountOf. simpl.
      rewrite filter_app, length_app. simpl. rewrite String.eqb_refl.
      simpl. lia.
    + repeat split.
Qed.

Lemma add_comment_stores_trimmed_witness :
  exists row,
    fst (Service.addComment MoreSamples.quietEnv
           (Service.mkCreateCommentData "p2" "  Nice ride  ")
           MoreSamples.smallDb)
    = Gateway.mkDataResult (Some row) None /\
    c_content row = "Nice ride".
Proof.
  pose proof (add_comment_stores_trimmed MoreSamples.quietEnv
                (Service.mkCreateCommentData "p2" "  Nice ride  ")
                MoreSamples.smallDb "u1" eq_refl) as T.
  cbv zeta in T. destruct T as [_ Hok].
  assert (Hne : Text.trim "  Nice ride  " <> "") by discriminate.
  destruct (Hok Hne eq_refl) as [_ Hins].
  destruct (Hins eq_refl) as (row & Hr & _ & Hbody & _).
  exists row. split; [exact Hr | exact Hbody].
Defined.

(** X24.  deleteComment deletes only the user's own comment: for a
    signed-in user and no store fault it never reports an error; the
    comments with that identifier written by the user are gone, every other
    comment stays; in particular, for a comment that is missing or belongs
    to someone else the tables are unchanged, while the action creator
    still returns true and dispatches DELETE_COMMENT, which takes the
    comment out of the local thread. *)
Theorem delete_comment_only_own
    (env : Gateway.Env) (commentId user : string) (db : Gateway.Db) :
  Gateway.getUser env = Gateway.Returned (Some user) ->
  Gateway.write_fault env = None ->
  let r := fst (Service.deleteComment env commentId db) in
  let db' := snd (Service.deleteComment env commentId db) in
  Service.only_error r = None /\
  (forall c, In c (Gateway.comments_tbl db') <->
             In c (Gateway.comments_tbl db) /\
             (c_id c <> commentId \/ c_user_id c <> user)) /\
  ((forall c, In c (Gateway.comments_tbl db) -> c_id c = commentId ->
              c_user_id c <> user) -> db' = db) /\
  fst (Creators.deleteComment true env commentId db)
  = Creators.mkDispatch [DELETE_COMMENT commentId] true /\
  (forall s c, In c (comments (postsReducer s (DELETE_COMMENT commentId))) ->
               c_id c <> commentId).
Proof.
  intros Hu Hw. cbv zeta.
  unfold Creators.deleteComment. simpl negb. cbv iota.
  unfold Service.deleteComment. rewrite Hu, Hw. simpl.
  split; [reflexivity|]. split; [|split; [|split; [reflexivity|]]].
  - intros c. rewrite filter_In. unfold Service.ownComment.
    rewrite negb_true_iff, andb_false_iff, !String.eqb_neq. tauto.
  - intros Hforeign. unfold Gateway.with_posts, Service.with_comments.
    rewrite filter_all; [apply db_eta|].
    intros c Hc. unfold Service.ownComment.
    apply negb_true_iff. apply andb_false_iff.
    destruct (c_id c =? commentId) eqn:E; [right | left; reflexivity].
    apply String.eqb_neq. apply Hforeign; [exact Hc|].
    apply String.eqb_eq. exact E.
  - intros s c Hc. apply filter_In in Hc as [_ Hc].
    apply String.eqb_neq. apply negb_true_iff. exact Hc.
Qed.

Lemma delete_comment_only_own_witness :
  snd (Service.deleteComment MoreSamples.quietEnv "c1" MoreSamples.smallDb)
  = MoreSamples.smallDb.
Proof.
  pose proof (delete_comment_only_own MoreSamples.quietEnv "c1" "u1"
                MoreSamples.smallDb eq_refl eq_refl) as T.
  cbv zeta in T. destruct T as (_ & _ & Hsame & _).
  apply Hsame. intros c Hc _. simpl in Hc.
  destruct Hc as [<-|[]]. discriminate.
Defined.

(** X25.  updateComment stores the trimmed body and dispatches the
    untrimmed one: when the signed-in user owns exactly one comment with
    that identifier and the content is not blank, the stored row keeps its
    identifier, post, author and creation time and gets the trimmed
    content, the other comments are unchanged, and the action creator
    dispatches UPDATE_COMMENT with the content as typed, so thread and
    store agree exactly when the content had no surrounding white space;
    when the user owns no such comment the call fails with the "no rows"
    error and changes nothing. *)
Theorem update_comment_trims
    (env : Gateway.Env) (commentId content user : string)
    (db : Gateway.Db) :
  Gateway.getUser env = Gateway.Returned (Some user) ->
  Gateway.write_fault env = None ->
  Text.trim content <> "" ->
  let r := fst (Service.updateComment env commentId content db) in
  let db' := snd (Service.updateComment env commentId content db) in
  (forall old,
     filter (Service.ownComment commentId user) (Gateway.comments_tbl db)
       = [old] ->
     exists row,
       r = Gateway.mkDataResult (Some row) None /\
       c_id row = c_id old /\ c_post_id row = c_post_id old /\
       c_user_id row = c_user_id old /\
       c_created_at row = c_created_at old /\
       c_content row = Text.trim content /\
       In row (Gateway.comments_tbl db') /\
       (forall c, In c (Gateway.comments_tbl db) ->
                  Service.ownComment commentId user c = false ->
                  In c (Gateway.comments_tbl db')) /\
       List.length (Gateway.comments_tbl db')
         = List.length (Gateway.comments_tbl db) /\
       fst (Creators.updateComment true env commentId content db)
         = Creators.mkDispatch [UPDATE_COMMENT commentId content] true) /\
  (filter (Service.ownComment commentId user) (Gateway.comments_tbl db) = [] ->
   r = Gateway.mkDataResult None (Some Gateway.no_rows) /\ db' = db).
Proof.
  intros Hu Hw Hbody. cbv zeta. apply String.eqb_neq in Hbody.
  unfold Creators.updateComment. simpl negb. cbv iota.
  unfold Service.updateComment. rewrite Hu, Hbody, Hw. split.
  - intros old Hold. rewrite Hold. simpl.
    eexists. do 6 (split; [reflexivity|]).
    destruct (filter_single_self _ _ _ Hold) as [Hin Hown].
    split; [|split; [|split; [apply length_map | reflexivity]]].
    + apply in_map_iff. exists old. rewrite Hown. auto.
    + intros c Hc Hnot. apply in_map_iff. exists c. rewrite Hnot. auto.
  - intros ->. split; reflexivity.
Qed.

Lemma update_comment_trims_witness :
  let db := Gateway.mkDb [MoreSamples.bikeRow] []
              [mkComment "c4" "p2" "u1" "Nice" "2025-01-01T12:00:00Z"
                 "2025-01-01T12:00:00Z" None None] [] in
  exists row,
    fst (Service.updateComment MoreSamples.quietEnv "c4" " Nice ride " db)
    = Gateway.mkDataResult (Some row) None /\
    c_content row = "Nice ride" /\
    fst (Creators.updateComment true MoreSamples.quietEnv "c4"
           " Nice ride " db)
    = Creators.mkDispatch [UPDATE_COMMENT "c4" " Nice ride "] true.
Proof.
  cbv zeta.
  assert (Hne : Text.trim " Nice ride " <> "") by discriminate.
  pose proof (update_comment_trims MoreSamples.quietEnv "c4" " Nice ride "
                "u1"
                (Gateway.mkDb [MoreSamples.bikeRow] []
                   [mkComment "c4" "p2" "u1" "Nice" "2025-01-01T12:00:00Z"
                      "2025-01-01T12:00:00Z" None None] [])
                eq_refl eq_refl Hne) as T.
  cbv zeta in T. destruct T as [Hok _].
  destruct (Hok _ eq_refl)
    as (row & Hr & _ & _ & _ & _ & Hbody & _ & _ & _ & Hdisp).
  exists row. split; [exact Hr|]. split; [exact Hbody | exact Hdisp].
Defined.

Lemma delete_post_removes_everywhere_witness :
  In (Samples.post "b" (Some 0) (Some 0) (Some false))
     (posts (postsReducer Samples.viewingA (DELETE_POST "a"))) /\
  currentPost (postsReducer Samples.viewingA (DELETE_POST "a")) = None.
Proof.
  pose proof (delete_post_removes_everywhere Samples.viewingA "a") as T.
  cbv zeta in T. destruct T as (_ & Hkeep & _).
  assert (Hne : id (Samples.post "b" (Some 0) (Some 0) (Some false)) <> "a")
    by discriminate.
  destruct (Hkeep _ Hne) as (Hposts & _ & _).
  split; [|reflexivity].
  apply Hposts. right. left. reflexivity.
Defined.

(** X12.  The createPost action creator reports what it did: whatever
    the session, the upload and the store answer, after its dispatches
    loading is false; when it returns false the feeds, the current post
    and the thread are as before and the error slot holds a message; when
    it returns true the error slot is empty and both feeds start with the
    post the gateway returned. *)
Theorem create_post_creator_outcome
    (isUser : bool) (env : Gateway.Env) (postData : Gateway.CreatePostData)
    (db : Gateway.Db) (s : PostsState) :
  let d := fst (Creators.createPost isUser env postData db) in
  let s' := run s (Creators.dispatched d) in
  loading s' = false /\
  currentPost s' = currentPost s /\ comments s' = comments s /\
  (Creators.returned d = false ->
   posts s' = posts s /\ userPosts s' = userPosts s /\
   error s' <> None) /\
  (Creators.returned d = true ->
   error s' = None /\
   exists post,
     Gateway.data (fst (Gateway.createPost env postData db)) = Some post /\
     posts s' = post :: posts s /\ userPosts s' = post :: userPosts s).
Proof.
  cbv zeta. unfold Creators.createPost.
  destruct isUser; simpl negb; cbv iota.
  - destruct (Gateway.createPost env postData db) as [res db'].
    destruct res as [[post|] [e|]]; simpl;
      (split; [reflexivity|]; split; [reflexivity|]; split; [reflexivity|]);
      split; intros H; try discriminate;
      try (repeat split; discriminate).
    split; [reflexivity|]. exists post. repeat split.
  - simpl. do 3 (split; [reflexivity|]).
    split; intros H; [repeat split; discriminate | discriminate].
Qed.

Lemma create_post_creator_outcome_witness :
  error (run initialState
           (Creators.dispatched
              (fst (Creators.createPost true Samples.uploadDown
                      Samples.photoOnly Samples.emptyDb))))
  = Some "Failed to create post".
Proof.
  pose proof (create_post_creator_outcome true Samples.uploadDown
                Samples.photoOnly Samples.emptyDb initialState) as T.
  cbv zeta in T. destruct T as (_ & _ & _ & Hfail & _).
  destruct (Hfail eq_refl) as (_ & _ & Herr).
  destruct (error _) as [m|] eqn:E; [|contradiction].
  vm_compute in E. injection E as <-. reflexivity.
Defined.
